(** * Scraper.py: the data cleaning and validation core, embedded in Rocq

    The development follows [src/Scraper.py].  Python values that reach the
    core come from [resp.json()]; they are embedded as the inductive type
    [pyval].  A Python [str] is a Rocq [string] (one [ascii] per character:
    the embedding covers ASCII text).  A Python exception is an explicit
    [Raise] result.  The [re] module is embedded as a small backtracking
    matcher over the constructs the program's patterns use, and each pattern
    of the source is written as a term of the type [regex].

    The HTML parser of BeautifulSoup is not part of the repository: it is a
    variable of the section that holds the program. *)

From Stdlib Require Import String Ascii List Bool Arith ZArith Lia.
From Stdlib Require Import DecimalString Permutation.
Import ListNotations.
Local Open Scope list_scope.
Local Open Scope string_scope.

(* ===================================================================== *)
(** ** Characters *)
(* ===================================================================== *)

Module Char.

Definition code (c : ascii) : nat := nat_of_ascii c.

Definition between (lo hi : nat) (c : ascii) : bool :=
  Nat.leb lo (code c) && Nat.leb (code c) hi.

(** [str.isupper] / [str.islower] on one character. *)
Definition isupper (c : ascii) : bool := between 65 90 c.
Definition islower (c : ascii) : bool := between 97 122 c.

(** A cased character: what [str.title] looks at. *)
Definition iscased (c : ascii) : bool := isupper c || islower c.

(** [\d] *)
Definition isdigit (c : ascii) : bool := between 48 57 c.

(** [\w] *)
Definition isword (c : ascii) : bool :=
  iscased c || isdigit c || Nat.eqb (code c) 95.

(** [str.isspace], which is also [\s]: TAB LF VT FF CR, FS GS RS US and the space. *)
Definition isspace (c : ascii) : bool :=
  between 9 13 c || between 28 32 c.

Definition lower (c : ascii) : ascii :=
  if isupper c then ascii_of_nat (code c + 32) else c.

Definition upper (c : ascii) : ascii :=
  if islower c then ascii_of_nat (code c - 32) else c.

Definition eqb_nocase (a b : ascii) : bool := Ascii.eqb (lower a) (lower b).

End Char.

(* ===================================================================== *)
(** ** The methods of [str] the program calls *)
(* ===================================================================== *)

Module Str.

Fixpoint map (f : ascii -> ascii) (s : string) : string :=
  match s with
  | EmptyString => EmptyString
  | String c s' => String (f c) (map f s')
  end.

(** [s.lower()] *)
Definition lower (s : string) : string := map Char.lower s.

(** [s.lstrip()] *)
Fixpoint lstrip (s : string) : string :=
  match s with
  | EmptyString => EmptyString
  | String c s' => if Char.isspace c then lstrip s' else s
  end.

(** [s.rstrip(chars)], the set of characters given as a predicate. *)
Fixpoint rstrip_set (p : ascii -> bool) (s : string) : string :=
  match s with
  | EmptyString => EmptyString
  | String c s' =>
      match rstrip_set p s' with
      | EmptyString => if p c then EmptyString else String c EmptyString
      | r => String c r
      end
  end.

Definition rstrip (s : string) : string := rstrip_set Char.isspace s.

(** [s.strip()] *)
Definition strip (s : string) : string := rstrip (lstrip s).

(** [s.split()]: the maximal runs of non-whitespace characters.
    [cur] is the token being read, when there is one. *)
Fixpoint split_aux (s : string) (cur : option string) : list string :=
  match s with
  | EmptyString => match cur with Some w => [w] | None => [] end
  | String c s' =>
      if Char.isspace c then
        match cur with
        | Some w => w :: split_aux s' None
        | None => split_aux s' None
        end
      else
        split_aux s' (Some (match cur with
                            | Some w => w ++ String c EmptyString
                            | None => String c EmptyString
                            end))
  end.

Definition split (s : string) : list string := split_aux s None.

(** [sep.join(parts)] *)
Fixpoint join (sep : string) (parts : list string) : string :=
  match parts with
  | [] => EmptyString
  | [w] => w
  | w :: ws => w ++ sep ++ join sep ws
  end.

(** [s.title()]: a character that follows a cased character is lowered,
    any other is put in title case. *)
Fixpoint title_aux (previous_is_cased : bool) (s : string) : string :=
  match s with
  | EmptyString => EmptyString
  | String c s' =>
      String (if previous_is_cased then Char.lower c else Char.upper c)
             (title_aux (Char.iscased c) s')
  end.

Definition title (s : string) : string := title_aux false s.

(** [s.startswith(p)] *)
Fixpoint startswith (p s : string) : bool :=
  match p, s with
  | EmptyString, _ => true
  | String a p', String b s' => Ascii.eqb a b && startswith p' s'
  | String _ _, EmptyString => false
  end.

(** [p in s] for two strings *)
Fixpoint contains (p s : string) : bool :=
  startswith p s ||
  match s with
  | EmptyString => false
  | String _ s' => contains p s'
  end.

Fixpoint take (n : nat) (s : string) : string :=
  match n, s with
  | O, _ => EmptyString
  | S n', String c s' => String c (take n' s')
  | S _, EmptyString => EmptyString
  end.

(** [s.replace(old, new)]: the occurrences of [old] are replaced from left
    to right and do not overlap.  [skip] counts the characters of [s]
    still covered by the occurrence replaced last.  With an empty [old],
    [new] goes before every character and at the end, as in Python. *)
Fixpoint replace_aux (old new : string) (skip : nat) (s : string) : string :=
  match s with
  | EmptyString =>
      match old with EmptyString => new | _ => EmptyString end
  | String c s' =>
      match skip with
      | S n => replace_aux old new n s'
      | O =>
          match old with
          | EmptyString => new ++ String c (replace_aux old new 0 s')
          | String _ old' =>
              if startswith old s
              then new ++ replace_aux old new (String.length old') s'
              else String c (replace_aux old new 0 s')
          end
      end
  end.

Definition replace (old new s : string) : string := replace_aux old new 0 s.

(** Truth value of a string: [if s:] *)
Definition nonempty (s : string) : bool :=
  match s with EmptyString => false | _ => true end.

End Str.

(* ===================================================================== *)
(** ** The [re] module, for the constructs the program's patterns use *)
(* ===================================================================== *)

Module Re.

(** What matches one character. *)
Inductive atom : Type :=
| Chr (c : ascii)     (* a literal character, or an escaped one such as [\.] *)
| Digit               (* [\d] *)
| Space               (* [\s] *)
| AnyChar.            (* [.]: any character but the line feed *)

(** Patterns.  Python numbers the capturing groups by their opening
    parenthesis; the number is written out in [Group]. *)
Inductive regex : Type :=
| Empty                         (* the empty pattern *)
| One (a : atom)
| Seq (r1 r2 : regex)
| Alt (r1 r2 : regex)           (* [r1|r2], [r1] tried first *)
| Opt (r : regex)               (* [r?], greedy *)
| Star (a : atom)               (* [a*], greedy *)
| Plus (a : atom)               (* [a+], greedy *)
| Group (n : nat) (r : regex)   (* [(r)] *)
| NotAhead (r : regex)          (* [(?!r)] *)
| WordBoundary.                 (* [\b] *)

(** A literal word: the characters of [w] one after the other. *)
Fixpoint lit (w : string) : regex :=
  match w with
  | EmptyString => Empty
  | String c EmptyString => One (Chr c)
  | String c w' => Seq (One (Chr c)) (lit w')
  end.

(** [alts [r1; ...; rn]] is [r1|...|rn]. *)
Fixpoint alts (r : regex) (rs : list regex) : regex :=
  match rs with
  | [] => r
  | r' :: rs' => Alt r (alts r' rs')
  end.

(** [seqs [r1; ...; rn]] is the concatenation [r1...rn]. *)
Fixpoint seqs (r : regex) (rs : list regex) : regex :=
  match rs with
  | [] => r
  | r' :: rs' => Seq r (seqs r' rs')
  end.

Definition atom_matches (ignorecase : bool) (a : atom) (c : ascii) : bool :=
  match a with
  | Chr p => if ignorecase then Char.eqb_nocase p c else Ascii.eqb p c
  | Digit => Char.isdigit c
  | Space => Char.isspace c
  | AnyChar => negb (Ascii.eqb c "010"%char)
  end.

(** The groups captured so far, most recent first. *)
Definition captures : Type := list (nat * string).

Fixpoint group (caps : captures) (n : nat) : option string :=
  match caps with
  | [] => None
  | (m, s) :: caps' => if Nat.eqb m n then Some s else group caps' n
  end.

(** A match: how many characters it spans and what its groups hold. *)
Record rmatch : Type := { span : nat; groups : captures }.

(** A position in the subject: the character before it, when there is
    one, and the text from it on. *)
Section Matcher.
Variable ignorecase : bool.

(** Greedy repetition of one atom: the longest run first, then shorter
    ones, as the backtracking engine tries them. *)
Fixpoint star {A : Type} (a : atom) (prev : option ascii) (s : string)
         (k : option ascii -> string -> option A) : option A :=
  match s with
  | String c s' =>
      if atom_matches ignorecase a c then
        match star a (Some c) s' k with
        | Some x => Some x
        | None => k prev s
        end
      else k prev s
  | EmptyString => k prev s
  end.

Definition at_word_boundary (prev : option ascii) (s : string) : bool :=
  let before := match prev with Some c => Char.isword c | None => false end in
  let after := match s with String c _ => Char.isword c | EmptyString => false end in
  xorb before after.

(** [run r prev s caps k]: match [r] at the position [(prev, s)] and go
    on with [k] at the position the match ends; the first success in
    the order of the backtracking engine is the result. *)
Fixpoint run (A : Type) (r : regex) (prev : option ascii) (s : string)
         (caps : captures)
         (k : option ascii -> string -> captures -> option A) : option A :=
  match r with
  | Empty => k prev s caps
  | One a =>
      match s with
      | String c s' =>
          if atom_matches ignorecase a c then k (Some c) s' caps else None
      | EmptyString => None
      end
  | Seq r1 r2 =>
      run A r1 prev s caps (fun prev' s' caps' => run A r2 prev' s' caps' k)
  | Alt r1 r2 =>
      match run A r1 prev s caps k with
      | Some x => Some x
      | None => run A r2 prev s caps k
      end
  | Opt r1 =>
      match run A r1 prev s caps k with
      | Some x => Some x
      | None => k prev s caps
      end
  | Star a => star a prev s (fun prev' s' => k prev' s' caps)
  | Plus a =>
      match s with
      | String c s' =>
          if atom_matches ignorecase a c
          then star a (Some c) s' (fun prev' s' => k prev' s' caps)
          else None
      | EmptyString => None
      end
  | Group n r1 =>
      run A r1 prev s caps
          (fun prev' s' caps' =>
             k prev' s' ((n, Str.take (String.length s - String.length s') s) :: caps'))
  | NotAhead r1 =>
      match run unit r1 prev s caps (fun _ _ _ => Some tt) with
      | Some _ => None
      | None => k prev s caps
      end
  | WordBoundary =>
      if at_word_boundary prev s then k prev s caps else None
  end.

(** [pattern.match] at one position. *)
Definition match_at (r : regex) (prev : option ascii) (s : string) : option rmatch :=
  run rmatch r prev s []
      (fun _ s' caps =>
         Some {| span := String.length s - String.length s'; groups := caps |}).

(** [re.search]: the leftmost position where the pattern matches. *)
Fixpoint search_from (r : regex) (prev : option ascii) (s : string) : option rmatch :=
  match match_at r prev s with
  | Some m => Some m
  | None =>
      match s with
      | EmptyString => None
      | String c s' => search_from r (Some c) s'
      end
  end.

(** [re.sub(r, repl, s)] with a constant replacement: the matches are
    replaced from left to right and do not overlap.  [skip] counts the
    characters still covered by the match replaced last.  (No pattern
    of the program matches the empty string; an empty match puts
    [repl] before the character it stands at.) *)
Fixpoint sub_from (r : regex) (repl : string) (skip : nat)
         (prev : option ascii) (s : string) : string :=
  match s with
  | EmptyString =>
      match skip, match_at r prev s with
      | O, Some _ => repl
      | _, _ => EmptyString
      end
  | String c s' =>
      match skip with
      | S n => sub_from r repl n (Some c) s'
      | O =>
          match match_at r prev s with
          | Some m =>
              match span m with
              | O => repl ++ String c (sub_from r repl 0 (Some c) s')
              | S n => repl ++ sub_from r repl n (Some c) s'
              end
          | None => String c (sub_from r repl 0 (Some c) s')
          end
      end
  end.

End Matcher.

(** [re.search(r, s)] and [re.search(r, s, re.IGNORECASE)] *)
Definition search (ignorecase : bool) (r : regex) (s : string) : option rmatch :=
  search_from ignorecase r None s.

(** The truth value of [re.search(r, s)] *)
Definition found (ignorecase : bool) (r : regex) (s : string) : bool :=
  match search ignorecase r s with Some _ => true | None => false end.

(** [re.sub(r, repl, s)] *)
Definition sub (r : regex) (repl s : string) : string :=
  sub_from false r repl 0 None s.

(** [m.group(n)]: [None] for a group that took no part in the match. *)
Definition group_of (m : rmatch) (n : nat) : option string :=
  group (groups m) n.

End Re.

(* ===================================================================== *)
(** ** Python values and exceptions *)
(* ===================================================================== *)

(** What [resp.json()] builds.  A [dict] keeps the order of its keys; a key
    is looked up at its first entry. *)
#[warnings="-register-all"]
Inductive pyval : Type :=
| PNone
| PBool (b : bool)
| PInt (z : Z)
| PStr (s : string)
| PList (l : list pyval)
| PDict (d : list (string * pyval)).

Inductive exn : Type := TypeError | AttributeError.

Inductive result (A : Type) : Type :=
| Ok (a : A)
| Raise (e : exn).

Arguments Ok {A} a.
Arguments Raise {A} e.

Definition bind {A B : Type} (m : result A) (f : A -> result B) : result B :=
  match m with
  | Ok a => f a
  | Raise e => Raise e
  end.

Notation "x <- m ;; k" := (bind m (fun x => k))
  (at level 61, m at next level, right associativity).

(** [[f(x) for x in l]], stopping at the first exception. *)
Fixpoint mapM {A B : Type} (f : A -> result B) (l : list A) : result (list B) :=
  match l with
  | [] => Ok []
  | x :: l' => y <- f x ;; ys <- mapM f l' ;; Ok (y :: ys)
  end.

Module Py.

(** The truth value of a value: [if v:] *)
Definition truthy (v : pyval) : bool :=
  match v with
  | PNone => false
  | PBool b => b
  | PInt z => negb (Z.eqb z 0)
  | PStr s => Str.nonempty s
  | PList l => match l with [] => false | _ => true end
  | PDict d => match d with [] => false | _ => true end
  end.

Fixpoint lookup (d : list (string * pyval)) (k : string) : option pyval :=
  match d with
  | [] => None
  | (k', v) :: d' => if String.eqb k' k then Some v else lookup d' k
  end.

(** [v.get(k, default)]: only a [dict] has the method. *)
Definition get (v : pyval) (k : string) (default : pyval) : result pyval :=
  match v with
  | PDict d => Ok (match lookup d k with Some x => x | None => default end)
  | _ => Raise AttributeError
  end.

(** [for x in v]: the elements of a list, the keys of a dict, the
    characters of a string. *)
Fixpoint chars (s : string) : list pyval :=
  match s with
  | EmptyString => []
  | String c s' => PStr (String c EmptyString) :: chars s'
  end.

Definition iter (v : pyval) : result (list pyval) :=
  match v with
  | PList l => Ok l
  | PDict d => Ok (List.map (fun kv => PStr (fst kv)) d)
  | PStr s => Ok (chars s)
  | PNone | PBool _ | PInt _ => Raise TypeError
  end.

(** [v.values()] *)
Definition values (v : pyval) : result (list pyval) :=
  match v with
  | PDict d => Ok (List.map snd d)
  | _ => Raise AttributeError
  end.

(** [v == s] for a string [s] *)
Definition eq_str (v : pyval) (s : string) : bool :=
  match v with
  | PStr s' => String.eqb s' s
  | _ => false
  end.

(** [v.lower()], [v.replace(old, new)]: methods of [str] only. *)
Definition lower (v : pyval) : result string :=
  match v with
  | PStr s => Ok (Str.lower s)
  | _ => Raise AttributeError
  end.

Definition replace (v : pyval) (old new : string) : result string :=
  match v with
  | PStr s => Ok (Str.replace old new s)
  | _ => Raise AttributeError
  end.

(** [sep.join(l)]: every element has to be a string. *)
Definition as_str (v : pyval) : result string :=
  match v with
  | PStr s => Ok s
  | _ => Raise TypeError
  end.

Definition join (sep : string) (l : list pyval) : result string :=
  parts <- mapM as_str l ;; Ok (Str.join sep parts).

(** [a == b] *)
Fixpoint eq (a b : pyval) : bool :=
  match a, b with
  | PNone, PNone => true
  | PBool x, PBool y => Bool.eqb x y
  | PInt x, PInt y => Z.eqb x y
  | PBool x, PInt y => Z.eqb y (if x then 1 else 0)
  | PInt x, PBool y => Z.eqb x (if y then 1 else 0)
  | PStr x, PStr y => String.eqb x y
  | PList x, PList y =>
      (fix eq_list (x y : list pyval) {struct x} : bool :=
         match x, y with
         | [], [] => true
         | u :: x', v :: y' => eq u v && eq_list x' y'
         | _, _ => false
         end) x y
  | PDict x, PDict y =>
      Nat.eqb (List.length x) (List.length y) &&
      (fix eq_items (x : list (string * pyval)) {struct x} : bool :=
         match x with
         | [] => true
         | (k, u) :: x' =>
             match lookup y k with
             | Some v => eq u v
             | None => false
             end && eq_items x'
         end) x
  | _, _ => false
  end.

(** [item in container] *)
Definition contains (item container : pyval) : result bool :=
  match container with
  | PStr s =>
      match item with
      | PStr p => Ok (Str.contains p s)
      | _ => Raise TypeError
      end
  | PList l => Ok (existsb (eq item) l)
  | PDict d =>
      match item with
      | PList _ | PDict _ => Raise TypeError      (* unhashable *)
      | PStr k => Ok (match lookup d k with Some _ => true | None => false end)
      | _ => Ok false
      end
  | PNone | PBool _ | PInt _ => Raise TypeError
  end.

(** [repr] of a string: single quotes, unless the string holds a single
    quote and no double quote; the quote and the backslash are escaped,
    control characters are written [\t], [\n], [\r] or [\xNN]. *)
Definition hex_digit (n : nat) : ascii :=
  if Nat.ltb n 10 then ascii_of_nat (48 + n) else ascii_of_nat (87 + n).

Definition repr_char (quote : ascii) (c : ascii) : string :=
  if Ascii.eqb c quote || Ascii.eqb c "\"%char then String "\"%char (String c EmptyString)
  else if Ascii.eqb c "009"%char then "\t"
  else if Ascii.eqb c "010"%char then "\n"
  else if Ascii.eqb c "013"%char then "\r"
  else if Nat.ltb (Char.code c) 32 || Nat.eqb (Char.code c) 127 then
    String "\"%char (String "x"%char
      (String (hex_digit (Char.code c / 16))
         (String (hex_digit (Char.code c mod 16)) EmptyString)))
  else String c EmptyString.

Fixpoint repr_chars (quote : ascii) (s : string) : string :=
  match s with
  | EmptyString => EmptyString
  | String c s' => repr_char quote c ++ repr_chars quote s'
  end.

Definition has_char (c : ascii) (s : string) : bool :=
  Str.contains (String c EmptyString) s.

Definition repr_str (s : string) : string :=
  let quote :=
    if has_char "'"%char s && negb (has_char "034"%char s)
    then "034"%char else "'"%char in
  String quote (repr_chars quote s ++ String quote EmptyString).

Definition repr_int (z : Z) : string := NilZero.string_of_int (Z.to_int z).

(** [repr(v)] *)
Fixpoint repr (v : pyval) : string :=
  match v with
  | PNone => "None"
  | PBool true => "True"
  | PBool false => "False"
  | PInt z => repr_int z
  | PStr s => repr_str s
  | PList l => "[" ++ Str.join ", " (List.map repr l) ++ "]"
  | PDict d =>
      "{" ++ Str.join ", "
               (List.map (fun kv => repr_str (fst kv) ++ ": " ++ repr (snd kv)) d)
          ++ "}"
  end.

(** [str(v)], which is also how an f-string formats [v]. *)
Definition str (v : pyval) : string :=
  match v with
  | PStr s => s
  | _ => repr v
  end.

End Py.


(* ===================================================================== *)
(** ** The program *)
(* ===================================================================== *)

(** [BASE] *)
Definition BASE : string := "https://terrywhitechemmart.com.au".

Section Scraper.

(** [BeautifulSoup(html_str, "html.parser").get_text(separator=" ", strip=True)]:
    the visible text of a fragment of HTML, its text nodes stripped and
    joined with one space. *)
Variable html_get_text : string -> string.

(** **** [clean_text] *)

(** The body of [clean_text] for a non-empty [str]. *)
Definition clean_markup (html_str : string) : string :=
  Str.join " " (Str.split (html_get_text html_str)).

(** [clean_text(html_str)].  BeautifulSoup rejects markup that is neither
    a string nor bytes nor a file with a [TypeError]. *)
Definition clean_text (html_str : pyval) : result string :=
  if negb (Py.truthy html_str) then Ok ""
  else match html_str with
       | PStr s => Ok (clean_markup s)
       | _ => Raise TypeError
       end.

(** **** [clean_ingredients] *)

(** [r'\.(?!\d)'] *)
Definition period_not_before_digit : Re.regex :=
  Re.Seq (Re.One (Re.Chr ".")) (Re.NotAhead (Re.One Re.Digit)).

(** [r'\bWord\b'] *)
Definition whole_word (w : string) : Re.regex :=
  Re.Seq Re.WordBoundary (Re.Seq (Re.lit w) Re.WordBoundary).

(** [common_fixes], in the order of the dict. *)
Definition common_fixes : list (Re.regex * string) :=
  [ (whole_word "And", "and"); (whole_word "Or", "or");
    (whole_word "Of", "of");   (whole_word "In", "in");
    (whole_word "The", "the"); (whole_word "With", "with");
    (whole_word "From", "from"); (whole_word "To", "to");
    (whole_word "As", "as");   (whole_word "By", "by");
    (whole_word "For", "for"); (whole_word "On", "on");
    (whole_word "At", "at");   (whole_word "Is", "is");
    (whole_word "A", "a");     (whole_word "An", "an") ].

(** [r',\s*,+'] *)
Definition comma_run : Re.regex :=
  Re.Seq (Re.One (Re.Chr ",")) (Re.Seq (Re.Star Re.Space) (Re.Plus (Re.Chr ","))).

(** [r'\s*,\s*'] *)
Definition spaced_comma : Re.regex :=
  Re.Seq (Re.Star Re.Space) (Re.Seq (Re.One (Re.Chr ",")) (Re.Star Re.Space)).

(** [r'\s+'] *)
Definition spaces : Re.regex := Re.Plus Re.Space.

Definition comma_or_space (c : ascii) : bool :=
  Ascii.eqb c ","%char || Ascii.eqb c " "%char.

(** STEP 1 *)
Definition replace_periods (s : string) : string :=
  Re.sub period_not_before_digit "," s.

(** STEP 3: the loop over [common_fixes.items()] *)
Definition apply_fixes (s : string) : string :=
  fold_left (fun acc fix_ => Re.sub (fst fix_) (snd fix_) acc) common_fixes s.

(** STEP 4 and STEP 5 *)
Definition tidy_punctuation (s : string) : string :=
  let s := Re.sub comma_run "," s in
  let s := Re.sub spaced_comma ", " s in
  let s := Str.strip (Re.sub spaces " " s) in
  Str.rstrip_set comma_or_space s.

(** [clean_ingredients(ingredients_text)] for a [str], the type of its
    docstring and of its one call. *)
Definition clean_ingredients (ingredients_text : string) : string :=
  if negb (Str.nonempty ingredients_text) || String.eqb ingredients_text "N/A"
  then ingredients_text
  else
    let cleaned_text := clean_markup ingredients_text in
    if negb (Str.nonempty cleaned_text) || String.eqb (Str.strip cleaned_text) ""
    then "N/A"
    else
      let cleaned_text := replace_periods cleaned_text in
      let cleaned_text := Str.title cleaned_text in
      let cleaned_text := apply_fixes cleaned_text in
      tidy_punctuation cleaned_text.

(** **** [extract_detail] *)

(** The loop of [extract_detail]. *)
Fixpoint extract_detail_loop (details : list pyval) (label : string) : result string :=
  match details with
  | [] => Ok ""
  | detail_obj :: rest =>
      l <- Py.get detail_obj "content_label" PNone ;;
      if Py.eq_str l label
      then (content <- Py.get detail_obj "content" PNone ;; clean_text content)
      else extract_detail_loop rest label
  end.

(** [extract_detail(details, label)] *)
Definition extract_detail (details : pyval) (label : string) : result string :=
  if negb (Py.truthy details) then Ok ""
  else (objs <- Py.iter details ;; extract_detail_loop objs label).

(** **** [search_text_for_patterns] *)

(** The loop over [patterns], each tried with [re.IGNORECASE]. *)
Fixpoint first_pattern_match (patterns : list Re.regex) (text : string) : option Re.rmatch :=
  match patterns with
  | [] => None
  | pattern :: rest =>
      match Re.search true pattern text with
      | Some m => Some m
      | None => first_pattern_match rest text
      end
  end.

(** [search_text_for_patterns(text, patterns)]; [re.search] raises a
    [TypeError] on a subject that is not a string. *)
Definition search_text_for_patterns (text : pyval) (patterns : list Re.regex)
  : result (option Re.rmatch) :=
  if negb (Py.truthy text) then Ok None
  else match text, patterns with
       | PStr s, _ => Ok (first_pattern_match patterns s)
       | _, [] => Ok None
       | _, _ :: _ => Raise TypeError
       end.

(** **** [get_skin_concerns] *)

(** [concern_patterns], in the order of the dict. *)
Definition concern_patterns : list (string * list Re.regex) :=
  let ws := Re.Star Re.Space in
  [ ("acne", [Re.lit "acne"; Re.lit "pimple"; Re.lit "breakout"; Re.lit "blemish"]);
    ("dry skin", [Re.seqs (Re.lit "dry") [ws; Re.lit "skin"]; Re.lit "dehydrat";
                  Re.lit "moisturiz"; Re.lit "hydrat"]);
    ("oily skin", [Re.seqs (Re.lit "oily") [ws; Re.lit "skin"];
                   Re.seqs (Re.lit "excess") [ws; Re.lit "oil"]; Re.lit "sebum"]);
    ("sensitive skin", [Re.seqs (Re.lit "sensitive") [ws; Re.lit "skin"];
                        Re.lit "gentle"; Re.lit "sooth"; Re.lit "calm"]);
    ("anti-aging", [Re.seqs (Re.lit "anti") [Re.Opt (Re.One Re.AnyChar); Re.lit "aging"];
                    Re.lit "wrinkle"; Re.seqs (Re.lit "fine") [ws; Re.lit "line"];
                    Re.lit "firm"]);
    ("hyperpigmentation", [Re.lit "hyperpigment";
                           Re.seqs (Re.lit "dark") [ws; Re.lit "spot"]; Re.lit "discolor"]);
    ("sun protection", [Re.lit "spf"; Re.seqs (Re.lit "sun") [ws; Re.lit "protection"];
                        Re.lit "sunscreen"]);
    ("rosacea", [Re.lit "rosacea"; Re.lit "redness"]);
    ("eczema", [Re.lit "eczema"; Re.lit "dermatitis"]);
    ("mature skin", [Re.seqs (Re.lit "mature") [ws; Re.lit "skin"];
                     Re.seqs (Re.lit "aging") [ws; Re.lit "skin"]]);
    ("dullness", [Re.lit "dull"; Re.lit "brighten"; Re.lit "radiance"; Re.lit "glow"]) ].

(** The inner loop: does some pattern of the concern match?  It stops at
    the first that does. *)
Fixpoint any_pattern_found (patterns : list Re.regex) (text : string) : bool :=
  match patterns with
  | [] => false
  | pattern :: rest =>
      if Re.found false pattern text then true else any_pattern_found rest text
  end.

(** One turn of the outer loop. *)
Definition check_concern (text : string) (detected_concerns : list string)
           (item : string * list Re.regex) : list string :=
  let (concern, patterns) := item in
  if any_pattern_found patterns text then
    if existsb (String.eqb concern) detected_concerns
    then detected_concerns
    else (detected_concerns ++ [concern])%list
  else detected_concerns.

(** [get_skin_concerns(text)] *)
Definition get_skin_concerns (text : string) : list string :=
  if negb (Str.nonempty text) then []
  else
    let text := Str.lower text in
    fold_left (check_concern text) concern_patterns [].

(** **** [extract_size_volume] *)

(** [(\d+(?:\.\d+)?)] and [(\d+)], the first group of every size pattern. *)
Definition decimal_number : Re.regex :=
  Re.Group 1 (Re.Seq (Re.Plus Re.Digit)
                     (Re.Opt (Re.Seq (Re.One (Re.Chr ".")) (Re.Plus Re.Digit)))).

Definition whole_number : Re.regex := Re.Group 1 (Re.Plus Re.Digit).

(** [number\s*(unit|unit|...)] *)
Definition size_pattern (number unit : Re.regex) (units : list Re.regex) : Re.regex :=
  Re.Seq number (Re.Seq (Re.Star Re.Space) (Re.Group 2 (Re.alts unit units))).

(** [size_patterns] *)
Definition size_patterns : list Re.regex :=
  [ size_pattern decimal_number (Re.lit "ml") [Re.lit "mL"; Re.lit "ML"];
    size_pattern decimal_number (Re.lit "g")
                 [Re.lit "gm"; Re.lit "GM"; Re.lit "gram"; Re.lit "grams"];
    size_pattern decimal_number (Re.lit "oz")
                 [Re.lit "OZ";
                  Re.seqs (Re.lit "fl") [Re.Opt (Re.One (Re.Chr "."));
                                         Re.Star Re.Space; Re.lit "oz"]];
    size_pattern decimal_number (Re.lit "l") [Re.lit "L"; Re.lit "liter"; Re.lit "litre"];
    size_pattern whole_number (Re.lit "tablet")
                 [Re.lit "tablets"; Re.lit "caps"; Re.lit "capsule"; Re.lit "capsules"];
    size_pattern whole_number (Re.lit "count") [Re.lit "ct"; Re.lit "pieces"; Re.lit "pcs"];
    size_pattern decimal_number (Re.lit "kg") [Re.lit "KG"; Re.lit "kilogram"] ].

(** How an f-string prints [m.group(n)]. *)
Definition format_group (m : Re.rmatch) (n : nat) : string :=
  match Re.group_of m n with
  | Some g => g
  | None => "None"
  end.

(** [search_fields], built in full before the loop starts. *)
Definition search_fields (product_data : pyval) : result (list pyval) :=
  name <- Py.get product_data "name" (PStr "") ;;
  details <- Py.get product_data "details" (PList []) ;;
  objs <- Py.iter details ;;
  contents <- mapM (fun d => Py.get d "content" (PStr "")) objs ;;
  all_content <- Py.join " " contents ;;
  description <- Py.get product_data "description" (PStr "") ;;
  attributes <- Py.get product_data "attributes" (PDict []) ;;
  Ok [name; PStr all_content; description; PStr (Py.str attributes)].

(** The loop over [search_fields]. *)
Fixpoint search_fields_loop (fields : list pyval) : result string :=
  match fields with
  | [] => Ok "N/A"
  | field_content :: rest =>
      if Py.truthy field_content then
        m <- search_text_for_patterns field_content size_patterns ;;
        match m with
        | Some m => Ok (format_group m 1 ++ format_group m 2)
        | None => search_fields_loop rest
        end
      else search_fields_loop rest
  end.

(** [extract_size_volume(product_data)] *)
Definition extract_size_volume (product_data : pyval) : result string :=
  if negb (Py.truthy product_data) then Ok "N/A"
  else (fields <- search_fields product_data ;; search_fields_loop fields).

(** **** [extract_product_line_name] *)

Definition line_keywords : list string := ["line"; "collection"; "series"; "range"].

Definition generic_terms : list string :=
  ["cream"; "lotion"; "serum"; "oil"; "gel"; "cleanser"; "moisturiser"; "spf"; "wash"].

(** STRATEGY 1: the loop over [details]; [None] when it ends without a
    [return]. *)
Fixpoint explicit_line (details : list pyval) : result (option string) :=
  match details with
  | [] => Ok None
  | detail :: rest =>
      raw_label <- Py.get detail "content_label" (PStr "") ;;
      label <- Py.lower raw_label ;;
      if existsb (fun keyword => Str.contains keyword label) line_keywords then
        content <- Py.get detail "content" (PStr "") ;;
        line_name <- clean_text content ;;
        if Str.nonempty line_name && Nat.ltb (String.length line_name) 100
        then Ok (Some line_name)
        else explicit_line rest
      else explicit_line rest
  end.

(** [part and part[0].isupper() and len(part) > 2] *)
Definition qualifies (part : string) : bool :=
  match part with
  | EmptyString => false
  | String c _ => Char.isupper c && Nat.ltb 2 (String.length part)
  end.

(** The loop over [name_parts[:3]], which stops at the first word that
    does not qualify. *)
Fixpoint collect_line_words (parts : list string) : list string :=
  match parts with
  | [] => []
  | part :: rest => if qualifies part then part :: collect_line_words rest else []
  end.

(** STRATEGY 2 from [product_name.replace(brand_name, "")] on. *)
Definition line_from_remaining (replaced : string) : string :=
  let remaining_name := Str.strip replaced in
  let name_parts := Str.split remaining_name in
  if Nat.ltb 1 (List.length name_parts) then
    let potential_line_words := collect_line_words (firstn 3 name_parts) in
    match potential_line_words with
    | [] => "N/A"
    | _ :: _ =>
        let line_name := Str.join " " potential_line_words in
        if negb (existsb (fun term => Str.contains term (Str.lower line_name)) generic_terms)
        then line_name
        else "N/A"
    end
  else "N/A".

(** [product_name.replace(brand_name, "")]: a method of [str] whose
    first argument has to be a [str]. *)
Definition replace_brand (product_name brand_name : pyval) : result string :=
  match product_name with
  | PStr _ =>
      match brand_name with
      | PStr b => Py.replace product_name b ""
      | _ => Raise TypeError
      end
  | _ => Raise AttributeError
  end.

(** STRATEGY 2 *)
Definition inferred_line (product_data : pyval) : result string :=
  product_name <- Py.get product_data "name" (PStr "") ;;
  brand <- Py.get product_data "brand" (PDict []) ;;
  brand_name <- Py.get brand "brand_name" (PStr "") ;;
  if Py.truthy brand_name then
    inside <- Py.contains brand_name product_name ;;
    if (inside : bool) then
      replaced <- replace_brand product_name brand_name ;;
      Ok (line_from_remaining replaced)
    else Ok "N/A"
  else Ok "N/A".

(** [extract_product_line_name(product_data)] *)
Definition extract_product_line_name (product_data : pyval) : result string :=
  details <- Py.get product_data "details" (PList []) ;;
  objs <- Py.iter details ;;
  found <- explicit_line objs ;;
  match found with
  | Some line_name => Ok line_name
  | None => inferred_line product_data
  end.

(** **** [validate_completeness] *)

Definition required_fields : list string :=
  [ "Product ID"; "Product Name"; "Brand Name"; "Product Description";
    "Product Images"; "Barcode (EAN/UPC)"; "Price"; "Size/Volume";
    "Ingredients"; "Skin Concern"; "Source URL" ].

(** A row: the dict built by [scrape_products], in the order of its keys. *)
Definition row : Type := list (string * pyval).

(** [row.get(field)] *)
Definition row_get (r : row) (field : string) : pyval :=
  match Py.lookup r field with
  | Some v => v
  | None => PNone
  end.

(** [row.get(field) == "N/A" or not row.get(field)] *)
Definition missing (r : row) (field : string) : bool :=
  Py.eq_str (row_get r field) "N/A" || negb (Py.truthy (row_get r field)).

Fixpoint first_missing (r : row) (fields : list string) : option string :=
  match fields with
  | [] => None
  | field :: rest => if missing r field then Some field else first_missing r rest
  end.

(** [validate_completeness(row)]: the pair [(is_complete, missing_field)]. *)
Definition validate_completeness (r : row) : bool * option string :=
  match first_missing r required_fields with
  | Some field => (false, Some field)
  | None => (true, None)
  end.

(** **** [scrape_products]: from the fetched product to its row *)

(** Lines 505 to 531 of [scrape_products], for the product [prod] fetched
    for [slug]. *)
Definition build_row (slug : string) (prod : pyval) : result row :=
  brand <- Py.get prod "brand" (PDict []) ;;
  brand_name <- Py.get brand "brand_name" (PStr "N/A") ;;
  images <- Py.get prod "images" (PDict []) ;;
  image_urls <- Py.values images ;;
  details <- Py.get prod "details" PNone ;;
  general_info <- extract_detail details "General Information" ;;
  ingredients <- extract_detail details "Ingredients" ;;
  let cleaned_ingredients := clean_ingredients ingredients in
  name <- Py.get prod "name" (PStr "") ;;
  let combined_text := general_info ++ " " ++ Py.str name in
  let skin_concerns := get_skin_concerns combined_text in
  size_volume <- extract_size_volume prod ;;
  product_line_name <- extract_product_line_name prod ;;
  product_id <- Py.get prod "product_id" (PStr "N/A") ;;
  product_name <- Py.get prod "name" (PStr "N/A") ;;
  product_images <- match image_urls with
                    | [] => Ok "N/A"
                    | _ :: _ => Py.join "|" image_urls
                    end ;;
  upc <- Py.get prod "upc" (PStr "N/A") ;;
  price <- Py.get prod "price" (PStr "N/A") ;;
  Ok [ ("Product ID", product_id);
       ("Product Name", product_name);
       ("Product Line Name", PStr product_line_name);
       ("Brand Name", brand_name);
       ("Product Description",
         PStr (if Str.nonempty general_info then general_info else "N/A"));
       ("Product Images", PStr product_images);
       ("Barcode (EAN/UPC)", upc);
       ("Price", PStr (Py.str price));
       ("Size/Volume", PStr size_volume);
       ("Ingredients",
         PStr (if Str.nonempty cleaned_ingredients then cleaned_ingredients else "N/A"));
       ("Skin Concern",
         PStr (match skin_concerns with
               | [] => "N/A"
               | _ :: _ => Str.join ", " skin_concerns
               end));
       ("Source URL", PStr (BASE ++ "/shop/product/" ++ slug)) ].

End Scraper.

(* ===================================================================== *)
(** ** Definitions the statements use *)
(* ===================================================================== *)

(** Text that holds neither a tag nor a character reference. *)
Definition markup_free (s : string) : bool :=
  negb (Py.has_char "<"%char s) && negb (Py.has_char "&"%char s).

(** What the theorems on concrete ingredient lists ask of the parser: text
    without markup is one text node, which [get_text(strip=True)] strips. *)
Definition keeps_plain_text (html_get_text : string -> string) : Prop :=
  forall s, markup_free s = true -> html_get_text s = Str.strip s.

(** The rule in words: a period becomes a comma unless the character right
    after it is a digit; every other character stays. *)
Definition next_is_digit (s : string) : bool :=
  match s with
  | String d _ => Char.isdigit d
  | EmptyString => false
  end.

Fixpoint periods_to_commas (s : string) : string :=
  match s with
  | EmptyString => EmptyString
  | String c s' =>
      String (if Ascii.eqb c "."%char && negb (next_is_digit s') then ","%char else c)
             (periods_to_commas s')
  end.

(** [detail_obj.get("content_label") == label] and
    [detail_obj.get("content")] for a detail that is a dict. *)
Definition has_label (label : string) (detail : list (string * pyval)) : bool :=
  Py.eq_str (match Py.lookup detail "content_label" with Some v => v | None => PNone end)
            label.

Definition content_of (detail : list (string * pyval)) : pyval :=
  match Py.lookup detail "content" with Some v => v | None => PNone end.

(** [row[field] = v] on a row that has the key. *)
Fixpoint row_set (r : row) (field : string) (v : pyval) : row :=
  match r with
  | [] => []
  | (k, x) :: r' =>
      if String.eqb k field then (k, v) :: r' else (k, x) :: row_set r' field v
  end.

(** A row with every column populated. *)
Definition full_row : row :=
  [ ("Product ID", PStr "101"); ("Product Name", PStr "Nivea Soft 200ml");
    ("Product Line Name", PStr "Soft"); ("Brand Name", PStr "Nivea");
    ("Product Description", PStr "A light cream"); ("Product Images", PStr "u1|u2");
    ("Barcode (EAN/UPC)", PStr "4005808890507"); ("Price", PStr "12.99");
    ("Size/Volume", PStr "200ml"); ("Ingredients", PStr "Aqua, Glycerin");
    ("Skin Concern", PStr "dry skin"); ("Source URL", PStr "https://x/shop/product/s") ].

(** Some pattern of the category matches somewhere in the text. *)
Definition category_matches (text : string) (patterns : list Re.regex) : bool :=
  existsb (fun pattern => Re.found false pattern text) patterns.

(** The categories in the order they are declared. *)
Definition concern_order : list string :=
  [ "acne"; "dry skin"; "oily skin"; "sensitive skin"; "anti-aging";
    "hyperpigmentation"; "sun protection"; "rosacea"; "eczema";
    "mature skin"; "dullness" ].

(** The categories whose patterns match, in the order of the table. *)
Definition matching_concerns (text : string) (table : list (string * list Re.regex))
  : list string :=
  List.map fst (filter (fun item => category_matches text (snd item)) table).

(** Group [n] holds something. *)
Definition captured (caps : Re.captures) (n : nat) : Prop :=
  exists g, Re.group caps n = Some g.

(** [d.get(k, default)] on the entries of a dict. *)
Definition field_or (d : list (string * pyval)) (k : string) (default : pyval) : pyval :=
  match Py.lookup d k with Some v => v | None => default end.

(** [detail.get("content", "")] is the string [content]: the detail is a
    dict, and it holds this string under ["content"], or nothing and the
    string is empty. *)
Definition content_is (detail : pyval) (content : string) : Prop :=
  exists entries,
    detail = PDict entries /\ field_or entries "content" (PStr "") = PStr content.

(** The text of a source: an empty or [null] source has none. *)
Definition source_text (field : pyval) : string :=
  match field with PStr s => s | _ => EmptyString end.

(** A source the loop can search: a string, or a value that is falsy. *)
Definition searchable (field : pyval) : bool :=
  match field with PStr _ => true | _ => negb (Py.truthy field) end.

(** The combinations of a source and a pattern in the order of the claim:
    every pattern on the first source, then every pattern on the second
    source, and so on. *)
Definition source_pattern_pairs (sources : list string) : list (string * Re.regex) :=
  flat_map (fun source => List.map (fun pattern => (source, pattern)) size_patterns) sources.

(** The match of the first combination that matches. *)
Fixpoint first_hit (pairs : list (string * Re.regex)) : option Re.rmatch :=
  match pairs with
  | [] => None
  | (source, pattern) :: rest =>
      match Re.search true pattern source with
      | Some m => Some m
      | None => first_hit rest
      end
  end.

(** The product of the docstring example. *)
Definition cream_50ml : pyval := PDict [("name", PStr "Moisturizing Cream 50ml")].

(** The candidate of STRATEGY 2 as the specification words it: the brand is removed
    from the name, the rest is split on whitespace, the qualifying words at
    the head of the first three are joined; [None] when no word was
    collected. *)
Definition is_generic (line_name : string) : bool :=
  existsb (fun term => Str.contains term (Str.lower line_name)) generic_terms.

Definition remaining_parts (product_name brand_name : string) : list string :=
  Str.split (Str.replace brand_name "" product_name).

Definition claimed_line (product_name brand_name : string) : option string :=
  match collect_line_words (firstn 3 (remaining_parts product_name brand_name)) with
  | [] => None
  | words =>
      let line_name := Str.join " " words in
      Some (if is_generic line_name then "N/A" else line_name)
  end.

(** A product whose name is its brand and one more word. *)
Definition nivea_sun : pyval :=
  PDict [("name", PStr "Nivea Sun"); ("brand", PDict [("brand_name", PStr "Nivea")])].

(** A product whose name goes on after the line. *)
Definition nivea_sun_protect : list (string * pyval) :=
  [("name", PStr "Nivea Sun Protect and Moisture 200ml");
   ("brand", PDict [("brand_name", PStr "Nivea")]);
   ("details", PList [PDict [("content_label", PStr "Ingredients");
                             ("content", PStr "Aqua")]])].

Definition is_str (v : pyval) : bool :=
  match v with PStr _ => true | _ => false end.

(** The columns of a row, in the order of the dict. *)
Definition columns : list string :=
  [ "Product ID"; "Product Name"; "Product Line Name"; "Brand Name";
    "Product Description"; "Product Images"; "Barcode (EAN/UPC)"; "Price";
    "Size/Volume"; "Ingredients"; "Skin Concern"; "Source URL" ].

(** The columns whose value the program computes or converts. *)
Definition computed_columns : list string :=
  [ "Product Line Name"; "Product Description"; "Product Images"; "Price";
    "Size/Volume"; "Ingredients"; "Skin Concern"; "Source URL" ].

(** The computed columns that are never the empty string. *)
Definition never_empty_columns : list string :=
  [ "Product Line Name"; "Product Description"; "Size/Volume"; "Ingredients";
    "Skin Concern"; "Source URL" ].

(** A string that is not empty. *)
Definition nonempty_str (v : pyval) : bool :=
  match v with PStr s => Str.nonempty s | _ => false end.

(** A product with a number for identifier and [null] for barcode. *)
Definition hand_cream : pyval :=
  PDict [("product_id", PInt 101); ("name", PStr "Hand Cream 50ml"); ("upc", PNone)].

(** A product with every field. *)
Definition nivea_soft : pyval :=
  PDict [ ("product_id", PInt 101);
          ("name", PStr "Nivea Soft Care Creme 200ml");
          ("brand", PDict [("brand_name", PStr "Nivea")]);
          ("upc", PStr "4005808890507");
          ("price", PInt 12);
          ("images", PDict [("large", PStr "u1"); ("small", PStr "u2")]);
          ("details",
            PList [ PDict [("content_label", PStr "General Information");
                           ("content", PStr "A gentle  cream. For dry skin")];
                    PDict [("content_label", PStr "Ingredients");
                           ("content", PStr "AQUA. GLYCERIN")] ]) ].

(** The row [scrape_products] builds for [nivea_soft] fetched for the slug
    ["nivea-soft"]. *)
Definition nivea_soft_row : row :=
  [ ("Product ID", PInt 101);
    ("Product Name", PStr "Nivea Soft Care Creme 200ml");
    ("Product Line Name", PStr "Soft Care Creme");
    ("Brand Name", PStr "Nivea");
    ("Product Description", PStr "A gentle cream. For dry skin");
    ("Product Images", PStr "u1|u2");
    ("Barcode (EAN/UPC)", PStr "4005808890507");
    ("Price", PStr "12");
    ("Size/Volume", PStr "200ml");
    ("Ingredients", PStr "Aqua, Glycerin");
    ("Skin Concern", PStr "dry skin, sensitive skin");
    ("Source URL", PStr "https://terrywhitechemmart.com.au/shop/product/nivea-soft") ].

(* ===================================================================== *)
(** ** Shapes of text *)
(* ===================================================================== *)

(** Every character of the string passes the test. *)
Fixpoint all_chars (p : ascii -> bool) (s : string) : bool :=
  match s with
  | EmptyString => true
  | String c s' => p c && all_chars p s'
  end.

(** A word as [str.split] returns them: not empty, no whitespace. *)
Definition is_token (w : string) : bool :=
  Str.nonempty w && all_chars (fun c => negb (Char.isspace c)) w.

(** The last character of a string. *)
Fixpoint last_char (s : string) : option ascii :=
  match s with
  | EmptyString => None
  | String c EmptyString => Some c
  | String _ s' => last_char s'
  end.

(** The first character of a string. *)
Definition first_char (s : string) : option ascii :=
  match s with
  | EmptyString => None
  | String c _ => Some c
  end.


(* ===================================================================== *)
(** ** Groups of a pattern *)
(* ===================================================================== *)

(** The pattern holds a group numbered [n]. *)
Fixpoint binds (r : Re.regex) (n : nat) : bool :=
  match r with
  | Re.Group m r1 => Nat.eqb m n || binds r1 n
  | Re.Seq r1 r2 | Re.Alt r1 r2 => binds r1 n || binds r2 n
  | Re.Opt r1 | Re.NotAhead r1 => binds r1 n
  | Re.Empty | Re.One _ | Re.Star _ | Re.Plus _ | Re.WordBoundary => false
  end.


(** The pattern looks at nothing but the characters it consumes: no
    lookahead, no word boundary. *)
Fixpoint context_free (r : Re.regex) : bool :=
  match r with
  | Re.NotAhead _ | Re.WordBoundary => false
  | Re.Seq r1 r2 | Re.Alt r1 r2 => context_free r1 && context_free r2
  | Re.Opt r1 | Re.Group _ r1 => context_free r1
  | Re.Empty | Re.One _ | Re.Star _ | Re.Plus _ => true
  end.


(* ===================================================================== *)
(** ** Populated values *)
(* ===================================================================== *)

(** A value [validate_completeness] takes for present: not ["N/A"] and
    truthy. *)
Definition populated (v : pyval) : bool :=
  negb (Py.eq_str v "N/A") && Py.truthy v.

(** The key is in the dict with a populated value. *)
Definition has_populated (d : list (string * pyval)) (k : string) : Prop :=
  exists v, Py.lookup d k = Some v /\ populated v = true.

(** A product with a [null] price and every other field. *)
Definition nivea_soft_no_price : pyval :=
  PDict [ ("product_id", PInt 101);
          ("name", PStr "Nivea Soft Care Creme 200ml");
          ("brand", PDict [("brand_name", PStr "Nivea")]);
          ("upc", PStr "4005808890507");
          ("price", PNone);
          ("images", PDict [("large", PStr "u1"); ("small", PStr "u2")]);
          ("details",
            PList [ PDict [("content_label", PStr "General Information");
                           ("content", PStr "A gentle  cream. For dry skin")];
                    PDict [("content_label", PStr "Ingredients");
                           ("content", PStr "AQUA. GLYCERIN")] ]) ].


(* ===================================================================== *)
(** ** The driver: requests, pages of slugs, the loop of [scrape_products] *)
(* ===================================================================== *)

(** [CATEGORIES] *)
Definition CATEGORIES : list string :=
  [ "beauty"; "cosmetics"; "diabetes-ndss"; "general-health";
    "gifting-fragrances"; "household"; "medicines"; "mother-baby";
    "personal-care"; "skin-care"; "vitamins-nutrition"; "weight-management" ].

(** What the driver can raise: what the core raises, and the division by
    [len(categories)]. *)
Inductive driver_exn : Type :=
| CoreError (e : exn)
| ZeroDivisionError.

(** A value a [dict] takes for key. *)
Definition hashable (v : pyval) : bool :=
  match v with
  | PList _ | PDict _ => false
  | _ => true
  end.

(** The keys of [dict.fromkeys(l)] once [keys] are in: each element that
    equals no key yet is added at the end. *)
Fixpoint fromkeys_into (keys l : list pyval) : list pyval :=
  match l with
  | [] => keys
  | x :: l' =>
      if existsb (Py.eq x) keys then fromkeys_into keys l'
      else fromkeys_into (keys ++ [x])%list l'
  end.

(** [list(dict.fromkeys(l))] *)
Definition dict_fromkeys (l : list pyval) : result (list pyval) :=
  if forallb hashable l then Ok (fromkeys_into [] l) else Raise TypeError.

(** [l[:n]] *)
Definition slice_to {A : Type} (n : Z) (l : list A) : list A :=
  if (0 <=? n)%Z then firstn (Z.to_nat n) l
  else firstn (List.length l - Z.to_nat (- n)) l.

(** The loop [for prod in products] of [get_product_slugs]: the slugs and
    the count after it. *)
Fixpoint add_slugs (products : list pyval) (max_products : Z)
         (slugs : list pyval) (total_fetched : Z) : result (list pyval * Z) :=
  match products with
  | [] => Ok (slugs, total_fetched)
  | prod :: rest =>
      slug <- Py.get prod "slug" PNone ;;
      if Py.truthy slug && negb (existsb (Py.eq slug) slugs) then
        let slugs := (slugs ++ [slug])%list in
        let total_fetched := (total_fetched + 1)%Z in
        if (total_fetched >=? max_products)%Z then Ok (slugs, total_fetched)
        else add_slugs rest max_products slugs total_fetched
      else add_slugs rest max_products slugs total_fetched
  end.

(** What is done with the answer to one request for a page: [None] stands
    for [break]. *)
Definition read_page (data : pyval) (max_products : Z)
           (slugs : list pyval) (total_fetched : Z) : result (option (list pyval * Z)) :=
  products <- Py.get data "results" (PList []) ;;
  if negb (Py.truthy products) then Ok None
  else
    objs <- Py.iter products ;;
    state <- add_slugs objs max_products slugs total_fetched ;;
    Ok (Some state).

Section Driver.

Variable html_get_text : string -> string.

(** The state of what is outside the program: the server, the random
    generator. *)
Variable world : Type.

(** [requests.post(API_PRODUCT_LIST, ...)], [raise_for_status()] and
    [resp.json()] for a category, a page and a page size: the parsed
    answer, or [None] when a [RequestException] or a [JSONDecodeError] is
    raised. *)
Variable post_product_list : string -> Z -> Z -> world -> option pyval * world.

(** The same for [API_PRODUCT_DETAIL] and a slug. *)
Variable post_product_detail : pyval -> world -> option pyval * world.

(** [random.shuffle] *)
Variable random_shuffle : list pyval -> world -> list pyval * world.

(** How a call of the driver ends: it returns, it raises, or the model runs
    out of [fuel] in a [while] loop. *)
Inductive outcome (A : Type) : Type :=
| Returns (a : A) (w : world)
| Raises (e : driver_exn)
| Unfinished.

Arguments Returns {A} a w.
Arguments Raises {A} e.
Arguments Unfinished {A}.

(** The [while total_fetched < max_products] loop of [get_product_slugs],
    [fuel] turns at most. *)
Fixpoint slug_pages (fuel : nat) (category_slug : string) (max_products page_size : Z)
         (page : Z) (slugs : list pyval) (total_fetched : Z) (w : world)
  : outcome (list pyval) :=
  if (total_fetched <? max_products)%Z then
    match fuel with
    | O => Unfinished
    | S fuel' =>
        match post_product_list category_slug page page_size w with
        | (None, w') => Returns slugs w'
        | (Some data, w') =>
            match read_page data max_products slugs total_fetched with
            | Raise e => Raises (CoreError e)
            | Ok None => Returns slugs w'
            | Ok (Some (slugs', total_fetched')) =>
                slug_pages fuel' category_slug max_products page_size
                           (page + 1)%Z slugs' total_fetched' w'
            end
        end
    end
  else Returns slugs w.

(** [get_product_slugs(category_slug, max_products, page_size)] *)
Definition get_product_slugs (fuel : nat) (category_slug : string)
           (max_products page_size : Z) (w : world) : outcome (list pyval) :=
  slug_pages fuel category_slug max_products page_size 1%Z [] 0%Z w.

(** The loop [for category in categories] of [collect_random_slugs]. *)
Fixpoint collect_categories (fuel : nat) (categories : list string)
         (products_per_category : Z) (all_slugs : list pyval) (w : world)
  : outcome (list pyval) :=
  match categories with
  | [] => Returns all_slugs w
  | category :: rest =>
      match get_product_slugs fuel category (products_per_category + 5)%Z 24%Z w with
      | Returns category_slugs w' =>
          collect_categories fuel rest products_per_category
                             (all_slugs ++ category_slugs)%list w'
      | Raises e => Raises e
      | Unfinished => Unfinished
      end
  end.

(** [collect_random_slugs(categories, total_products)] *)
Definition collect_random_slugs (fuel : nat) (categories : list string)
           (total_products : Z) (w : world) : outcome (list pyval) :=
  match categories with
  | [] => Raises ZeroDivisionError
  | _ :: _ =>
      let products_per_category :=
        Z.max 1 (total_products / Z.of_nat (List.length categories)) in
      match collect_categories fuel categories products_per_category [] w with
      | Returns all_slugs w' =>
          match dict_fromkeys all_slugs with
          | Raise e => Raises (CoreError e)
          | Ok unique_slugs =>
              if (Z.of_nat (List.length unique_slugs) >? total_products)%Z then
                let (shuffled, w'') := random_shuffle unique_slugs w' in
                Returns (slice_to total_products shuffled) w''
              else Returns unique_slugs w'
          end
      | Raises e => Raises e
      | Unfinished => Unfinished
      end
  end.

(** [fetch_product_data(slug)] *)
Definition fetch_product_data (slug : pyval) (w : world) : outcome pyval :=
  match post_product_detail slug w with
  | (None, w') => Returns PNone w'
  | (Some data, w') =>
      match Py.get data "product" PNone with
      | Ok prod => Returns prod w'
      | Raise e => Raises (CoreError e)
      end
  end.

(** The refill of [candidate_slugs_queue], which is empty when it is
    refilled. *)
Definition refill (fuel : nat) (categories : list string)
           (max_attempts attempts : Z) (queue : list pyval) (w : world)
  : outcome (list pyval) :=
  match queue with
  | [] =>
      let batch_size := Z.min 50 (max_attempts - attempts + 10) in
      match collect_random_slugs fuel categories batch_size w with
      | Returns new_slugs w' =>
          Returns (queue ++ filter (fun slug => negb (existsb (Py.eq slug) queue)) new_slugs)%list w'
      | Raises e => Raises e
      | Unfinished => Unfinished
      end
  | _ :: _ => Returns queue w
  end.

(** The [while] loop of [scrape_products], [turns] turns at most. *)
Fixpoint scrape_loop (turns fuel : nat) (categories : list string)
         (max_products max_attempts : Z)
         (rows : list row) (queue : list pyval) (attempts : Z) (w : world)
  : outcome (list row) :=
  if (Z.of_nat (List.length rows) <? max_products)%Z && (attempts <? max_attempts)%Z then
    match turns with
    | O => Unfinished
    | S turns' =>
        match refill fuel categories max_attempts attempts queue w with
        | Returns [] w1 => Returns rows w1
        | Returns (slug :: queue') w1 =>
            let attempts := (attempts + 1)%Z in
            match fetch_product_data slug w1 with
            | Returns PNone w2 =>
                scrape_loop turns' fuel categories max_products max_attempts
                            rows queue' attempts w2
            | Returns prod w2 =>
                match build_row html_get_text (Py.str slug) prod with
                | Raise e => Raises (CoreError e)
                | Ok r =>
                    let rows :=
                      if fst (validate_completeness r) then (rows ++ [r])%list else rows in
                    scrape_loop turns' fuel categories max_products max_attempts
                                rows queue' attempts w2
                end
            | Raises e => Raises e
            | Unfinished => Unfinished
            end
        | Raises e => Raises e
        | Unfinished => Unfinished
        end
    end
  else Returns rows w.

(** [scrape_products(categories, max_products)] *)
Definition scrape_products (turns fuel : nat) (categories : option (list string))
           (max_products : Z) (w : world) : outcome (list row) :=
  let categories := match categories with None => CATEGORIES | Some c => c end in
  let max_attempts := (max_products * 5)%Z in
  scrape_loop turns fuel categories max_products max_attempts [] [] 0%Z w.

End Driver.

Arguments Returns {world A} a w.
Arguments Raises {world A} e.
Arguments Unfinished {world A}.


(* ===================================================================== *)
(** ** Lists of slugs *)
(* ===================================================================== *)

(** No element of [l] equals an element of [seen] or one before it in
    [l]. *)
Fixpoint no_repeat_from (seen l : list pyval) : bool :=
  match l with
  | [] => true
  | x :: l' => negb (existsb (Py.eq x) seen) && no_repeat_from (seen ++ [x])%list l'
  end.

Definition no_repeats (l : list pyval) : bool := no_repeat_from [] l.

(** Two hashable values are the same key of a dict when they are equal:
    [True] and [1], [False] and [0] are one key. *)
Definition dict_key (v : pyval) : pyval :=
  match v with
  | PBool b => PInt (if b then 1 else 0)
  | _ => v
  end.

(** What the loop over one page keeps: slugs that differ from one another,
    all truthy, as many as the count says, and no more than asked for. *)
Definition slugs_ok (max_products : Z) (slugs : list pyval) (total_fetched : Z) : Prop :=
  no_repeats slugs = true /\ forallb Py.truthy slugs = true /\
  total_fetched = Z.of_nat (List.length slugs) /\ (total_fetched <= Z.max 0 max_products)%Z.


(* ===================================================================== *)
(** ** A sample shop *)
(* ===================================================================== *)

(** The world of the sample: the number of requests made so far. *)
Definition requests : Type := nat.

(** A list endpoint with one page of four products for every category; the
    first two have slugs, the third repeats the first, the last has none. *)
Definition sample_list (category : string) (page page_size : Z) (w : requests)
  : option pyval * requests :=
  (Some (PDict [("results",
           if (page =? 1)%Z then
             PList [ PDict [("slug", PStr "nivea-soft")];
                     PDict [("slug", PStr "hand-cream")];
                     PDict [("slug", PStr "nivea-soft")];
                     PDict [("name", PStr "no slug")] ]
           else PList [])]),
   S w).

(** A list endpoint that answers every page with the same two products. *)
Definition stuck_list (category : string) (page page_size : Z) (w : requests)
  : option pyval * requests :=
  (Some (PDict [("results", PList [ PDict [("slug", PStr "nivea-soft")];
                                    PDict [("slug", PStr "hand-cream")] ])]),
   S w).

(** A detail endpoint that knows two products. *)
Definition sample_detail (slug : pyval) (w : requests) : option pyval * requests :=
  (if Py.eq slug (PStr "nivea-soft") then Some (PDict [("product", nivea_soft)])
   else if Py.eq slug (PStr "hand-cream") then Some (PDict [("product", hand_cream)])
   else None,
   S w).

(** A detail endpoint whose products have [null] details. *)
Definition broken_detail (slug : pyval) (w : requests) : option pyval * requests :=
  (Some (PDict [("product", PDict [("name", PStr "Hand Cream 50ml"); ("details", PNone)])]),
   S w).

(** A shuffle that reverses. *)
Definition sample_shuffle (l : list pyval) (w : requests) : list pyval * requests :=
  (rev l, w).


(** A row [validate_completeness] accepts, built for a slug from the
    product that [fetch_product_data] returned for this slug, in some state
    of the world. *)
Definition complete_row (html_get_text : string -> string) {world : Type}
           (post_product_detail : pyval -> world -> option pyval * world)
           (r : row) : Prop :=
  validate_completeness r = (true, None) /\
  exists slug prod w1 w2,
    fetch_product_data world post_product_detail slug w1 = Returns prod w2 /\
    prod <> PNone /\
    build_row html_get_text (Py.str slug) prod = Ok r.


(* ===================================================================== *)
(** ** Numbers and units of a size *)
(* ===================================================================== *)

(** The literal word [w] read at the head of [s] as the matcher reads it:
    the position after it, when it is there. *)
Fixpoint eat (ignorecase : bool) (w : string) (prev : option ascii) (s : string)
  : option (option ascii * string) :=
  match w with
  | EmptyString => Some (prev, s)
  | String p w' =>
      match s with
      | String c s' =>
          if Re.atom_matches ignorecase (Re.Chr p) c then eat ignorecase w' (Some c) s'
          else None
      | EmptyString => None
      end
  end.

(** Every atom of the pattern matches only characters that pass [p]. *)
Fixpoint within (p : ascii -> bool) (r : Re.regex) : Prop :=
  match r with
  | Re.One a | Re.Star a | Re.Plus a =>
      forall c, Re.atom_matches true a c = true -> p c = true
  | Re.Seq r1 r2 | Re.Alt r1 r2 => within p r1 /\ within p r2
  | Re.Opt r1 | Re.Group _ r1 => within p r1
  | Re.Empty | Re.NotAhead _ | Re.WordBoundary => True
  end.

Definition digit_or_dot (c : ascii) : bool :=
  Char.isdigit c || Ascii.eqb c "."%char.

(** The units a size can end with, in lower case; the fluid ounce is apart,
    with its optional period and spaces. *)
Definition size_units : list string :=
  [ "ml"; "g"; "oz"; "l"; "tablet"; "caps"; "count"; "ct"; "pieces"; "pcs";
    "kg"; "kilogram" ].

Definition unit_ok (unit : string) : bool :=
  existsb (String.eqb (Str.lower unit)) size_units
  || Str.startswith "fl" (Str.lower unit).


(** The alternatives of the second group of a size pattern. *)
Definition unit_part (pattern : Re.regex) : option Re.regex :=
  match pattern with
  | Re.Seq _ (Re.Seq _ (Re.Group 2 alternatives)) => Some alternatives
  | _ => None
  end.


(** Steps through the alternatives of a unit: one that may be taken, and
    one that cannot, a shorter alternative before it having failed; [step]
    and [longer] are the lemmas on one alternative and on a longer word. *)
Ltac unit_found Hu :=
  unfold unit_ok; rewrite Hu; reflexivity.

Ltac unit_alive step H Hk :=
  apply (step _ _ _ _ _ _ _ _ Hk) in H;
  destruct H as [[_ [?u [?p' [?s' [?Hk1 ?Hu]]]]] | [?Hnone H]];
  [eexists _, _, _, _; split; [eassumption|]; split; [|reflexivity];
   unfold unit_ok; match goal with Hu : Str.lower _ = _ |- _ => rewrite Hu end; reflexivity
  |].

Ltac unit_dead step longer H Hk Hshort suffix :=
  apply (step _ _ _ _ _ _ _ _ Hk) in H;
  destruct H as [[?Hsome _] | [_ H]];
  [exfalso; apply Hsome; exact (longer true _ suffix _ _ Hshort)|].


(* ===================================================================== *)
(** ** Spacing of a cleaned text *)
(* ===================================================================== *)

(** The text begins with a whitespace character. *)
Definition starts_blank (s : string) : bool :=
  match s with
  | String c _ => Char.isspace c
  | EmptyString => false
  end.

(** The text begins with a character that is not whitespace. *)
Definition starts_word (s : string) : bool :=
  match s with
  | String c _ => negb (Char.isspace c)
  | EmptyString => false
  end.

(** The number of whitespace characters the text begins with. *)
Fixpoint leading_blanks (s : string) : nat :=
  match s with
  | String c s' => if Char.isspace c then S (leading_blanks s') else 0
  | EmptyString => 0
  end.

(** Every comma is followed by a whitespace character. *)
Fixpoint commas_blank (s : string) : bool :=
  match s with
  | EmptyString => true
  | String c s' =>
      (if Ascii.eqb c ","%char then starts_blank s' else true) && commas_blank s'
  end.

(** The only whitespace is the space, never two in a row, and every
    comma is followed by a space. *)
Fixpoint squeezed (s : string) : bool :=
  match s with
  | EmptyString => true
  | String c s' =>
      (if Char.isspace c then Ascii.eqb c " "%char && negb (starts_blank s')
       else if Ascii.eqb c ","%char then Str.startswith " " s'
       else true)
      && squeezed s'
  end.

(** The spacing of a cleaned list of ingredients: every whitespace
    character is one space with a character that is not whitespace after
    it, and every comma is followed by a space. *)
Fixpoint tidy (s : string) : bool :=
  match s with
  | EmptyString => true
  | String c s' =>
      (if Char.isspace c then Ascii.eqb c " "%char && starts_word s'
       else if Ascii.eqb c ","%char then Str.startswith " " s'
       else true)
      && tidy s'
  end.



(* ===================================================================== *)
(** ** The last page of a category *)
(* ===================================================================== *)

(** The answer to a request for a page ends the loop over the pages: the
    request failed, or its [results] are missing or empty. *)
Definition no_products (answer : option pyval) : bool :=
  match answer with
  | None => true
  | Some data =>
      match Py.get data "results" (PList []) with
      | Ok products => negb (Py.truthy products)
      | Raise _ => false
      end
  end.

(** One step through a sequence of calls that may raise. *)
Ltac bind_ok H :=
  match type of H with
  | bind ?m _ = Ok _ =>
      let E := fresh "E" in
      destruct m eqn:E; cbn [bind] in H; [|discriminate H]
  end.

(* ===================================================================== *)
(** ** The parser on text without markup *)
(* ===================================================================== *)

Lemma strip_keeps_plain_text : keeps_plain_text Str.strip.
Proof. intros s _. reflexivity. Qed.

(* ===================================================================== *)
(** ** STEP 1 of [clean_ingredients]: periods *)
(* ===================================================================== *)

Lemma length_tail_diff (c : ascii) (s : string) :
  String.length (String c s) - String.length s = 1.
Proof. cbn [String.length]. lia. Qed.

Lemma match_at_period (prev : option ascii) (c : ascii) (s : string) :
  Re.match_at false period_not_before_digit prev (String c s) =
  if Ascii.eqb c "."%char && negb (next_is_digit s)
  then Some {| Re.span := 1; Re.groups := [] |}
  else None.
Proof.
  unfold Re.match_at, period_not_before_digit.
  cbn [Re.run Re.atom_matches].
  rewrite (Ascii.eqb_sym "."%char c).
  destruct (Ascii.eqb c "."%char); [|reflexivity].
  destruct s as [|d s']; cbn [next_is_digit negb andb].
  - reflexivity.
  - destruct (Char.isdigit d); cbn [negb]; [reflexivity|].
    rewrite length_tail_diff. reflexivity.
Qed.

Lemma sub_from_period (prev : option ascii) (s : string) :
  Re.sub_from false period_not_before_digit "," 0 prev s = periods_to_commas s.
Proof.
  revert prev. induction s as [|c s IH]; intro prev.
  - reflexivity.
  - cbn [Re.sub_from periods_to_commas].
    rewrite match_at_period.
    destruct (Ascii.eqb c "."%char && negb (next_is_digit s)); cbn.
    + now rewrite IH.
    + now rewrite IH.
Qed.

Lemma replace_periods_spec (s : string) : replace_periods s = periods_to_commas s.
Proof. apply sub_from_period. Qed.

(** On text without markup, [clean_ingredients] does not depend on the
    parser. *)
Lemma clean_ingredients_plain (html_get_text : string -> string) (x : string) :
  keeps_plain_text html_get_text ->
  markup_free x = true ->
  clean_ingredients html_get_text x = clean_ingredients Str.strip x.
Proof.
  intros Hparser Hx. unfold clean_ingredients, clean_markup.
  rewrite (Hparser x Hx). reflexivity.
Qed.

Lemma clean_ingredients_steps (html_get_text : string -> string) (x : string) :
  Str.nonempty x = true ->
  x <> "N/A" ->
  Str.strip (clean_markup html_get_text x) <> "" ->
  clean_ingredients html_get_text x =
  tidy_punctuation
    (apply_fixes (Str.title (periods_to_commas (clean_markup html_get_text x)))).
Proof.
  intros Hx Hna Hclean. unfold clean_ingredients.
  rewrite Hx. apply String.eqb_neq in Hna. rewrite Hna. cbn [negb orb].
  destruct (clean_markup html_get_text x) as [|c cleaned] eqn:Hc.
  - exfalso. apply Hclean. reflexivity.
  - cbn [Str.nonempty negb orb]. apply String.eqb_neq in Hclean. rewrite Hclean.
    now rewrite replace_periods_spec.
Qed.

(** C5. STEP 1 of [clean_ingredients], the substitution of [r'\.(?!\d)'],
    turns into a comma every period that is not immediately followed by a
    digit and leaves every other character, a period before a digit
    included, as it is; on an input that is not empty, not ["N/A"] and not
    blank once cleaned, [clean_ingredients] is that step on the cleaned
    text followed by the title case, the fixes and the tidying of
    punctuation; and with a parser that keeps text without markup, the two
    ingredient lists of the docstring come out as the docstring says. *)
Theorem clean_ingredients_periods (html_get_text : string -> string) :
  keeps_plain_text html_get_text ->
  (forall s, replace_periods s = periods_to_commas s) /\
  (forall x,
      Str.nonempty x = true -> x <> "N/A" ->
      Str.strip (clean_markup html_get_text x) <> "" ->
      clean_ingredients html_get_text x =
      tidy_punctuation
        (apply_fixes (Str.title (periods_to_commas (clean_markup html_get_text x))))) /\
  clean_ingredients html_get_text "GLYCERIN (1.5%), WATER. SODIUM CHLORIDE."
    = "Glycerin (1.5%), Water, Sodium Chloride" /\
  clean_ingredients html_get_text "AQUA, GLYCERIN, SODIUM LAURYL SULFATE. FRAGRANCE."
    = "Aqua, Glycerin, Sodium Lauryl Sulfate, Fragrance".
Proof.
  intro Hparser. split; [exact replace_periods_spec|].
  split; [apply clean_ingredients_steps|].
  split; (rewrite (clean_ingredients_plain _ _ Hparser) by reflexivity);
    vm_compute; reflexivity.
Qed.

Lemma clean_ingredients_periods_witness :
  periods_to_commas "GLYCERIN (1.5%), WATER. SODIUM CHLORIDE."
    = "GLYCERIN (1.5%), WATER, SODIUM CHLORIDE," /\
  clean_ingredients Str.strip "GLYCERIN (1.5%), WATER. SODIUM CHLORIDE."
    = tidy_punctuation
        (apply_fixes (Str.title "GLYCERIN (1.5%), WATER, SODIUM CHLORIDE,")) /\
  clean_ingredients Str.strip "GLYCERIN (1.5%), WATER. SODIUM CHLORIDE."
    = "Glycerin (1.5%), Water, Sodium Chloride" /\
  clean_ingredients Str.strip "AQUA, GLYCERIN, SODIUM LAURYL SULFATE. FRAGRANCE."
    = "Aqua, Glycerin, Sodium Lauryl Sulfate, Fragrance".
Proof.
  destruct (clean_ingredients_periods Str.strip strip_keeps_plain_text)
    as [_ [Hsteps Hexamples]].
  split; [reflexivity|]. split; [|exact Hexamples].
  apply (Hsteps "GLYCERIN (1.5%), WATER. SODIUM CHLORIDE.");
    [reflexivity|discriminate|vm_compute; discriminate].
Defined.

(** C1. [clean_ingredients] applied to its own output: STEP 4 removes a run
    of commas only when nothing but whitespace separates its first two
    commas, so of three commas set apart by spaces two remain, and the
    second application removes one more. *)
Theorem clean_ingredients_reapplied (html_get_text : string -> string) :
  keeps_plain_text html_get_text ->
  clean_ingredients html_get_text "b, , ,c" = "B, , C" /\
  clean_ingredients html_get_text (clean_ingredients html_get_text "b, , ,c") = "B, C".
Proof.
  intro Hparser.
  assert (H1 : clean_ingredients html_get_text "b, , ,c" = "B, , C").
  { rewrite (clean_ingredients_plain _ _ Hparser) by reflexivity.
    vm_compute. reflexivity. }
  split; [exact H1|].
  rewrite H1. rewrite (clean_ingredients_plain _ _ Hparser) by reflexivity.
  vm_compute. reflexivity.
Qed.

Lemma clean_ingredients_reapplied_witness :
  clean_ingredients Str.strip "b, , ,c" = "B, , C" /\
  clean_ingredients Str.strip (clean_ingredients Str.strip "b, , ,c") = "B, C".
Proof. exact (clean_ingredients_reapplied Str.strip strip_keeps_plain_text). Defined.

(** C2. A record whose ["details"] or ["brand"] key holds [null], or a
    detail whose ["content"] holds [null], makes [extract_product_line_name]
    and [extract_size_volume] raise; [extract_detail], which tests
    [if not details] and passes the content through [clean_text], returns
    the empty string on the same data. *)
Theorem null_fields_raise (html_get_text : string -> string) :
  extract_product_line_name html_get_text
    (PDict [("name", PStr "Hand Cream 50ml"); ("details", PNone)]) = Raise TypeError /\
  extract_product_line_name html_get_text
    (PDict [("name", PStr "Hand Cream 50ml"); ("brand", PNone)]) = Raise AttributeError /\
  extract_size_volume
    (PDict [("name", PStr "Hand Cream 50ml"); ("details", PNone)]) = Raise TypeError /\
  extract_size_volume
    (PDict [("name", PStr "Hand Cream 50ml");
            ("details", PList [PDict [("content_label", PStr "Ingredients");
                                      ("content", PNone)]])]) = Raise TypeError /\
  extract_detail html_get_text PNone "Ingredients" = Ok "" /\
  extract_detail html_get_text
    (PList [PDict [("content_label", PStr "Ingredients"); ("content", PNone)]])
    "Ingredients" = Ok "".
Proof. repeat split; reflexivity. Qed.

(* ===================================================================== *)
(** ** [extract_detail] *)
(* ===================================================================== *)

Lemma extract_detail_loop_find (html_get_text : string -> string)
      (details : list (list (string * pyval))) (label : string) :
  extract_detail_loop html_get_text (List.map PDict details) label =
  match find (has_label label) details with
  | Some d => clean_text html_get_text (content_of d)
  | None => Ok ""
  end.
Proof.
  induction details as [|d ds IH]; [reflexivity|].
  cbn [List.map extract_detail_loop find Py.get bind].
  unfold has_label at 1.
  destruct (Py.eq_str _ label); [reflexivity|exact IH].
Qed.

Lemma extract_detail_find (html_get_text : string -> string)
      (details : list (list (string * pyval))) (label : string) :
  extract_detail html_get_text (PList (List.map PDict details)) label =
  match find (has_label label) details with
  | Some d => clean_text html_get_text (content_of d)
  | None => Ok ""
  end.
Proof.
  destruct details as [|d ds]; [reflexivity|].
  unfold extract_detail. cbn [Py.truthy List.map negb Py.iter bind].
  apply (extract_detail_loop_find html_get_text (d :: ds)).
Qed.

(** A detail without content, or with a [null] content, is cleaned to the
    empty string. *)
Lemma clean_text_no_content (html_get_text : string -> string)
      (detail : list (string * pyval)) :
  Py.lookup detail "content" = None \/ Py.lookup detail "content" = Some PNone ->
  clean_text html_get_text (content_of detail) = Ok "".
Proof. unfold content_of. intros [-> | ->]; reflexivity. Qed.

(** C9. On a list of details, [extract_detail] returns [clean_text] of the
    content of the first detail whose ["content_label"] is the string
    [label] itself ([find] stops at the first), whatever follows it, and the
    empty string when no detail has that label; it returns the empty string
    when [details] is [None] or the empty list. *)
Theorem extract_detail_first_match (html_get_text : string -> string)
        (details : list (list (string * pyval))) (label : string) :
  extract_detail html_get_text (PList (List.map PDict details)) label =
    match find (has_label label) details with
    | Some d => clean_text html_get_text (content_of d)
    | None => Ok ""
    end
  /\ extract_detail html_get_text PNone label = Ok ""
  /\ extract_detail html_get_text (PList []) label = Ok ""
  /\ has_label "Ingredients" [("content_label", PStr "ingredients")] = false.
Proof.
  split; [apply extract_detail_find|repeat split; reflexivity].
Qed.

(** C10. When the first detail with the label has no content, a [null]
    content, or a content that [clean_text] turns into the empty string,
    [extract_detail] returns the empty string, as it does on the details
    before it, which have no such label; the details after it are not
    looked at. *)
Theorem extract_detail_blank_content (html_get_text : string -> string)
        (before after : list (list (string * pyval)))
        (detail : list (string * pyval)) (label : string) :
  find (has_label label) before = None ->
  has_label label detail = true ->
  clean_text html_get_text (content_of detail) = Ok "" ->
  extract_detail html_get_text
    (PList (List.map PDict (before ++ detail :: after)%list)) label = Ok ""
  /\ extract_detail html_get_text (PList (List.map PDict before)) label = Ok "".
Proof.
  intros Hbefore Hlabel Hblank. split.
  - rewrite extract_detail_find.
    assert (Hfind : find (has_label label) (before ++ detail :: after)%list = Some detail).
    { clear Hblank. induction before as [|b bs IH]; cbn [app find].
      - now rewrite Hlabel.
      - cbn [find] in Hbefore. destruct (has_label label b); [discriminate|].
        now apply IH. }
    rewrite Hfind. exact Hblank.
  - rewrite extract_detail_find. now rewrite Hbefore.
Qed.

Lemma extract_detail_blank_content_witness :
  extract_detail Str.strip
    (PList (List.map PDict
       ([ [("content_label", PStr "General Information"); ("content", PStr "Soap")] ]
        ++ [("content_label", PStr "Ingredients"); ("content", PStr "   ")]
        :: [ [("content_label", PStr "Ingredients"); ("content", PStr "Aqua")] ])%list))
    "Ingredients" = Ok ""
  /\ extract_detail Str.strip
       (PList (List.map PDict
          [ [("content_label", PStr "General Information"); ("content", PStr "Soap")] ]))
       "Ingredients" = Ok "".
Proof.
  apply (extract_detail_blank_content Str.strip
           [ [("content_label", PStr "General Information"); ("content", PStr "Soap")] ]
           [ [("content_label", PStr "Ingredients"); ("content", PStr "Aqua")] ]
           [("content_label", PStr "Ingredients"); ("content", PStr "   ")]
           "Ingredients"); reflexivity.
Defined.

(* ===================================================================== *)
(** ** [validate_completeness] *)
(* ===================================================================== *)

Lemma first_missing_find (r : row) (fields : list string) :
  first_missing r fields = find (missing r) fields.
Proof.
  induction fields as [|f fs IH]; [reflexivity|].
  cbn [first_missing find]. now rewrite IH.
Qed.

Lemma row_get_set_other (r : row) (field f : string) (v : pyval) :
  String.eqb field f = false ->
  row_get (row_set r field v) f = row_get r f.
Proof.
  intro Hne. unfold row_get. induction r as [|[k x] r IH]; [reflexivity|].
  cbn [row_set]. destruct (String.eqb k field) eqn:Hk.
  - apply String.eqb_eq in Hk. subst k. cbn [Py.lookup]. now rewrite Hne.
  - cbn [Py.lookup]. destruct (String.eqb k f); [reflexivity|exact IH].
Qed.

Lemma find_ext_in {A : Type} (f g : A -> bool) (l : list A) :
  (forall x, In x l -> f x = g x) -> find f l = find g l.
Proof.
  induction l as [|a l IH]; intro H; [reflexivity|].
  cbn [find]. rewrite (H a (or_introl eq_refl)).
  destruct (g a); [reflexivity|]. apply IH. intros x Hx. apply H. now right.
Qed.

(** C7. [validate_completeness] returns [False] with the first field of
    [required_fields], in the order of the list, whose value in the row is
    ["N/A"] or falsy, and [(True, None)] when there is none; the product
    line is not in the list and its value never changes the result; a full
    row whose barcode is ["N/A"] is refused for ["Barcode (EAN/UPC)"] and a
    full row whose product line is ["N/A"] is accepted. *)
Theorem validate_completeness_first_missing (r : row) :
  validate_completeness r =
    match find (missing r) required_fields with
    | Some field => (false, Some field)
    | None => (true, None)
    end
  /\ fst (validate_completeness r)
     = forallb (fun field => negb (missing r field)) required_fields
  /\ existsb (String.eqb "Product Line Name") required_fields = false
  /\ (forall v, validate_completeness (row_set r "Product Line Name" v)
                = validate_completeness r)
  /\ validate_completeness (row_set full_row "Barcode (EAN/UPC)" (PStr "N/A"))
     = (false, Some "Barcode (EAN/UPC)")
  /\ validate_completeness (row_set full_row "Product Line Name" (PStr "N/A"))
     = (true, None).
Proof.
  assert (Hfind : forall r0, validate_completeness r0 =
            match find (missing r0) required_fields with
            | Some field => (false, Some field)
            | None => (true, None)
            end).
  { intro r0. unfold validate_completeness. now rewrite first_missing_find. }
  split; [apply Hfind|].
  split.
  { rewrite Hfind. clear Hfind.
    induction required_fields as [|f fs IH]; [reflexivity|].
    cbn [find forallb]. destruct (missing r f); [reflexivity|exact IH]. }
  split; [reflexivity|].
  split; [|split; reflexivity].
  intro v. rewrite !Hfind.
  rewrite (find_ext_in (missing (row_set r "Product Line Name" v)) (missing r)); [reflexivity|].
  intros f Hf. unfold missing. rewrite row_get_set_other; [reflexivity|].
  cbn in Hf.
  repeat (destruct Hf as [<- | Hf]; [reflexivity|]). destruct Hf.
Qed.

(* ===================================================================== *)
(** ** [get_skin_concerns] *)
(* ===================================================================== *)

Lemma any_pattern_found_existsb (patterns : list Re.regex) (text : string) :
  any_pattern_found patterns text = category_matches text patterns.
Proof.
  induction patterns as [|p ps IH]; [reflexivity|].
  cbn [any_pattern_found category_matches existsb].
  destruct (Re.found false p text); [reflexivity|exact IH].
Qed.

Lemma existsb_eqb_false (c : string) (l : list string) :
  ~ In c l -> existsb (String.eqb c) l = false.
Proof.
  induction l as [|x l IH]; intro Hnot; [reflexivity|].
  cbn [existsb]. destruct (String.eqb c x) eqn:Hcx.
  - apply String.eqb_eq in Hcx. subst x. exfalso. apply Hnot. now left.
  - apply IH. intro Hin. apply Hnot. now right.
Qed.

(** The outer loop appends the matching categories to what it holds, as
    long as the names of the table are distinct and new. *)
Lemma fold_check_concern (text : string) (table : list (string * list Re.regex)) :
  forall detected,
    NoDup (List.map fst table) ->
    (forall c, In c (List.map fst table) -> ~ In c detected) ->
    fold_left (check_concern text) table detected
    = (detected ++ matching_concerns text table)%list.
Proof.
  unfold matching_concerns.
  induction table as [|[c ps] table IH]; intros detected Hnodup Hfresh.
  - cbn. now rewrite app_nil_r.
  - cbn [fold_left check_concern filter snd List.map fst] in *.
    inversion Hnodup as [|? ? Hc Hrest]; subst.
    rewrite any_pattern_found_existsb.
    destruct (category_matches text ps).
    + rewrite existsb_eqb_false by (apply Hfresh; now left).
      rewrite IH; [now rewrite <- app_assoc|exact Hrest|].
      intros c' Hc' Hin. apply in_app_or in Hin. destruct Hin as [Hin|[<-|[]]].
      * apply (Hfresh c'); [now right|exact Hin].
      * exact (Hc Hc').
    + apply IH; [exact Hrest|]. intros c' Hc'. apply Hfresh. now right.
Qed.

Lemma NoDup_map_filter {A B : Type} (f : A -> B) (p : A -> bool) (l : list A) :
  NoDup (List.map f l) -> NoDup (List.map f (filter p l)).
Proof.
  induction l as [|a l IH]; intro H; [constructor|].
  cbn [List.map filter] in *. inversion H as [|? ? Ha Hl]; subst.
  destruct (p a); [|now apply IH].
  cbn [List.map]. constructor; [|now apply IH].
  intro Hin. apply Ha. apply in_map_iff in Hin. destruct Hin as [x [Hx Hin]].
  apply filter_In in Hin. apply in_map_iff. exists x. tauto.
Qed.

Lemma concern_names_distinct : NoDup (List.map fst concern_patterns).
Proof.
  cbn. repeat (constructor; [cbn; intuition discriminate|]). constructor.
Qed.

Lemma get_skin_concerns_filter (text : string) :
  get_skin_concerns text = matching_concerns (Str.lower text) concern_patterns.
Proof.
  unfold get_skin_concerns. destruct text as [|c text].
  - vm_compute. reflexivity.
  - cbn [Str.nonempty negb].
    rewrite fold_check_concern; [reflexivity|exact concern_names_distinct|].
    intros ? _ [].
Qed.

(** C8. [get_skin_concerns] lowers the text and returns the categories of
    which some pattern matches somewhere in the lowered text: each of them
    once, no other, in the order the categories are declared. *)
Theorem get_skin_concerns_declared_order (text : string) :
  get_skin_concerns text
    = List.map fst (filter (fun item => category_matches (Str.lower text) (snd item))
                           concern_patterns)
  /\ List.map fst concern_patterns = concern_order
  /\ NoDup (get_skin_concerns text)
  /\ (forall concern,
        In concern (get_skin_concerns text) <->
        exists patterns pattern,
          In (concern, patterns) concern_patterns /\ In pattern patterns /\
          Re.found false pattern (Str.lower text) = true).
Proof.
  split; [apply get_skin_concerns_filter|].
  split; [reflexivity|].
  split.
  - rewrite get_skin_concerns_filter. apply NoDup_map_filter, concern_names_distinct.
  - intro concern. rewrite get_skin_concerns_filter. unfold matching_concerns.
    rewrite in_map_iff. split.
    + intros [[c ps] [Hc Hin]]. cbn in Hc. subst c.
      apply filter_In in Hin. destruct Hin as [Hin Hm]. cbn [snd] in Hm.
      apply existsb_exists in Hm. destruct Hm as [p [Hp Hfound]].
      exists ps, p. auto.
    + intros [ps [p [Hin [Hp Hfound]]]].
      exists (concern, ps). split; [reflexivity|].
      apply filter_In. split; [exact Hin|]. cbn [snd].
      apply existsb_exists. exists p. auto.
Qed.

(* ===================================================================== *)
(** ** Facts on the matcher *)
(* ===================================================================== *)

Lemma captured_cons_same (caps : Re.captures) (n : nat) (g : string) :
  captured ((n, g) :: caps) n.
Proof. exists g. cbn. now rewrite Nat.eqb_refl. Qed.

Lemma captured_cons (caps : Re.captures) (m n : nat) (g : string) :
  captured caps n -> captured ((m, g) :: caps) n.
Proof.
  intros [g' Hg']. unfold captured. cbn [Re.group].
  destruct (Nat.eqb m n); eauto.
Qed.

(** A successful repetition ends in a successful continuation. *)
Lemma star_success {A : Type} (ic : bool) (a : Re.atom) (s : string) :
  forall (prev : option ascii) (k : option ascii -> string -> option A) (x : A),
    Re.star ic a prev s k = Some x ->
    exists prev' s', k prev' s' = Some x.
Proof.
  induction s as [|c s IH]; intros prev k x H; cbn [Re.star] in H.
  - eauto.
  - destruct (Re.atom_matches ic a c); [|eauto].
    destruct (Re.star ic a (Some c) s k) eqn:Hstar.
    + injection H as <-. eapply IH. exact Hstar.
    + eauto.
Qed.

(** A successful match ends in a successful continuation, called with
    captures that still hold every group held before. *)
Lemma run_success (ic : bool) (r : Re.regex) :
  forall (A : Type) (prev : option ascii) (s : string) (caps : Re.captures)
         (k : option ascii -> string -> Re.captures -> option A) (x : A),
    Re.run ic A r prev s caps k = Some x ->
    exists prev' s' caps',
      k prev' s' caps' = Some x /\ (forall n, captured caps n -> captured caps' n).
Proof.
  induction r as [|a|r1 IH1 r2 IH2|r1 IH1 r2 IH2|r1 IH1|a|a|n r1 IH1|r1 IH1|];
    intros A prev s caps k x H; cbn [Re.run] in H.
  - eauto 6.
  - destruct s as [|c s]; [discriminate|].
    destruct (Re.atom_matches ic a c); [eauto 6|discriminate].
  - apply IH1 in H. destruct H as [p1 [s1 [c1 [H Hc1]]]].
    apply IH2 in H. destruct H as [p2 [s2 [c2 [H Hc2]]]].
    exists p2, s2, c2. split; [exact H|auto].
  - destruct (Re.run ic A r1 prev s caps k) eqn:H1.
    + injection H as <-. eapply IH1. exact H1.
    + eapply IH2. exact H.
  - destruct (Re.run ic A r1 prev s caps k) eqn:H1.
    + injection H as <-. eapply IH1. exact H1.
    + eauto 6.
  - apply star_success in H. destruct H as [p [s' H]]. eauto 6.
  - destruct s as [|c s]; [discriminate|].
    destruct (Re.atom_matches ic a c); [|discriminate].
    apply star_success in H. destruct H as [p [s' H]]. eauto 6.
  - apply IH1 in H. destruct H as [p1 [s1 [c1 [H Hc1]]]].
    eexists _, _, _. split; [exact H|].
    intros m Hm. apply captured_cons. auto.
  - destruct (Re.run ic unit r1 prev s caps (fun _ _ _ => Some tt)); [discriminate|].
    eauto 6.
  - destruct (Re.at_word_boundary prev s); [eauto 6|discriminate].
Qed.

Lemma search_from_match_at (ic : bool) (r : Re.regex) (s : string) :
  forall prev m,
    Re.search_from ic r prev s = Some m ->
    exists prev' s', Re.match_at ic r prev' s' = Some m.
Proof.
  induction s as [|c s IH]; intros prev m H; cbn [Re.search_from] in H.
  - destruct (Re.match_at ic r prev "") eqn:Hm; [|discriminate].
    injection H as <-. eauto.
  - destruct (Re.match_at ic r prev (String c s)) eqn:Hm.
    + injection H as <-. eauto.
    + eapply IH. exact H.
Qed.

(** A match of a size pattern holds its number in group 1 and its unit in
    group 2. *)
Lemma size_pattern_groups (number unit : Re.regex) (units : list Re.regex)
      (text : string) (m : Re.rmatch) :
  Re.search true (size_pattern (Re.Group 1 number) unit units) text = Some m ->
  exists n u, Re.group_of m 1 = Some n /\ Re.group_of m 2 = Some u.
Proof.
  intro H. apply search_from_match_at in H. destruct H as [prev [s H]].
  unfold Re.match_at, size_pattern in H. cbn [Re.run] in H.
  apply run_success in H. destruct H as [p1 [s1 [c1 [H _]]]].
  apply star_success in H. destruct H as [p2 [s2 H]].
  apply run_success in H. destruct H as [p3 [s3 [c3 [H Hc3]]]].
  injection H as <-. unfold Re.group_of. cbn [Re.groups].
  destruct (Hc3 1 (captured_cons_same _ _ _)) as [n Hn].
  exists n. eexists. split; [|cbn; reflexivity].
  cbn [Re.group Nat.eqb]. exact Hn.
Qed.

(* ===================================================================== *)
(** ** [extract_size_volume] *)
(* ===================================================================== *)

Lemma first_hit_source (source : string) (patterns : list Re.regex)
      (rest : list (string * Re.regex)) :
  first_hit (List.map (fun pattern => (source, pattern)) patterns ++ rest)%list =
  match first_pattern_match patterns source with
  | Some m => Some m
  | None => first_hit rest
  end.
Proof.
  induction patterns as [|p ps IH]; [reflexivity|].
  cbn [List.map app first_hit first_pattern_match].
  destruct (Re.search true p source); [reflexivity|exact IH].
Qed.

Lemma no_size_in_empty_text : first_pattern_match size_patterns "" = None.
Proof. vm_compute. reflexivity. Qed.

Lemma first_hit_groups (pairs : list (string * Re.regex)) (m : Re.rmatch) :
  (forall source pattern, In (source, pattern) pairs -> In pattern size_patterns) ->
  first_hit pairs = Some m ->
  exists n u, Re.group_of m 1 = Some n /\ Re.group_of m 2 = Some u.
Proof.
  induction pairs as [|[source pattern] pairs IH]; intros Hin H; [discriminate|].
  cbn [first_hit] in H. destruct (Re.search true pattern source) eqn:Hs.
  - injection H as ->.
    assert (Hp : In pattern size_patterns) by (eapply Hin; now left).
    cbn in Hp.
    repeat (destruct Hp as [<- | Hp]; [eapply size_pattern_groups; exact Hs|]).
    destruct Hp.
  - apply IH; [|exact H]. intros s p Hsp. eapply Hin. right. exact Hsp.
Qed.

Lemma source_pattern_pairs_patterns (sources : list string) (source : string)
      (pattern : Re.regex) :
  In (source, pattern) (source_pattern_pairs sources) -> In pattern size_patterns.
Proof.
  unfold source_pattern_pairs. rewrite in_flat_map.
  intros [src [_ H]]. apply in_map_iff in H. destruct H as [p [Hp Hin]].
  now injection Hp as _ <-.
Qed.

Lemma search_fields_loop_first_hit (fields : list pyval) :
  forallb searchable fields = true ->
  search_fields_loop fields =
  Ok (match first_hit (source_pattern_pairs (List.map source_text fields)) with
      | Some m => format_group m 1 ++ format_group m 2
      | None => "N/A"
      end).
Proof.
  induction fields as [|v fields IH]; intro Hs; [reflexivity|].
  cbn [forallb] in Hs. apply andb_prop in Hs. destruct Hs as [Hv Hs].
  unfold source_pattern_pairs. cbn [List.map flat_map].
  rewrite first_hit_source. fold (source_pattern_pairs (List.map source_text fields)).
  cbn [search_fields_loop].
  destruct v as [| b | z | s | l | d]; cbn [searchable] in Hv;
    try (apply negb_true_iff in Hv; rewrite Hv; cbn [source_text];
         rewrite no_size_in_empty_text; now apply IH).
  cbn [source_text]. destruct s as [|c s].
  - cbn [Py.truthy Str.nonempty]. rewrite no_size_in_empty_text. now apply IH.
  - cbn [Py.truthy Str.nonempty search_text_for_patterns negb bind].
    destruct (first_pattern_match size_patterns (String c s)); [reflexivity|now apply IH].
Qed.

Lemma mapM_as_str (l : list pyval) (parts : list string) :
  mapM Py.as_str l = Ok parts -> l = List.map PStr parts.
Proof.
  revert parts. induction l as [|v l IH]; intros parts H; cbn [mapM bind] in H.
  - now injection H as <-.
  - destruct v; try discriminate. cbn [Py.as_str bind] in H.
    destruct (mapM Py.as_str l) as [ps|] eqn:Hl; [|discriminate].
    cbn [bind] in H. injection H as <-. cbn [List.map]. f_equal. now apply IH.
Qed.

Lemma mapM_contents (details : list pyval) :
  forall (values : list pyval) (contents : list string),
    mapM (fun d => Py.get d "content" (PStr "")) details = Ok values ->
    mapM Py.as_str values = Ok contents ->
    Forall2 content_is details contents.
Proof.
  induction details as [|detail details IH]; intros values contents Hvalues Hcontents;
    cbn [mapM bind] in Hvalues.
  - injection Hvalues as <-. cbn [mapM] in Hcontents. injection Hcontents as <-. constructor.
  - destruct detail as [| | | | |entries]; try discriminate Hvalues.
    cbn [Py.get bind] in Hvalues. fold (field_or entries "content" (PStr "")) in Hvalues.
    destruct (mapM (fun d => Py.get d "content" (PStr "")) details) as [vs|] eqn:Hvs;
      [|discriminate Hvalues].
    cbn [bind] in Hvalues. injection Hvalues as <-. cbn [mapM bind] in Hcontents.
    destruct (Py.as_str (field_or entries "content" (PStr ""))) as [c|] eqn:Hc;
      [|discriminate Hcontents].
    cbn [bind] in Hcontents.
    destruct (mapM Py.as_str vs) as [cs|] eqn:Hcs; [|discriminate Hcontents].
    cbn [bind] in Hcontents. injection Hcontents as <-.
    constructor; [|now apply (IH vs)].
    exists entries. split; [reflexivity|].
    destruct (field_or entries "content" (PStr "")); try discriminate Hc.
    cbn [Py.as_str] in Hc. now injection Hc as ->.
Qed.

(** C6. [extract_size_volume] searches four sources in this order: the
    name, the contents of the details joined with a space (for each detail
    of ["details"], in order, the string it holds under ["content"], the
    empty string when it has none), the description and [str] of the
    attributes.  When each source is a string or empty, the result is that
    of the first combination of a source and a pattern that matches, every
    pattern being tried on a source before the next source is looked at:
    group 1, the number, followed at once by group 2, the unit as it is
    written in the source; it is ["N/A"] when no combination matches.  On
    the product named ["Moisturizing Cream 50ml"] it is ["50ml"]. *)
Theorem extract_size_volume_first_match (d : list (string * pyval)) (fields : list pyval) :
  search_fields (PDict d) = Ok fields ->
  forallb searchable fields = true ->
  (exists details contents,
      Py.iter (field_or d "details" (PList [])) = Ok details
      /\ Forall2 content_is details contents
      /\ fields = [ field_or d "name" (PStr "");
                    PStr (Str.join " " contents);
                    field_or d "description" (PStr "");
                    PStr (Py.str (field_or d "attributes" (PDict []))) ])
  /\ extract_size_volume (PDict d) =
     Ok (match first_hit (source_pattern_pairs (List.map source_text fields)) with
         | Some m => format_group m 1 ++ format_group m 2
         | None => "N/A"
         end)
  /\ (forall m, first_hit (source_pattern_pairs (List.map source_text fields)) = Some m ->
        exists number unit,
          Re.group_of m 1 = Some number /\ Re.group_of m 2 = Some unit /\
          extract_size_volume (PDict d) = Ok (number ++ unit))
  /\ extract_size_volume cream_50ml = Ok "50ml".
Proof.
  intros Hfields Hsearchable.
  assert (Hresult : extract_size_volume (PDict d) =
     Ok (match first_hit (source_pattern_pairs (List.map source_text fields)) with
         | Some m => format_group m 1 ++ format_group m 2
         | None => "N/A"
         end)).
  { unfold extract_size_volume. destruct d as [|kv d].
    - injection Hfields as <-. vm_compute. reflexivity.
    - cbn [Py.truthy negb]. rewrite Hfields. cbn [bind].
      now apply search_fields_loop_first_hit. }
  split.
  { unfold search_fields in Hfields. cbn [Py.get bind] in Hfields.
    fold (field_or d "name" (PStr "")) in Hfields.
    fold (field_or d "details" (PList [])) in Hfields.
    fold (field_or d "description" (PStr "")) in Hfields.
    fold (field_or d "attributes" (PDict [])) in Hfields.
    destruct (Py.iter (field_or d "details" (PList []))) as [objs|]; [|discriminate].
    cbn [bind] in Hfields.
    destruct (mapM _ objs) as [contents|] eqn:Hcontents; [|discriminate].
    cbn [bind] in Hfields. unfold Py.join in Hfields.
    destruct (mapM Py.as_str contents) as [parts|] eqn:Hparts; [|discriminate].
    cbn [bind] in Hfields. injection Hfields as <-.
    exists objs, parts. split; [reflexivity|]. split; [|reflexivity].
    exact (mapM_contents objs contents parts Hcontents Hparts). }
  split; [exact Hresult|].
  split; [|reflexivity].
  intros m Hm.
  destruct (first_hit_groups _ m (source_pattern_pairs_patterns _) Hm) as [n [u [Hn Hu]]].
  exists n, u. split; [exact Hn|]. split; [exact Hu|].
  rewrite Hresult, Hm. unfold format_group. now rewrite Hn, Hu.
Qed.

Lemma extract_size_volume_first_match_witness :
  extract_size_volume
    (PDict [("name", PStr "Hand Wash");
            ("details", PList [PDict [("content", PStr "Pack of 2")];
                               PDict [("content", PStr "Net 1.5 L pump")]]);
            ("description", PStr "250ml travel size")])
  = Ok "1.5L".
Proof.
  pose proof (extract_size_volume_first_match
    [("name", PStr "Hand Wash");
     ("details", PList [PDict [("content", PStr "Pack of 2")];
                        PDict [("content", PStr "Net 1.5 L pump")]]);
     ("description", PStr "250ml travel size")]
    [PStr "Hand Wash"; PStr "Pack of 2 Net 1.5 L pump"; PStr "250ml travel size"; PStr "{}"]
    eq_refl eq_refl) as [_ [H _]].
  exact H.
Defined.

(* ===================================================================== *)
(** ** [extract_product_line_name] *)
(* ===================================================================== *)

Lemma split_aux_lstrip (s : string) :
  Str.split_aux (Str.lstrip s) None = Str.split_aux s None.
Proof.
  induction s as [|c s IH]; [reflexivity|].
  cbn [Str.lstrip Str.split_aux]. destruct (Char.isspace c) eqn:Hc.
  - exact IH.
  - cbn [Str.split_aux]. now rewrite Hc.
Qed.

Lemma split_aux_rstrip (s : string) :
  forall cur, Str.split_aux (Str.rstrip s) cur = Str.split_aux s cur.
Proof.
  unfold Str.rstrip.
  induction s as [|c s IH]; intro cur; [reflexivity|].
  cbn [Str.rstrip_set]. destruct (Str.rstrip_set Char.isspace s) as [|c' r] eqn:Hr.
  - destruct (Char.isspace c) eqn:Hc.
    + cbn [Str.split_aux]. rewrite Hc. rewrite <- (IH None).
      destruct cur; reflexivity.
    + cbn [Str.split_aux]. rewrite Hc. rewrite <- IH. reflexivity.
  - cbn [Str.split_aux]. destruct (Char.isspace c).
    + rewrite <- (IH None). destruct cur; reflexivity.
    + rewrite <- IH. reflexivity.
Qed.

Lemma split_strip (s : string) : Str.split (Str.strip s) = Str.split s.
Proof.
  unfold Str.split, Str.strip. rewrite split_aux_rstrip. apply split_aux_lstrip.
Qed.

(** What the loop over [name_parts[:3]] collects: a prefix of the words, of
    at most three, all qualifying, that stops only at the third word, at
    the end, or before a word that does not qualify. *)
Lemma collect_line_words_prefix (parts : list string) :
  exists rest,
    parts = (collect_line_words parts ++ rest)%list /\
    forallb qualifies (collect_line_words parts) = true /\
    match rest with
    | [] => True
    | next :: _ => qualifies next = false
    end.
Proof.
  induction parts as [|p parts [rest [Hparts [Hq Hnext]]]].
  - exists []. repeat split.
  - cbn [collect_line_words]. destruct (qualifies p) eqn:Hp.
    + exists rest. cbn [app forallb]. rewrite Hp, Hq. repeat split; [|exact Hnext].
      now rewrite <- Hparts.
    + exists (p :: parts). repeat split. exact Hp.
Qed.

Lemma line_from_remaining_spec (replaced : string) :
  line_from_remaining replaced =
  let parts := Str.split replaced in
  let words := collect_line_words (firstn 3 parts) in
  if Nat.leb 2 (List.length parts) then
    match words with
    | [] => "N/A"
    | _ :: _ => if is_generic (Str.join " " words) then "N/A" else Str.join " " words
    end
  else "N/A".
Proof.
  unfold line_from_remaining. rewrite split_strip. cbn zeta.
  change (Nat.ltb 1 (List.length (Str.split replaced)))
    with (Nat.leb 2 (List.length (Str.split replaced))).
  destruct (Nat.leb 2 (List.length (Str.split replaced))); [|reflexivity].
  destruct (collect_line_words (firstn 3 (Str.split replaced))); [reflexivity|].
  fold (is_generic (Str.join " " (s :: l))).
  destruct (is_generic (Str.join " " (s :: l))); reflexivity.
Qed.

(** C4, as amended.  When STRATEGY 1 returns nothing and the brand name is
    a non-empty substring of the product name, the brand is removed from
    the name and the rest is split on whitespace.  The words collected are
    a prefix of the first three words, each capitalised and longer than two
    characters, ending before the first word that is not.  When the rest
    has at least two words and at least one was collected, the result is
    the collected words joined with a space, unless that holds a generic
    term in any case, and then it is ["N/A"]; when the rest has fewer than
    two words the result is ["N/A"]. *)
Theorem extract_product_line_name_from_name (html_get_text : string -> string)
        (d b : list (string * pyval)) (objs : list pyval)
        (product_name brand_name : string) :
  Py.iter (field_or d "details" (PList [])) = Ok objs ->
  explicit_line html_get_text objs = Ok None ->
  Py.lookup d "name" = Some (PStr product_name) ->
  Py.lookup d "brand" = Some (PDict b) ->
  Py.lookup b "brand_name" = Some (PStr brand_name) ->
  brand_name <> "" ->
  Str.contains brand_name product_name = true ->
  let parts := remaining_parts product_name brand_name in
  let words := collect_line_words (firstn 3 parts) in
  (exists rest,
      firstn 3 parts = (words ++ rest)%list /\
      forallb qualifies words = true /\
      match rest with [] => True | next :: _ => qualifies next = false end)
  /\ (2 <= List.length parts -> words <> [] ->
      extract_product_line_name html_get_text (PDict d) =
      Ok (if is_generic (Str.join " " words) then "N/A" else Str.join " " words))
  /\ (List.length parts < 2 ->
      extract_product_line_name html_get_text (PDict d) = Ok "N/A").
Proof.
  intros Hiter Hexplicit Hname Hbrand Hbrand_name Hnonempty Hinside parts words.
  split; [apply collect_line_words_prefix|].
  assert (Hresult : extract_product_line_name html_get_text (PDict d) =
                    Ok (line_from_remaining (Str.replace brand_name "" product_name))).
  { unfold extract_product_line_name. cbn [Py.get bind].
    fold (field_or d "details" (PList [])). rewrite Hiter. cbn [bind].
    rewrite Hexplicit. cbn [bind].
    unfold inferred_line. cbn [Py.get bind]. rewrite Hname, Hbrand. cbn [Py.get bind].
    rewrite Hbrand_name.
    destruct brand_name as [|c brand_name]; [contradiction|].
    cbn [Py.truthy Str.nonempty Py.contains bind]. rewrite Hinside.
    reflexivity. }
  rewrite Hresult, line_from_remaining_spec. cbn zeta.
  fold (remaining_parts product_name brand_name). fold parts. fold words.
  split.
  - intros Hlen Hwords. apply Nat.leb_le in Hlen. rewrite Hlen.
    destruct words; [contradiction|reflexivity].
  - intro Hlen. apply Nat.leb_gt in Hlen. now rewrite Hlen.
Qed.

Lemma extract_product_line_name_from_name_witness :
  extract_product_line_name Str.strip (PDict nivea_sun_protect) = Ok "Sun Protect".
Proof.
  pose proof (extract_product_line_name_from_name Str.strip nivea_sun_protect
                [("brand_name", PStr "Nivea")]
                [PDict [("content_label", PStr "Ingredients"); ("content", PStr "Aqua")]]
                "Nivea Sun Protect and Moisture 200ml" "Nivea"
                eq_refl eq_refl eq_refl eq_refl eq_refl
                ltac:(discriminate) eq_refl) as [_ [H _]].
  apply H; [vm_compute; lia|discriminate].
Defined.

(** C4, as it is stated, fails on a name that is the brand and one word:
    the word is collected and makes the candidate, but [len(name_parts) >
    1] does not hold and the function returns ["N/A"]. *)
Lemma single_word_after_brand :
  Str.contains "Nivea" "Nivea Sun" = true /\
  claimed_line "Nivea Sun" "Nivea" = Some "Sun" /\
  (forall html_get_text, extract_product_line_name html_get_text nivea_sun = Ok "N/A").
Proof. split; [|split]; [vm_compute; reflexivity ..|intro; reflexivity]. Qed.

(* ===================================================================== *)
(** ** [str.split] and [str.join] *)
(* ===================================================================== *)

Lemma str_append_assoc (a b c : string) : (a ++ b) ++ c = a ++ (b ++ c).
Proof. induction a as [|x a IH]; [reflexivity|]. cbn. now rewrite IH. Qed.

Lemma str_append_empty_r (a : string) : a ++ "" = a.
Proof. induction a as [|x a IH]; [reflexivity|]. cbn. now rewrite IH. Qed.

Lemma all_chars_app (p : ascii -> bool) (a b : string) :
  all_chars p (a ++ b) = all_chars p a && all_chars p b.
Proof.
  induction a as [|x a IH]; [reflexivity|]. cbn. rewrite IH. now rewrite andb_assoc.
Qed.

(** Reading a run of non-whitespace characters extends the current word. *)
Lemma split_aux_word (u : string) :
  all_chars (fun c => negb (Char.isspace c)) u = true ->
  forall rest w,
    Str.split_aux (u ++ rest) (Some w) = Str.split_aux rest (Some (w ++ u)).
Proof.
  induction u as [|c u IH]; intros Hu rest w.
  - cbn. now rewrite str_append_empty_r.
  - cbn in Hu. apply andb_prop in Hu. destruct Hu as [Hc Hu].
    apply negb_true_iff in Hc. cbn [append Str.split_aux]. rewrite Hc.
    rewrite IH by exact Hu. now rewrite str_append_assoc.
Qed.

Lemma split_aux_token (u : string) :
  is_token u = true ->
  forall rest, Str.split_aux (u ++ rest) None = Str.split_aux rest (Some u).
Proof.
  unfold is_token. destruct u as [|c u]; [discriminate|].
  cbn [Str.nonempty andb all_chars]. intros Hu rest.
  apply andb_prop in Hu. destruct Hu as [Hc Hu]. apply negb_true_iff in Hc.
  cbn [append Str.split_aux]. rewrite Hc.
  now rewrite split_aux_word by exact Hu.
Qed.

(** Splitting what was joined with one space gives the words back. *)
Lemma split_join (ws : list string) :
  forallb is_token ws = true -> Str.split (Str.join " " ws) = ws.
Proof.
  unfold Str.split. induction ws as [|w ws IH]; intro H; [reflexivity|].
  cbn [forallb] in H. apply andb_prop in H. destruct H as [Hw Hws].
  destruct ws as [|w' ws].
  - cbn [Str.join]. rewrite <- (str_append_empty_r w) at 1.
    now rewrite split_aux_token by exact Hw.
  - change (Str.join " " (w :: w' :: ws))
      with (w ++ String " "%char (Str.join " " (w' :: ws))).
    rewrite split_aux_token by exact Hw.
    cbn [Str.split_aux]. change (Char.isspace " "%char) with true. cbn iota.
    f_equal. now apply IH.
Qed.

(** [str.split] returns tokens. *)
Lemma split_aux_tokens (s : string) :
  forall cur,
    match cur with Some w => is_token w = true | None => True end ->
    forallb is_token (Str.split_aux s cur) = true.
Proof.
  induction s as [|c s IH]; intros cur Hcur.
  - destruct cur; cbn; [now rewrite Hcur|reflexivity].
  - cbn [Str.split_aux]. destruct (Char.isspace c) eqn:Hc.
    + destruct cur as [w|]; cbn [forallb]; [rewrite Hcur|]; now apply IH.
    + apply IH. unfold is_token in *. destruct cur as [w|].
      * apply andb_prop in Hcur. destruct Hcur as [Hn Ha].
        rewrite all_chars_app, Ha. cbn. rewrite Hc. cbn.
        destruct w; [discriminate|reflexivity].
      * cbn. now rewrite Hc.
Qed.

Lemma split_tokens (s : string) : forallb is_token (Str.split s) = true.
Proof. apply split_aux_tokens. exact I. Qed.

Lemma last_char_app (a b : string) :
  last_char (a ++ b) = match b with EmptyString => last_char a | _ => last_char b end.
Proof.
  induction a as [|x a IH].
  - cbn. destruct b; reflexivity.
  - cbn [append]. destruct a as [|y a].
    + cbn. destruct b; reflexivity.
    + change (last_char (String x (String y a ++ b))) with (last_char (String y a ++ b)).
      rewrite IH. destruct b; reflexivity.
Qed.

Lemma all_chars_last (p : ascii -> bool) (s : string) (c : ascii) :
  all_chars p s = true -> last_char s = Some c -> p c = true.
Proof.
  induction s as [|x s IH]; [discriminate|].
  cbn [all_chars]. intros H Hl. apply andb_prop in H. destruct H as [Hx Hs].
  destruct s as [|y s].
  - cbn in Hl. now injection Hl as <-.
  - apply IH; assumption.
Qed.

Lemma all_chars_weaken (p q : ascii -> bool) (s : string) :
  (forall c, p c = true -> q c = true) -> all_chars p s = true -> all_chars q s = true.
Proof.
  intro Hpq. induction s as [|x s IH]; [reflexivity|].
  cbn. intro H. apply andb_prop in H. destruct H as [Hx Hs].
  now rewrite (Hpq x Hx), IH.
Qed.

(** [rstrip] leaves a string that does not end in a character of the set
    as it is, and what it returns never ends in one. *)
Lemma rstrip_set_fixed (p : ascii -> bool) (s : string) :
  match last_char s with Some c => p c = false | None => True end ->
  Str.rstrip_set p s = s.
Proof.
  induction s as [|x s IH]; [reflexivity|].
  cbn [Str.rstrip_set]. destruct s as [|y s].
  - cbn. now intros ->.
  - intro H. rewrite IH by exact H. reflexivity.
Qed.

Lemma rstrip_set_last (p : ascii -> bool) (s : string) (c : ascii) :
  last_char (Str.rstrip_set p s) = Some c -> p c = false.
Proof.
  induction s as [|x s IH]; [discriminate|].
  cbn [Str.rstrip_set]. destruct (Str.rstrip_set p s) as [|y r] eqn:Hr.
  - destruct (p x) eqn:Hx; [discriminate|]. cbn. now intros [= <-].
  - exact IH.
Qed.

(** The words of a text joined with one space: the normal form of
    [clean_text]. *)
Lemma join_tokens_shape (ws : list string) :
  forallb is_token ws = true ->
  Str.strip (Str.join " " ws) = Str.join " " ws /\
  all_chars (fun c => negb (Char.isspace c) || Ascii.eqb c " "%char) (Str.join " " ws) = true.
Proof.
  intro H.
  assert (Hlast : forall c, last_char (Str.join " " ws) = Some c -> Char.isspace c = false).
  { induction ws as [|w ws IH]; [discriminate|].
    cbn [forallb] in H. apply andb_prop in H. destruct H as [Hw Hws].
    destruct ws as [|w' ws].
    - cbn [Str.join]. intros c Hc. unfold is_token in Hw.
      apply andb_prop in Hw. destruct Hw as [_ Hw].
      apply negb_true_iff. exact (all_chars_last _ _ _ Hw Hc).
    - change (Str.join " " (w :: w' :: ws))
        with (w ++ String " "%char (Str.join " " (w' :: ws))).
      intros c. rewrite last_char_app.
      destruct (Str.join " " (w' :: ws)) as [|j js] eqn:Hj.
      + exfalso. unfold is_token in Hws. cbn [forallb] in Hws.
        destruct w'; [discriminate|]. destruct ws; discriminate.
      + change (last_char (String " "%char (String j js))) with (last_char (String j js)).
        now apply IH. }
  split.
  - unfold Str.strip, Str.rstrip.
    assert (Hl : Str.lstrip (Str.join " " ws) = Str.join " " ws).
    { destruct ws as [|w ws]; [reflexivity|].
      cbn [forallb] in H. apply andb_prop in H. destruct H as [Hw _].
      unfold is_token in Hw. destruct w as [|c w]; [discriminate|].
      cbn in Hw. apply andb_prop in Hw. destruct Hw as [Hc _].
      apply negb_true_iff in Hc.
      destruct ws; cbn [Str.join append Str.lstrip]; now rewrite Hc. }
    rewrite Hl. apply rstrip_set_fixed.
    destruct (last_char (Str.join " " ws)) eqn:E; [now apply Hlast|exact I].
  - clear Hlast. induction ws as [|w ws IH]; [reflexivity|].
    cbn [forallb] in H. apply andb_prop in H. destruct H as [Hw Hws].
    assert (Hw' : all_chars (fun c => negb (Char.isspace c) || Ascii.eqb c " "%char) w = true).
    { unfold is_token in Hw. apply andb_prop in Hw. destruct Hw as [_ Hw].
      eapply all_chars_weaken; [|exact Hw]. intros c ->. reflexivity. }
    destruct ws as [|w' ws]; [exact Hw'|].
    change (Str.join " " (w :: w' :: ws))
      with (w ++ String " "%char (Str.join " " (w' :: ws))).
    rewrite all_chars_app, Hw'. cbn [all_chars andb]. now apply IH.
Qed.

(** What [clean_text] returns is a list of words joined with one space. *)
Lemma clean_text_words (html_get_text : string -> string)
      (html_str : pyval) (text : string) :
  clean_text html_get_text html_str = Ok text ->
  exists ws, forallb is_token ws = true /\ text = Str.join " " ws.
Proof.
  intro H. unfold clean_text in H. destruct (Py.truthy html_str).
  - destruct html_str; try discriminate H. cbn [negb] in H. injection H as <-.
    exists (Str.split (html_get_text s)). split; [apply split_tokens|reflexivity].
  - injection H as <-. exists []. split; reflexivity.
Qed.

(** X1. Whatever the parser and the markup, the text [clean_text] returns
    is in normal form: splitting it on whitespace and joining the words
    with one space gives it back, it has no whitespace at either end, its
    only whitespace character is the space; and when it holds no markup
    and the parser keeps such text, cleaning it again changes nothing. *)
Theorem clean_text_normal_form (html_get_text : string -> string)
        (html_str : pyval) (text : string) :
  clean_text html_get_text html_str = Ok text ->
  Str.join " " (Str.split text) = text /\
  Str.strip text = text /\
  all_chars (fun c => negb (Char.isspace c) || Ascii.eqb c " "%char) text = true /\
  (keeps_plain_text html_get_text -> markup_free text = true ->
   clean_text html_get_text (PStr text) = Ok text).
Proof.
  intro H. destruct (clean_text_words _ _ _ H) as [ws [Hws ->]].
  assert (Hnorm : Str.join " " (Str.split (Str.join " " ws)) = Str.join " " ws)
    by now rewrite split_join.
  destruct (join_tokens_shape ws Hws) as [Hstrip Hchars].
  repeat split; try assumption.
  intros Hparser Hfree. unfold clean_text.
  destruct (Str.join " " ws) as [|c t] eqn:Hj; [reflexivity|].
  cbn [Py.truthy Str.nonempty negb]. unfold clean_markup.
  rewrite (Hparser _ Hfree), split_strip. now rewrite Hnorm.
Qed.

Lemma clean_text_normal_form_witness :
  Str.join " " (Str.split "Aqua, Glycerin") = "Aqua, Glycerin" /\
  Str.strip "Aqua, Glycerin" = "Aqua, Glycerin" /\
  all_chars (fun c => negb (Char.isspace c) || Ascii.eqb c " "%char) "Aqua, Glycerin" = true /\
  clean_text Str.strip (PStr "Aqua, Glycerin") = Ok "Aqua, Glycerin".
Proof.
  destruct (clean_text_normal_form Str.strip
              (PStr (String "009"%char "  Aqua,   Glycerin ")) "Aqua, Glycerin" eq_refl)
    as [H1 [H2 [H3 H4]]].
  split; [exact H1|]. split; [exact H2|]. split; [exact H3|].
  apply H4; [exact strip_keeps_plain_text|reflexivity].
Defined.

(** X2. The text [clean_ingredients] returns never ends in a comma or in a
    space, whatever the parser and the input. *)
Theorem clean_ingredients_no_trailing_comma (html_get_text : string -> string)
        (x : string) (c : ascii) :
  last_char (clean_ingredients html_get_text x) = Some c ->
  comma_or_space c = false.
Proof.
  unfold clean_ingredients.
  destruct x as [|x0 x]; [discriminate|]. cbn [Str.nonempty negb orb].
  destruct (String.eqb (String x0 x) "N/A") eqn:Hna.
  - apply String.eqb_eq in Hna. rewrite Hna. cbn. now intros [= <-].
  - destruct (negb (Str.nonempty (clean_markup html_get_text (String x0 x)))
              || String.eqb (Str.strip (clean_markup html_get_text (String x0 x))) "").
    + cbn. now intros [= <-].
    + unfold tidy_punctuation. apply rstrip_set_last.
Qed.

(* ===================================================================== *)
(** ** What a match leaves of the text and of the groups *)
(* ===================================================================== *)

Lemma star_shrinks {A : Type} (ic : bool) (a : Re.atom) (s : string) :
  forall (prev : option ascii) (k : option ascii -> string -> option A) (x : A),
    Re.star ic a prev s k = Some x ->
    exists prev' s', k prev' s' = Some x /\ String.length s' <= String.length s.
Proof.
  induction s as [|c s IH]; intros prev k x H; cbn [Re.star] in H.
  - eauto.
  - destruct (Re.atom_matches ic a c); [|eauto].
    destruct (Re.star ic a (Some c) s k) eqn:Hstar.
    + injection H as <-. apply IH in Hstar. destruct Hstar as [p [s' [Hk Hlen]]].
      exists p, s'. split; [exact Hk|]. cbn [String.length]. lia.
    + eauto.
Qed.

(** A successful match goes on at a position further in the text, with the
    groups the pattern does not hold unchanged. *)
Lemma run_shrinks (ic : bool) (r : Re.regex) :
  forall (A : Type) (prev : option ascii) (s : string) (caps : Re.captures)
         (k : option ascii -> string -> Re.captures -> option A) (x : A),
    Re.run ic A r prev s caps k = Some x ->
    exists prev' s' caps',
      k prev' s' caps' = Some x /\
      String.length s' <= String.length s /\
      (forall n, binds r n = false -> Re.group caps' n = Re.group caps n).
Proof.
  induction r as [|a|r1 IH1 r2 IH2|r1 IH1 r2 IH2|r1 IH1|a|a|n r1 IH1|r1 IH1|];
    intros A prev s caps k x H; cbn [Re.run] in H.
  - eauto 7.
  - destruct s as [|c s]; [discriminate|].
    destruct (Re.atom_matches ic a c); [|discriminate].
    exists (Some c), s, caps. cbn [String.length]. auto.
  - apply IH1 in H. destruct H as [p1 [s1 [c1 [H [Hl1 Hc1]]]]].
    apply IH2 in H. destruct H as [p2 [s2 [c2 [H [Hl2 Hc2]]]]].
    exists p2, s2, c2. split; [exact H|]. split; [lia|].
    intros n Hn. cbn [binds] in Hn. apply orb_false_elim in Hn. destruct Hn.
    rewrite Hc2, Hc1; auto.
  - destruct (Re.run ic A r1 prev s caps k) eqn:H1.
    + injection H as <-. apply IH1 in H1. destruct H1 as [p1 [s1 [c1 [H [Hl1 Hc1]]]]].
      exists p1, s1, c1. split; [exact H|]. split; [exact Hl1|].
      intros n Hn. cbn [binds] in Hn. apply orb_false_elim in Hn. destruct Hn. auto.
    + apply IH2 in H. destruct H as [p2 [s2 [c2 [H [Hl2 Hc2]]]]].
      exists p2, s2, c2. split; [exact H|]. split; [exact Hl2|].
      intros n Hn. cbn [binds] in Hn. apply orb_false_elim in Hn. destruct Hn. auto.
  - destruct (Re.run ic A r1 prev s caps k) eqn:H1.
    + injection H as <-. apply IH1 in H1. exact H1.
    + eauto 7.
  - apply star_shrinks in H. destruct H as [p [s' [H Hl]]]. eauto 7.
  - destruct s as [|c s]; [discriminate|].
    destruct (Re.atom_matches ic a c); [|discriminate].
    apply star_shrinks in H. destruct H as [p [s' [H Hl]]].
    exists p, s', caps. cbn [String.length]. auto.
  - apply IH1 in H. destruct H as [p1 [s1 [c1 [H [Hl1 Hc1]]]]].
    eexists _, _, _. split; [exact H|]. split; [exact Hl1|].
    intros m Hm. cbn [binds] in Hm. apply orb_false_elim in Hm. destruct Hm as [Hnm Hm].
    cbn [Re.group]. rewrite Hnm. auto.
  - destruct (Re.run ic unit r1 prev s caps (fun _ _ _ => Some tt)); [discriminate|].
    eauto 7.
  - destruct (Re.at_word_boundary prev s); [eauto 7|discriminate].
Qed.

(** A match of [\d+] starts on a digit. *)
Lemma plus_digit_head {A : Type} (ic : bool) (prev : option ascii) (s : string)
      (caps : Re.captures) (k : option ascii -> string -> Re.captures -> option A) (x : A) :
  Re.run ic A (Re.Plus Re.Digit) prev s caps k = Some x ->
  exists c s0 prev' s',
    s = String c s0 /\ Char.isdigit c = true /\
    k prev' s' caps = Some x /\ String.length s' <= String.length s0.
Proof.
  cbn [Re.run]. destruct s as [|c s0]; [discriminate|].
  cbn [Re.atom_matches]. destruct (Char.isdigit c) eqn:Hc; [|discriminate].
  intro H. apply star_shrinks in H. destruct H as [p [s' [H Hl]]].
  exists c, s0, p, s'. auto.
Qed.

Lemma seq_plus_digit_head {A : Type} (ic : bool) (tail : Re.regex)
      (prev : option ascii) (s : string)
      (caps : Re.captures) (k : option ascii -> string -> Re.captures -> option A) (x : A) :
  Re.run ic A (Re.Seq (Re.Plus Re.Digit) tail) prev s caps k = Some x ->
  exists c s0 prev' s' caps',
    s = String c s0 /\ Char.isdigit c = true /\
    k prev' s' caps' = Some x /\ String.length s' <= String.length s0.
Proof.
  intro H. change (Re.run ic A (Re.Plus Re.Digit) prev s caps
                     (fun prev' s' caps' => Re.run ic A tail prev' s' caps' k) = Some x) in H.
  apply plus_digit_head in H. destruct H as [c [s0 [p1 [s1 [-> [Hc [H Hl]]]]]]].
  apply run_shrinks in H. destruct H as [p2 [s2 [c2 [H [Hl2 _]]]]].
  exists c, s0, p2, s2, c2. repeat split; try assumption. lia.
Qed.

Lemma take_head (c : ascii) (s0 s' : string) :
  String.length s' <= String.length s0 ->
  exists rest,
    Str.take (String.length (String c s0) - String.length s') (String c s0) = String c rest.
Proof.
  intro Hl. cbn [String.length]. rewrite Nat.sub_succ_l by exact Hl.
  cbn [Str.take]. eauto.
Qed.

(** The number of a size starts on a digit. *)
Lemma size_pattern_number (body unit : Re.regex) (units : list Re.regex)
      (prev : option ascii) (s : string) (m : Re.rmatch) :
  body = Re.Plus Re.Digit \/ (exists tail, body = Re.Seq (Re.Plus Re.Digit) tail) ->
  binds (Re.alts unit units) 1 = false ->
  Re.match_at true (size_pattern (Re.Group 1 body) unit units) prev s = Some m ->
  exists c rest, Re.group_of m 1 = Some (String c rest) /\ Char.isdigit c = true.
Proof.
  intros Hbody Hunits H.
  unfold Re.match_at, size_pattern in H. cbn [Re.run] in H.
  assert (Hnumber : exists c rest p1 s1 c1,
             Char.isdigit c = true /\
             Re.star true Re.Space p1 s1
               (fun prev' s' =>
                  Re.run true Re.rmatch (Re.alts unit units) prev' s' ((1, String c rest) :: c1)
                    (fun prev'' s'' caps' =>
                       Some {| Re.span := String.length s - String.length s'';
                               Re.groups :=
                                 (2, Str.take (String.length s' - String.length s'') s')
                                   :: caps' |})) = Some m).
  { destruct Hbody as [-> | [tail ->]].
    - apply plus_digit_head in H. destruct H as [c [s0 [p1 [s1 [-> [Hc [H Hl]]]]]]].
      destruct (take_head c s0 s1 Hl) as [rest Hrest]. rewrite Hrest in H.
      exists c, rest, p1, s1, []. auto.
    - apply seq_plus_digit_head in H.
      destruct H as [c [s0 [p2 [s2 [c2 [-> [Hc [H Hl]]]]]]]].
      destruct (take_head c s0 s2 Hl) as [rest Hrest]. rewrite Hrest in H.
      exists c, rest, p2, s2, c2. auto. }
  destruct Hnumber as [c [rest [p1 [s1 [c1 [Hc Hstar]]]]]].
  apply star_shrinks in Hstar. destruct Hstar as [p2 [s2 [Hrun _]]].
  apply run_shrinks in Hrun. destruct Hrun as [p3 [s3 [c3 [Hm [_ Hkeep]]]]].
  injection Hm as <-. exists c, rest. split; [|exact Hc].
  unfold Re.group_of. cbn [Re.groups Re.group Nat.eqb].
  rewrite (Hkeep 1 Hunits). cbn. reflexivity.
Qed.

Lemma first_pattern_match_in (patterns : list Re.regex) (text : string) (m : Re.rmatch) :
  first_pattern_match patterns text = Some m ->
  exists pattern, In pattern patterns /\ Re.search true pattern text = Some m.
Proof.
  induction patterns as [|p ps IH]; [discriminate|].
  cbn [first_pattern_match]. destruct (Re.search true p text) eqn:Hp.
  - intros [= <-]. exists p. split; [now left|exact Hp].
  - intro H. destruct (IH H) as [q [Hq Hs]]. exists q. split; [now right|exact Hs].
Qed.

Lemma size_match_number (text : string) (m : Re.rmatch) :
  first_pattern_match size_patterns text = Some m ->
  exists c rest, Re.group_of m 1 = Some (String c rest) /\ Char.isdigit c = true.
Proof.
  intro H. apply first_pattern_match_in in H. destruct H as [p [Hp Hs]].
  apply search_from_match_at in Hs. destruct Hs as [prev [s Hs]].
  cbn in Hp.
  repeat (destruct Hp as [<- | Hp];
          [ eapply size_pattern_number; [| |exact Hs];
            [first [now left | right; eexists; reflexivity] | reflexivity] |]).
  destruct Hp.
Qed.

Lemma search_fields_loop_shape (fields : list pyval) (size : string) :
  search_fields_loop fields = Ok size ->
  size = "N/A" \/ exists c rest, size = String c rest /\ Char.isdigit c = true.
Proof.
  induction fields as [|v fields IH]; cbn [search_fields_loop].
  - intros [= <-]. now left.
  - destruct (Py.truthy v) eqn:Hv; [|exact IH].
    unfold search_text_for_patterns. rewrite Hv. cbn [negb].
    destruct v; try discriminate. cbn [bind].
    destruct (first_pattern_match size_patterns s) as [m|] eqn:Hm; [|exact IH].
    intros [= <-]. right.
    destruct (size_match_number _ _ Hm) as [c [rest [Hg Hc]]].
    exists c. unfold format_group. rewrite Hg. cbn [append]. eauto.
Qed.

Lemma extract_size_volume_shape_lemma (product_data : pyval) (size : string) :
  extract_size_volume product_data = Ok size ->
  size = "N/A" \/ exists c rest, size = String c rest /\ Char.isdigit c = true.
Proof.
  unfold extract_size_volume. destruct (Py.truthy product_data).
  - cbn [negb]. destruct (search_fields product_data) as [fields|]; [|discriminate].
    cbn [bind]. apply search_fields_loop_shape.
  - intros [= <-]. now left.
Qed.

(** X3. Whenever [extract_size_volume] returns, the size is ["N/A"] or
    starts with a digit: it is never empty and never a unit alone. *)
Theorem extract_size_volume_shape (product_data : pyval) (size : string) :
  extract_size_volume product_data = Ok size ->
  size = "N/A" \/ exists c rest, size = String c rest /\ Char.isdigit c = true.
Proof. apply extract_size_volume_shape_lemma. Qed.

Lemma clean_ingredients_no_trailing_comma_witness :
  comma_or_space "n"%char = false.
Proof.
  apply (clean_ingredients_no_trailing_comma Str.strip "aqua. glycerin, ." "n"%char).
  vm_compute. reflexivity.
Defined.

Lemma extract_size_volume_shape_witness :
  "1.5L" = "N/A" \/ exists c rest, "1.5L" = String c rest /\ Char.isdigit c = true.
Proof.
  apply (extract_size_volume_shape
           (PDict [("name", PStr "Hand Wash"); ("description", PStr "Net 1.5 L pump")])).
  vm_compute. reflexivity.
Defined.

(* ===================================================================== *)
(** ** The shape of a product line *)
(* ===================================================================== *)

Lemma join_tokens_normal (ws : list string) :
  forallb is_token ws = true ->
  Str.join " " (Str.split (Str.join " " ws)) = Str.join " " ws.
Proof. intro H. now rewrite split_join. Qed.

Lemma explicit_line_some (html_get_text : string -> string) (details : list pyval)
      (line : string) :
  explicit_line html_get_text details = Ok (Some line) ->
  exists content,
    clean_text html_get_text content = Ok line /\
    Str.nonempty line = true /\ String.length line < 100.
Proof.
  induction details as [|detail rest IH]; [discriminate|].
  cbn [explicit_line]. intro H.
  destruct (Py.get detail "content_label" (PStr "")) as [raw|]; [|discriminate H].
  cbn [bind] in H. destruct (Py.lower raw) as [label|]; [|discriminate H].
  cbn [bind] in H.
  destruct (existsb (fun keyword => Str.contains keyword label) line_keywords);
    [|exact (IH H)].
  destruct (Py.get detail "content" (PStr "")) as [content|]; [|discriminate H].
  cbn [bind] in H.
  destruct (clean_text html_get_text content) as [l|] eqn:Hclean; [|discriminate H].
  cbn [bind] in H.
  destruct (Str.nonempty l && Nat.ltb (String.length l) 100) eqn:Hok; [|exact (IH H)].
  injection H as <-. apply andb_prop in Hok. destruct Hok as [Hn Hl].
  apply Nat.ltb_lt in Hl. eauto.
Qed.

Lemma forallb_firstn {A : Type} (p : A -> bool) (n : nat) (l : list A) :
  forallb p l = true -> forallb p (firstn n l) = true.
Proof.
  revert l. induction n as [|n IH]; intros [|x l] H; try reflexivity.
  cbn in *. apply andb_prop in H. destruct H as [-> H]. now apply IH.
Qed.

Lemma forallb_collect_line_words (p : string -> bool) (l : list string) :
  forallb p l = true -> forallb p (collect_line_words l) = true.
Proof.
  induction l as [|x l IH]; [reflexivity|].
  cbn [forallb collect_line_words]. intro H. apply andb_prop in H. destruct H as [Hx H].
  destruct (qualifies x); [|reflexivity]. cbn [forallb]. now rewrite Hx, IH.
Qed.

Lemma line_from_remaining_shape (replaced : string) :
  line_from_remaining replaced = "N/A" \/
  exists w ws,
    forallb is_token (w :: ws) = true /\
    line_from_remaining replaced = Str.join " " (w :: ws).
Proof.
  unfold line_from_remaining.
  destruct (Nat.ltb 1 (List.length (Str.split (Str.strip replaced)))); [|now left].
  destruct (collect_line_words (firstn 3 (Str.split (Str.strip replaced))))
    as [|w ws] eqn:Hwords; [now left|].
  destruct (negb (existsb _ generic_terms)); [|now left].
  right. exists w, ws. split; [|reflexivity].
  rewrite <- Hwords. apply forallb_collect_line_words, forallb_firstn, split_tokens.
Qed.

Lemma join_tokens_nonempty (w : string) (ws : list string) :
  is_token w = true -> Str.join " " (w :: ws) <> "".
Proof.
  unfold is_token. destruct w as [|c w]; [discriminate|]. intros _.
  destruct ws; cbn; discriminate.
Qed.

Lemma inferred_line_shape (product_data : pyval) (line : string) :
  inferred_line product_data = Ok line ->
  line <> "" /\ Str.join " " (Str.split line) = line.
Proof.
  assert (Hna : "N/A" <> "" /\ Str.join " " (Str.split "N/A") = "N/A")
    by (split; [discriminate|reflexivity]).
  unfold inferred_line. intro H.
  destruct (Py.get product_data "name" (PStr "")) as [name|]; [|discriminate H].
  cbn [bind] in H.
  destruct (Py.get product_data "brand" (PDict [])) as [brand|]; [|discriminate H].
  cbn [bind] in H.
  destruct (Py.get brand "brand_name" (PStr "")) as [brand_name|]; [|discriminate H].
  cbn [bind] in H.
  destruct (Py.truthy brand_name); [|now injection H as <-].
  destruct (Py.contains brand_name name) as [inside|]; [|discriminate H].
  cbn [bind] in H. destruct inside; [|now injection H as <-].
  destruct (replace_brand name brand_name) as [replaced|]; [|discriminate H].
  cbn [bind] in H. injection H as <-.
  destruct (line_from_remaining_shape replaced) as [-> | [w [ws [Htok ->]]]];
    [exact Hna|].
  split; [|now apply join_tokens_normal].
  apply join_tokens_nonempty. cbn [forallb] in Htok.
  now apply andb_prop in Htok.
Qed.

Lemma extract_product_line_name_shape_lemma (html_get_text : string -> string)
        (product_data : pyval) (line : string) :
  extract_product_line_name html_get_text product_data = Ok line ->
  line <> "" /\ Str.join " " (Str.split line) = line.
Proof.
  unfold extract_product_line_name. intro H.
  destruct (Py.get product_data "details" (PList [])) as [details|]; [|discriminate H].
  cbn [bind] in H. destruct (Py.iter details) as [objs|]; [|discriminate H].
  cbn [bind] in H.
  destruct (explicit_line html_get_text objs) as [[l|]|] eqn:Hexplicit;
    [| |discriminate H]; cbn [bind] in H.
  - injection H as <-.
    destruct (explicit_line_some _ _ _ Hexplicit) as [content [Hclean [Hn _]]].
    split; [intros ->; discriminate Hn|].
    destruct (clean_text_words _ _ _ Hclean) as [ws [Hws ->]].
    now apply join_tokens_normal.
  - exact (inferred_line_shape _ _ H).
Qed.

(** X4. Whenever [extract_product_line_name] returns, the line is not the
    empty string and is in the normal form of [clean_text]: words joined
    with one space, nothing at either end. *)
Theorem extract_product_line_name_shape (html_get_text : string -> string)
        (product_data : pyval) (line : string) :
  extract_product_line_name html_get_text product_data = Ok line ->
  line <> "" /\ Str.join " " (Str.split line) = line.
Proof. apply extract_product_line_name_shape_lemma. Qed.

Lemma extract_product_line_name_shape_witness :
  "Sun Protect" <> "" /\ Str.join " " (Str.split "Sun Protect") = "Sun Protect".
Proof.
  apply (extract_product_line_name_shape Str.strip (PDict nivea_sun_protect)).
  vm_compute. reflexivity.
Defined.

(* ===================================================================== *)
(** ** A match stays a match in a longer text *)
(* ===================================================================== *)

Lemma star_fallback {A : Type} (ic : bool) (a : Re.atom) (prev : option ascii)
      (s : string) (k : option ascii -> string -> option A) :
  k prev s <> None -> Re.star ic a prev s k <> None.
Proof.
  intro Hk. destruct s as [|c s]; cbn [Re.star]; [exact Hk|].
  destruct (Re.atom_matches ic a c); [|exact Hk].
  destruct (Re.star ic a (Some c) s k); [discriminate|exact Hk].
Qed.

Lemma star_extend {A B : Type} (ic : bool) (a : Re.atom) (post : string) (s : string) :
  forall (prev prev2 : option ascii)
         (k : option ascii -> string -> option A)
         (k2 : option ascii -> string -> option B) (x : A),
    Re.star ic a prev s k = Some x ->
    (forall p s' y, k p s' = Some y -> forall p2, k2 p2 (s' ++ post) <> None) ->
    Re.star ic a prev2 (s ++ post) k2 <> None.
Proof.
  induction s as [|c s IH]; intros prev prev2 k k2 x H Hk; cbn [Re.star] in H.
  - apply star_fallback. exact (Hk _ _ _ H prev2).
  - cbn [append Re.star]. destruct (Re.atom_matches ic a c).
    + destruct (Re.star ic a (Some c) s k) as [y|] eqn:Hinner.
      * pose proof (IH _ (Some c) _ k2 _ Hinner Hk) as Hext.
        destruct (Re.star ic a (Some c) (s ++ post) k2); [discriminate|contradiction].
      * destruct (Re.star ic a (Some c) (s ++ post) k2); [discriminate|].
        exact (Hk _ _ _ H prev2).
    + exact (Hk _ _ _ H prev2).
Qed.

Lemma run_extend (ic : bool) (post : string) (r : Re.regex) :
  context_free r = true ->
  forall (A B : Type) (prev prev2 : option ascii) (s : string)
         (caps caps2 : Re.captures)
         (k : option ascii -> string -> Re.captures -> option A)
         (k2 : option ascii -> string -> Re.captures -> option B) (x : A),
    Re.run ic A r prev s caps k = Some x ->
    (forall p s' c y, k p s' c = Some y -> forall p2 c2, k2 p2 (s' ++ post) c2 <> None) ->
    Re.run ic B r prev2 (s ++ post) caps2 k2 <> None.
Proof.
  induction r as [|a|r1 IH1 r2 IH2|r1 IH1 r2 IH2|r1 IH1|a|a|n r1 IH1|r1 IH1|];
    intros Hcf A B prev prev2 s caps caps2 k k2 x H Hk;
    cbn [context_free] in Hcf; try discriminate Hcf; cbn [Re.run] in H |- *.
  - exact (Hk _ _ _ _ H prev2 caps2).
  - destruct s as [|c s]; [discriminate|]. cbn [append].
    destruct (Re.atom_matches ic a c); [|discriminate].
    exact (Hk _ _ _ _ H (Some c) caps2).
  - apply andb_prop in Hcf. destruct Hcf as [H1 H2].
    eapply (IH1 H1); [exact H|].
    intros p s' c y Hy p2 c2. eapply (IH2 H2); [exact Hy|exact Hk].
  - apply andb_prop in Hcf. destruct Hcf as [H1 H2].
    destruct (Re.run ic A r1 prev s caps k) as [y|] eqn:Hr1.
    + pose proof (IH1 H1 _ B _ prev2 _ _ caps2 _ k2 _ Hr1 Hk) as Hext.
      destruct (Re.run ic B r1 prev2 (s ++ post) caps2 k2); [discriminate|contradiction].
    + destruct (Re.run ic B r1 prev2 (s ++ post) caps2 k2); [discriminate|].
      eapply (IH2 H2); [exact H|exact Hk].
  - destruct (Re.run ic A r1 prev s caps k) as [y|] eqn:Hr1.
    + pose proof (IH1 Hcf _ B _ prev2 _ _ caps2 _ k2 _ Hr1 Hk) as Hext.
      destruct (Re.run ic B r1 prev2 (s ++ post) caps2 k2); [discriminate|contradiction].
    + destruct (Re.run ic B r1 prev2 (s ++ post) caps2 k2); [discriminate|].
      exact (Hk _ _ _ _ H prev2 caps2).
  - eapply star_extend; [exact H|]. intros p s' y Hy p2. exact (Hk _ _ _ _ Hy p2 caps2).
  - destruct s as [|c s]; [discriminate|]. cbn [append].
    destruct (Re.atom_matches ic a c); [|discriminate].
    eapply star_extend; [exact H|]. intros p s' y Hy p2. exact (Hk _ _ _ _ Hy p2 caps2).
  - eapply (IH1 Hcf); [exact H|].
    intros p s' c y Hy p2 c2. exact (Hk _ _ _ _ Hy p2 _).
Qed.

Lemma match_at_extend (ic : bool) (r : Re.regex) (prev prev2 : option ascii)
      (s post : string) (m : Re.rmatch) :
  context_free r = true ->
  Re.match_at ic r prev s = Some m ->
  Re.match_at ic r prev2 (s ++ post) <> None.
Proof.
  intros Hcf H. unfold Re.match_at in *.
  eapply (run_extend ic post r Hcf); [exact H|]. discriminate.
Qed.

Lemma search_from_extend (ic : bool) (r : Re.regex) (post : string) (s : string) :
  context_free r = true ->
  forall prev prev2,
    Re.search_from ic r prev s <> None ->
    Re.search_from ic r prev2 (s ++ post) <> None.
Proof.
  intro Hcf. induction s as [|c s IH]; intros prev prev2 H.
  - cbn [Re.search_from] in H.
    destruct (Re.match_at ic r prev "") as [m|] eqn:Hm; [|contradiction].
    pose proof (match_at_extend ic r prev prev2 "" post m Hcf Hm) as Hext.
    cbn [append] in *. destruct post; cbn [Re.search_from];
      destruct (Re.match_at ic r prev2 _); try discriminate; contradiction.
  - cbn [Re.search_from] in H. cbn [append Re.search_from].
    destruct (Re.match_at ic r prev (String c s)) as [m|] eqn:Hm.
    + pose proof (match_at_extend ic r prev prev2 _ post m Hcf Hm) as Hext.
      cbn [append] in Hext.
      destruct (Re.match_at ic r prev2 (String c (s ++ post))); [discriminate|contradiction].
    + destruct (Re.match_at ic r prev2 (String c (s ++ post))); [discriminate|].
      eapply IH. exact H.
Qed.

Lemma search_from_prefix (ic : bool) (r : Re.regex) (s : string) (pre : string) :
  context_free r = true ->
  forall prev prev2,
    Re.search_from ic r prev s <> None ->
    Re.search_from ic r prev2 (pre ++ s) <> None.
Proof.
  intro Hcf. induction pre as [|c pre IH]; intros prev prev2 H.
  - cbn [append]. rewrite <- (str_append_empty_r s).
    eapply search_from_extend; [exact Hcf|exact H].
  - cbn [append Re.search_from].
    destruct (Re.match_at ic r prev2 (String c (pre ++ s))); [discriminate|].
    eapply IH. exact H.
Qed.

(** A pattern without lookahead and word boundary found in a text is found
    in every text that holds it. *)
Lemma found_monotone (ic : bool) (r : Re.regex) (pre s post : string) :
  context_free r = true ->
  Re.found ic r s = true ->
  Re.found ic r (pre ++ s ++ post) = true.
Proof.
  unfold Re.found, Re.search. intros Hcf H.
  assert (Hs : Re.search_from ic r None s <> None)
    by (destruct (Re.search_from ic r None s); [discriminate|discriminate H]).
  pose proof (search_from_prefix ic r (s ++ post) pre Hcf None None
                (search_from_extend ic r post s Hcf None None Hs)) as Hfound.
  destruct (Re.search_from ic r None (pre ++ s ++ post)); [reflexivity|contradiction].
Qed.

Lemma str_map_app (f : ascii -> ascii) (a b : string) :
  Str.map f (a ++ b) = Str.map f a ++ Str.map f b.
Proof. induction a as [|x a IH]; [reflexivity|]. cbn. now rewrite IH. Qed.

Lemma concern_patterns_context_free :
  forallb (fun item => forallb context_free (snd item)) concern_patterns = true.
Proof. vm_compute. reflexivity. Qed.

(** X5. A concern detected in a text is detected in every text that holds
    it: what comes before and after never hides a concern.  So the concerns
    of the description alone, or of the name alone, are among those of the
    row, which is computed from the two together. *)
Theorem get_skin_concerns_monotone (before text after concern : string) :
  In concern (get_skin_concerns text) ->
  In concern (get_skin_concerns (before ++ text ++ after)).
Proof.
  rewrite !get_skin_concerns_filter. unfold matching_concerns, Str.lower.
  rewrite !str_map_app. rewrite !in_map_iff.
  intros [[c ps] [Hc Hin]]. exists (c, ps). split; [exact Hc|].
  apply filter_In in Hin. destruct Hin as [Hin Hm]. apply filter_In. split; [exact Hin|].
  cbn [snd] in *. unfold category_matches in *.
  apply existsb_exists in Hm. destruct Hm as [p [Hp Hfound]].
  apply existsb_exists. exists p. split; [exact Hp|].
  apply found_monotone; [|exact Hfound].
  pose proof concern_patterns_context_free as Hall.
  rewrite forallb_forall in Hall. specialize (Hall _ Hin). cbn [snd] in Hall.
  rewrite forallb_forall in Hall. exact (Hall _ Hp).
Qed.

Lemma get_skin_concerns_monotone_witness :
  In "dry skin" (get_skin_concerns ("A gentle cream" ++ " for very dry  skin" ++ " Nivea Soft")).
Proof.
  apply (get_skin_concerns_monotone "A gentle cream" " for very dry  skin" " Nivea Soft").
  vm_compute. tauto.
Defined.

(* ===================================================================== *)
(** ** The row and the gate together *)
(* ===================================================================== *)

(** The row [scrape_products] builds, written out. *)
Lemma build_row_inv (html_get_text : string -> string) (slug : string)
      (prod : pyval) (r : row) :
  build_row html_get_text slug prod = Ok r ->
  exists d brand images general_info ingredients size line product_images,
    prod = PDict d
    /\ field_or d "brand" (PDict []) = PDict brand
    /\ field_or d "images" (PDict []) = PDict images
    /\ extract_detail html_get_text (field_or d "details" PNone) "General Information"
       = Ok general_info
    /\ extract_detail html_get_text (field_or d "details" PNone) "Ingredients"
       = Ok ingredients
    /\ extract_size_volume prod = Ok size
    /\ extract_product_line_name html_get_text prod = Ok line
    /\ match images with
       | [] => product_images = "N/A"
       | _ :: _ => Py.join "|" (List.map snd images) = Ok product_images
       end
    /\ r = [ ("Product ID", field_or d "product_id" (PStr "N/A"));
             ("Product Name", field_or d "name" (PStr "N/A"));
             ("Product Line Name", PStr line);
             ("Brand Name", field_or brand "brand_name" (PStr "N/A"));
             ("Product Description",
               PStr (if Str.nonempty general_info then general_info else "N/A"));
             ("Product Images", PStr product_images);
             ("Barcode (EAN/UPC)", field_or d "upc" (PStr "N/A"));
             ("Price", PStr (Py.str (field_or d "price" (PStr "N/A"))));
             ("Size/Volume", PStr size);
             ("Ingredients",
               PStr (if Str.nonempty (clean_ingredients html_get_text ingredients)
                     then clean_ingredients html_get_text ingredients else "N/A"));
             ("Skin Concern",
               PStr (match get_skin_concerns
                              (general_info ++ " " ++ Py.str (field_or d "name" (PStr ""))) with
                     | [] => "N/A"
                     | _ :: _ =>
                         Str.join ", "
                           (get_skin_concerns
                              (general_info ++ " " ++ Py.str (field_or d "name" (PStr ""))))
                     end));
             ("Source URL", PStr (BASE ++ "/shop/product/" ++ slug)) ].
Proof.
  intro H. unfold build_row in H.
  destruct prod as [| | | | |d]; try discriminate H.
  cbn [Py.get bind] in H.
  fold (field_or d "brand" (PDict [])) in H.
  fold (field_or d "images" (PDict [])) in H.
  fold (field_or d "details" PNone) in H.
  fold (field_or d "name" (PStr "")) in H.
  fold (field_or d "product_id" (PStr "N/A")) in H.
  fold (field_or d "name" (PStr "N/A")) in H.
  fold (field_or d "upc" (PStr "N/A")) in H.
  fold (field_or d "price" (PStr "N/A")) in H.
  destruct (field_or d "brand" (PDict [])) as [| | | | |brand] eqn:Ebrand;
    try discriminate H.
  cbn [Py.get bind] in H. fold (field_or brand "brand_name" (PStr "N/A")) in H.
  destruct (field_or d "images" (PDict [])) as [| | | | |images] eqn:Eimages;
    try discriminate H.
  cbn [Py.values bind] in H.
  do 4 bind_ok H.
  match type of H with
  | bind ?m _ = Ok _ => destruct m as [product_images|] eqn:Ejoin; [|discriminate H]
  end.
  cbn [bind] in H. injection H as <-.
  exists d, brand, images, a, a0, a1, a2, product_images.
  repeat (split; [first [reflexivity|assumption]|]).
  split; [|reflexivity].
  destruct images as [|i images]; [now injection Ejoin as <-|exact Ejoin].
Qed.

Lemma first_missing_none (r : row) (fields : list string) (field : string) :
  first_missing r fields = None -> In field fields -> missing r field = false.
Proof.
  induction fields as [|f fs IH]; [intros _ []|].
  cbn [first_missing]. destruct (missing r f) eqn:Hf; [discriminate|].
  intros H [<- | Hin]; [exact Hf|now apply IH].
Qed.

Lemma accepted_not_missing (r : row) (field : string) :
  validate_completeness r = (true, None) ->
  In field required_fields -> missing r field = false.
Proof.
  unfold validate_completeness.
  destruct (first_missing r required_fields) eqn:Hm; [discriminate|].
  intros _. now apply first_missing_none.
Qed.

Lemma not_missing_field (d : list (string * pyval)) (k : string) :
  Py.eq_str (field_or d k (PStr "N/A")) "N/A"
  || negb (Py.truthy (field_or d k (PStr "N/A"))) = false ->
  has_populated d k.
Proof.
  unfold has_populated, populated, field_or. destruct (Py.lookup d k) as [v|].
  - intro H. apply orb_false_elim in H. destruct H as [H1 H2].
    exists v. rewrite H1. apply negb_false_iff in H2. now rewrite H2.
  - discriminate.
Qed.

(** X6. A row that [scrape_products] builds and [validate_completeness]
    accepts comes from a product that holds a populated identifier, name,
    barcode and brand name, a price, at least one image, a general
    information detail and an ingredients detail that are not empty once
    cleaned, a size that starts with a digit, and at least one skin
    concern in its description and name. *)
Theorem accepted_row_sources (html_get_text : string -> string) (slug : string)
        (prod : pyval) (r : row) :
  build_row html_get_text slug prod = Ok r ->
  validate_completeness r = (true, None) ->
  exists d brand general_info ingredients size,
    prod = PDict d
    /\ has_populated d "product_id" /\ has_populated d "name" /\ has_populated d "upc"
    /\ Py.lookup d "brand" = Some (PDict brand) /\ has_populated brand "brand_name"
    /\ (exists price, Py.lookup d "price" = Some price)
    /\ (exists image images, Py.lookup d "images" = Some (PDict (image :: images)))
    /\ extract_detail html_get_text (field_or d "details" PNone) "General Information"
       = Ok general_info
    /\ general_info <> ""
    /\ extract_detail html_get_text (field_or d "details" PNone) "Ingredients"
       = Ok ingredients
    /\ ingredients <> "" /\ clean_ingredients html_get_text ingredients <> "N/A"
    /\ extract_size_volume prod = Ok size
    /\ (exists c rest, size = String c rest /\ Char.isdigit c = true)
    /\ get_skin_concerns (general_info ++ " " ++ Py.str (field_or d "name" (PStr ""))) <> [].
Proof.
  intros Hrow Haccepted.
  destruct (build_row_inv _ _ _ _ Hrow)
    as [d [brand [images [general_info [ingredients [size [line [product_images
       [-> [Hbrand [Himages [Hinfo [Hingr [Hsize [Hline [Hjoin ->]]]]]]]]]]]]]]]].
  assert (Hm : forall field, In field required_fields ->
                 missing _ field = false)
    by (intros field; apply accepted_not_missing; exact Haccepted).
  exists d, brand, general_info, ingredients, size.
  split; [reflexivity|].
  split; [apply not_missing_field; exact (Hm "Product ID" ltac:(cbn; tauto))|].
  split; [apply not_missing_field; exact (Hm "Product Name" ltac:(cbn; tauto))|].
  split; [apply not_missing_field; exact (Hm "Barcode (EAN/UPC)" ltac:(cbn; tauto))|].
  assert (Hbn : has_populated brand "brand_name")
    by (apply not_missing_field; exact (Hm "Brand Name" ltac:(cbn; tauto))).
  split.
  { unfold field_or in Hbrand. destruct (Py.lookup d "brand") as [b|].
    - now rewrite Hbrand.
    - injection Hbrand as <-. destruct Hbn as [v [Hv _]]. discriminate Hv. }
  split; [exact Hbn|].
  split.
  { pose proof (Hm "Price" ltac:(cbn; tauto)) as Hp.
    unfold missing, row_get in Hp. cbn [Py.lookup String.eqb Ascii.eqb Bool.eqb] in Hp.
    unfold field_or in *. destruct (Py.lookup d "price") as [price|]; [eauto|].
    discriminate Hp. }
  split.
  { pose proof (Hm "Product Images" ltac:(cbn; tauto)) as Hp.
    unfold missing, row_get in Hp. cbn [Py.lookup String.eqb Ascii.eqb Bool.eqb] in Hp.
    destruct images as [|image images]; [subst product_images; discriminate Hp|].
    unfold field_or in Himages. destruct (Py.lookup d "images") as [v|]; [|discriminate].
    rewrite Himages. eauto. }
  split; [exact Hinfo|].
  split.
  { pose proof (Hm "Product Description" ltac:(cbn; tauto)) as Hp.
    unfold missing, row_get in Hp. cbn [Py.lookup String.eqb Ascii.eqb Bool.eqb] in Hp.
    intros ->. discriminate Hp. }
  split; [exact Hingr|].
  pose proof (Hm "Ingredients" ltac:(cbn; tauto)) as Hi.
  unfold missing, row_get in Hi. cbn [Py.lookup String.eqb Ascii.eqb Bool.eqb] in Hi.
  split; [intros ->; discriminate Hi|].
  split.
  { intro Hna. rewrite Hna in Hi. discriminate Hi. }
  split; [exact Hsize|].
  split.
  { pose proof (Hm "Size/Volume" ltac:(cbn; tauto)) as Hp.
    unfold missing, row_get in Hp. cbn [Py.lookup String.eqb Ascii.eqb Bool.eqb] in Hp.
    destruct (extract_size_volume_shape_lemma _ _ Hsize) as [-> | Hdigit];
      [discriminate Hp|exact Hdigit]. }
  pose proof (Hm "Skin Concern" ltac:(cbn; tauto)) as Hp.
  unfold missing, row_get in Hp. cbn [Py.lookup String.eqb Ascii.eqb Bool.eqb] in Hp.
  intro Hnone. rewrite Hnone in Hp. discriminate Hp.
Qed.

Lemma accepted_row_sources_witness :
  exists d brand general_info ingredients size,
    nivea_soft = PDict d
    /\ has_populated d "product_id" /\ has_populated d "name" /\ has_populated d "upc"
    /\ Py.lookup d "brand" = Some (PDict brand) /\ has_populated brand "brand_name"
    /\ (exists price, Py.lookup d "price" = Some price)
    /\ (exists image images, Py.lookup d "images" = Some (PDict (image :: images)))
    /\ extract_detail Str.strip (field_or d "details" PNone) "General Information"
       = Ok general_info
    /\ general_info <> ""
    /\ extract_detail Str.strip (field_or d "details" PNone) "Ingredients"
       = Ok ingredients
    /\ ingredients <> "" /\ clean_ingredients Str.strip ingredients <> "N/A"
    /\ extract_size_volume nivea_soft = Ok size
    /\ (exists c rest, size = String c rest /\ Char.isdigit c = true)
    /\ get_skin_concerns (general_info ++ " " ++ Py.str (field_or d "name" (PStr ""))) <> [].
Proof.
  apply (accepted_row_sources Str.strip "nivea-soft" nivea_soft nivea_soft_row);
    vm_compute; reflexivity.
Defined.

(* ===================================================================== *)
(** ** The price column *)
(* ===================================================================== *)

Lemma repr_int_digit (z : Z) :
  Py.repr_int z <> "" /\ Py.repr_int z <> "N/A".
Proof.
  unfold Py.repr_int. destruct (Z.to_int z) as [d|d]; cbn.
  - destruct d; cbn; split; discriminate.
  - split; discriminate.
Qed.

(** [str] of a value is empty only for the empty string and ["N/A"] only
    for that string. *)
Lemma str_empty_or_na (v : pyval) :
  String.eqb (Py.str v) "N/A" || negb (Str.nonempty (Py.str v))
  = Py.eq_str v "" || Py.eq_str v "N/A".
Proof.
  destruct v as [| b | z | s | l | d]; cbn [Py.str Py.eq_str orb].
  - reflexivity.
  - destruct b; reflexivity.
  - cbn [Py.repr]. destruct (repr_int_digit z) as [H1 H2].
    apply String.eqb_neq in H2. rewrite H2.
    destruct (Py.repr_int z); [contradiction|reflexivity].
  - destruct (String.eqb s "N/A") eqn:Hna.
    + apply String.eqb_eq in Hna. now subst s.
    + destruct s; [reflexivity|]. cbn. reflexivity.
  - reflexivity.
  - reflexivity.
Qed.

(** X7. In a row that [scrape_products] builds, the price is missing for
    [validate_completeness] exactly when the product has no ["price"] key
    or holds the empty string or ["N/A"] under it.  Every other value
    counts as a price: a [null] price is written ["None"] and passes. *)
Theorem price_missing (html_get_text : string -> string) (slug : string)
        (d : list (string * pyval)) (r : row) :
  build_row html_get_text slug (PDict d) = Ok r ->
  missing r "Price"
  = match Py.lookup d "price" with
    | None => true
    | Some price => Py.eq_str price "" || Py.eq_str price "N/A"
    end
  /\ (Py.lookup d "price" = Some PNone ->
      row_get r "Price" = PStr "None" /\ missing r "Price" = false).
Proof.
  intro Hrow.
  destruct (build_row_inv _ _ _ _ Hrow)
    as [d' [brand [images [general_info [ingredients [size [line [product_images
       [Hd [_ [_ [_ [_ [_ [_ [_ ->]]]]]]]]]]]]]]]].
  injection Hd as <-.
  assert (Hprice : row_get
     [("Product ID", field_or d "product_id" (PStr "N/A"));
      ("Product Name", field_or d "name" (PStr "N/A"));
      ("Product Line Name", PStr line);
      ("Brand Name", field_or brand "brand_name" (PStr "N/A"));
      ("Product Description",
        PStr (if Str.nonempty general_info then general_info else "N/A"));
      ("Product Images", PStr product_images);
      ("Barcode (EAN/UPC)", field_or d "upc" (PStr "N/A"));
      ("Price", PStr (Py.str (field_or d "price" (PStr "N/A"))));
      ("Size/Volume", PStr size);
      ("Ingredients",
        PStr (if Str.nonempty (clean_ingredients html_get_text ingredients)
              then clean_ingredients html_get_text ingredients else "N/A"));
      ("Skin Concern",
        PStr (match get_skin_concerns
                       (general_info ++ " " ++ Py.str (field_or d "name" (PStr ""))) with
              | [] => "N/A"
              | _ :: _ =>
                  Str.join ", "
                    (get_skin_concerns
                       (general_info ++ " " ++ Py.str (field_or d "name" (PStr ""))))
              end));
      ("Source URL", PStr (BASE ++ "/shop/product/" ++ slug))] "Price"
     = PStr (Py.str (field_or d "price" (PStr "N/A")))) by reflexivity.
  unfold missing. rewrite Hprice. cbn [Py.eq_str Py.truthy].
  rewrite str_empty_or_na. unfold field_or.
  split.
  - destruct (Py.lookup d "price"); reflexivity.
  - intros ->. split; reflexivity.
Qed.

Lemma price_missing_witness :
  exists r,
    build_row Str.strip "nivea-soft" nivea_soft_no_price = Ok r /\
    row_get r "Price" = PStr "None" /\ missing r "Price" = false /\
    validate_completeness r = (true, None).
Proof.
  eexists. split; [vm_compute; reflexivity|].
  pose proof (price_missing Str.strip "nivea-soft" _ _
                (eq_refl : build_row Str.strip "nivea-soft" nivea_soft_no_price = Ok _))
    as [_ Hnull].
  destruct (Hnull eq_refl) as [Hprice Hmissing].
  split; [exact Hprice|]. split; [exact Hmissing|]. reflexivity.
Defined.

(* ===================================================================== *)
(** ** [get_product_slugs] *)
(* ===================================================================== *)

Lemma no_repeat_from_snoc (x : pyval) (l : list pyval) :
  forall seen,
    no_repeat_from seen (l ++ [x])%list
    = no_repeat_from seen l && negb (existsb (Py.eq x) (seen ++ l)%list).
Proof.
  induction l as [|y l IH]; intro seen; cbn [app no_repeat_from].
  - rewrite app_nil_r. now rewrite andb_true_r.
  - rewrite IH, <- app_assoc. cbn [app]. now rewrite andb_assoc.
Qed.

Lemma add_slugs_ok (max_products : Z) (products : list pyval) :
  forall slugs total_fetched slugs' total_fetched',
    slugs_ok max_products slugs total_fetched ->
    (total_fetched < max_products)%Z ->
    add_slugs products max_products slugs total_fetched = Ok (slugs', total_fetched') ->
    slugs_ok max_products slugs' total_fetched'.
Proof.
  induction products as [|prod rest IH];
    intros slugs total slugs' total' Hok Hlt H; cbn [add_slugs] in H.
  - now injection H as <- <-.
  - destruct (Py.get prod "slug" PNone) as [slug|]; [|discriminate H].
    cbn [bind] in H.
    destruct (Py.truthy slug && negb (existsb (Py.eq slug) slugs)) eqn:Hnew;
      [|exact (IH _ _ _ _ Hok Hlt H)].
    apply andb_prop in Hnew. destruct Hnew as [Htruthy Hfresh].
    destruct Hok as [Hrep [Hall [Hcount Hbound]]].
    assert (Hok' : slugs_ok max_products (slugs ++ [slug])%list (total + 1)%Z).
    { unfold slugs_ok, no_repeats. rewrite no_repeat_from_snoc.
      cbn [app]. fold (no_repeats slugs). rewrite Hrep, Hfresh.
      rewrite forallb_app, Hall. cbn [forallb]. rewrite Htruthy.
      rewrite length_app. cbn [List.length]. repeat split; lia. }
    destruct (total + 1 >=? max_products)%Z eqn:Hfull.
    + now injection H as <- <-.
    + apply (IH _ _ _ _ Hok'); [lia|exact H].
Qed.

Lemma slug_pages_ok {world : Type}
      (post_product_list : string -> Z -> Z -> world -> option pyval * world)
      (category_slug : string) (max_products page_size : Z) (fuel : nat) :
  forall page slugs total_fetched w slugs' w',
    slugs_ok max_products slugs total_fetched ->
    slug_pages world post_product_list fuel category_slug max_products page_size
               page slugs total_fetched w = Returns slugs' w' ->
    exists total_fetched', slugs_ok max_products slugs' total_fetched'.
Proof.
  induction fuel as [|fuel IH]; intros page slugs total w slugs' w' Hok H;
    cbn [slug_pages] in H.
  - destruct (total <? max_products)%Z; [discriminate H|].
    injection H as <- _. eauto.
  - destruct (total <? max_products)%Z eqn:Hlt; [|injection H as <- _; eauto].
    apply Z.ltb_lt in Hlt.
    destruct (post_product_list category_slug page page_size w) as [[data|] w1];
      [|injection H as <- _; eauto].
    unfold read_page in H.
    destruct (Py.get data "results" (PList [])) as [products|]; [|discriminate H].
    cbn [bind] in H.
    destruct (negb (Py.truthy products)); [injection H as <- _; eauto|].
    destruct (Py.iter products) as [objs|]; [|discriminate H]. cbn [bind] in H.
    destruct (add_slugs objs max_products slugs total) as [[slugs1 total1]|] eqn:Hadd;
      [|discriminate H].
    cbn [bind] in H. eapply IH; [|exact H].
    exact (add_slugs_ok _ _ _ _ _ _ Hok Hlt Hadd).
Qed.

Lemma get_product_slugs_ok {world : Type}
      (post_product_list : string -> Z -> Z -> world -> option pyval * world)
      (fuel : nat) (category_slug : string) (max_products page_size : Z)
      (w w' : world) (slugs : list pyval) :
  get_product_slugs world post_product_list fuel category_slug max_products page_size w
  = Returns slugs w' ->
  no_repeats slugs = true /\ forallb Py.truthy slugs = true /\
  (Z.of_nat (List.length slugs) <= Z.max 0 max_products)%Z.
Proof.
  intro H. unfold get_product_slugs in H.
  apply slug_pages_ok in H.
  - destruct H as [total [Hrep [Hall [Hcount Hbound]]]]. repeat split; try assumption. lia.
  - unfold slugs_ok. repeat split; cbn; lia.
Qed.

(** X8. The slugs [get_product_slugs] returns differ from one another, are
    all truthy, and are at most [max_products], none when [max_products]
    is not positive, whatever the server answers. *)
Theorem get_product_slugs_distinct {world : Type}
        (post_product_list : string -> Z -> Z -> world -> option pyval * world)
        (fuel : nat) (category_slug : string) (max_products page_size : Z)
        (w w' : world) (slugs : list pyval) :
  get_product_slugs world post_product_list fuel category_slug max_products page_size w
  = Returns slugs w' ->
  no_repeats slugs = true /\ forallb Py.truthy slugs = true /\
  (Z.of_nat (List.length slugs) <= Z.max 0 max_products)%Z.
Proof. apply get_product_slugs_ok. Qed.

Lemma get_product_slugs_distinct_witness :
  get_product_slugs requests sample_list 3 "skin-care" 10 24 0
  = Returns [PStr "nivea-soft"; PStr "hand-cream"] 2 /\
  no_repeats [PStr "nivea-soft"; PStr "hand-cream"] = true /\
  forallb Py.truthy [PStr "nivea-soft"; PStr "hand-cream"] = true /\
  (Z.of_nat (List.length [PStr "nivea-soft"; PStr "hand-cream"]) <= Z.max 0 10)%Z.
Proof.
  split; [vm_compute; reflexivity|].
  apply (get_product_slugs_distinct sample_list 3 "skin-care" 10 24 0 2).
  vm_compute. reflexivity.
Defined.

(* ===================================================================== *)
(** ** A server that repeats itself *)
(* ===================================================================== *)

Lemma eq_refl_hashable (v : pyval) : hashable v = true -> Py.eq v v = true.
Proof.
  destruct v as [| b | z | s | l | d]; try discriminate; intros _; cbn [Py.eq].
  - reflexivity.
  - now destruct b.
  - apply Z.eqb_refl.
  - apply String.eqb_refl.
Qed.

Lemma add_slugs_grows (max_products : Z) (products : list pyval) :
  forall slugs total slugs' total',
    add_slugs products max_products slugs total = Ok (slugs', total') ->
    (exists more, slugs' = slugs ++ more)%list /\ (total <= total')%Z.
Proof.
  induction products as [|prod rest IH]; intros slugs total slugs' total' H;
    cbn [add_slugs] in H.
  - injection H as <- <-. split; [exists []; now rewrite app_nil_r|lia].
  - destruct (Py.get prod "slug" PNone) as [slug|]; [|discriminate H].
    cbn [bind] in H.
    destruct (Py.truthy slug && negb (existsb (Py.eq slug) slugs)); [|exact (IH _ _ _ _ H)].
    destruct (total + 1 >=? max_products)%Z.
    + injection H as <- <-. split; [eauto|lia].
    + apply IH in H. destruct H as [[more ->] Hle]. split; [|lia].
      exists (slug :: more). now rewrite <- app_assoc.
Qed.

(** A page read a second time adds nothing. *)
Lemma add_slugs_again (max_products : Z) (products : list pyval) :
  forall slugs0 total0 slugs1 total1,
    add_slugs products max_products slugs0 total0 = Ok (slugs1, total1) ->
    (total1 < max_products)%Z ->
    forallb hashable slugs1 = true ->
    forall slugs total,
      (forall x, In x slugs1 -> In x slugs) ->
      add_slugs products max_products slugs total = Ok (slugs, total).
Proof.
  induction products as [|prod rest IH];
    intros slugs0 total0 slugs1 total1 H Hlt Hhash slugs total Hincl;
    cbn [add_slugs] in H |- *; [reflexivity|].
  destruct (Py.get prod "slug" PNone) as [slug|]; [|discriminate H].
  cbn [bind] in H |- *.
  destruct (Py.truthy slug) eqn:Htruthy; cbn [andb] in H |- *;
    [|exact (IH _ _ _ _ H Hlt Hhash _ _ Hincl)].
  assert (Hseen : existsb (Py.eq slug) slugs = true).
  { destruct (existsb (Py.eq slug) slugs0) eqn:Hold.
    - apply existsb_exists in Hold. destruct Hold as [y [Hy Heq]].
      apply existsb_exists. exists y. split; [|exact Heq].
      apply Hincl. cbn [negb] in H. apply add_slugs_grows in H.
      destruct H as [[more ->] _]. apply in_or_app. now left.
    - cbn [negb] in H.
      assert (Hin : In slug slugs1).
      { destruct (total0 + 1 >=? max_products)%Z.
        - injection H as <- _. apply in_or_app. right. now left.
        - apply add_slugs_grows in H. destruct H as [[more ->] _].
          apply in_or_app. left. apply in_or_app. right. now left. }
      apply existsb_exists. exists slug. split; [now apply Hincl|].
      apply eq_refl_hashable. rewrite forallb_forall in Hhash. now apply Hhash. }
  rewrite Hseen. cbn [negb].
  destruct (existsb (Py.eq slug) slugs0); cbn [negb] in H.
  - exact (IH _ _ _ _ H Hlt Hhash _ _ Hincl).
  - destruct (total0 + 1 >=? max_products)%Z eqn:Hfull.
    + injection H as _ <-. lia.
    + exact (IH _ _ _ _ H Hlt Hhash _ _ Hincl).
Qed.

Lemma slug_pages_stuck {world : Type}
      (post_product_list : string -> Z -> Z -> world -> option pyval * world)
      (category_slug : string) (max_products page_size : Z)
      (data : pyval) (slugs1 : list pyval) (total1 : Z) :
  (forall page w, exists w', post_product_list category_slug page page_size w = (Some data, w')) ->
  read_page data max_products slugs1 total1 = Ok (Some (slugs1, total1)) ->
  (total1 < max_products)%Z ->
  forall fuel page w,
    slug_pages world post_product_list fuel category_slug max_products page_size
               page slugs1 total1 w = Unfinished.
Proof.
  intros Hpost Hread Hlt. apply Z.ltb_lt in Hlt.
  induction fuel as [|fuel IH]; intros page w; cbn [slug_pages]; rewrite Hlt;
    [reflexivity|].
  destruct (Hpost page w) as [w' ->]. rewrite Hread. apply IH.
Qed.

(** X9. When the server answers every page of a category with the same
    products, and these hold fewer different slugs than [max_products],
    the loop of [get_product_slugs] never ends: whatever the number of
    turns it is given, it has not returned. *)
Theorem get_product_slugs_never_returns {world : Type}
        (post_product_list : string -> Z -> Z -> world -> option pyval * world)
        (category_slug : string) (max_products page_size : Z)
        (data : pyval) (slugs1 : list pyval) (total1 : Z) :
  (forall page w, exists w', post_product_list category_slug page page_size w = (Some data, w')) ->
  read_page data max_products [] 0 = Ok (Some (slugs1, total1)) ->
  forallb hashable slugs1 = true ->
  (total1 < max_products)%Z ->
  forall fuel w,
    get_product_slugs world post_product_list fuel category_slug max_products page_size w
    = Unfinished.
Proof.
  intros Hpost Hread Hhash Hlt fuel w.
  assert (Hagain : read_page data max_products slugs1 total1 = Ok (Some (slugs1, total1))).
  { unfold read_page in *.
    destruct (Py.get data "results" (PList [])) as [products|]; [|discriminate Hread].
    cbn [bind] in *. destruct (negb (Py.truthy products)); [discriminate Hread|].
    destruct (Py.iter products) as [objs|]; [|discriminate Hread]. cbn [bind] in *.
    destruct (add_slugs objs max_products [] 0) as [[s t]|] eqn:Hadd; [|discriminate Hread].
    cbn [bind] in Hread. injection Hread as -> ->.
    rewrite (add_slugs_again _ _ _ _ _ _ Hadd Hlt Hhash slugs1 total1); [reflexivity|auto]. }
  assert (Hpos : (0 <? max_products)%Z = true).
  { apply Z.ltb_lt. unfold read_page in Hread.
    destruct (Py.get data "results" (PList [])) as [products|]; [|discriminate Hread].
    cbn [bind] in Hread. destruct (negb (Py.truthy products)); [discriminate Hread|].
    destruct (Py.iter products) as [objs|]; [|discriminate Hread]. cbn [bind] in Hread.
    destruct (add_slugs objs max_products [] 0) as [[s t]|] eqn:Hadd; [|discriminate Hread].
    cbn [bind] in Hread. injection Hread as -> ->.
    apply add_slugs_grows in Hadd. lia. }
  unfold get_product_slugs. destruct fuel as [|fuel]; cbn [slug_pages]; rewrite Hpos;
    [reflexivity|].
  destruct (Hpost 1%Z w) as [w' ->]. rewrite Hread.
  exact (slug_pages_stuck _ _ _ _ data _ _ Hpost Hagain Hlt _ _ _).
Qed.

Lemma get_product_slugs_never_returns_witness :
  get_product_slugs requests stuck_list 1000 "skin-care" 10 24 0 = Unfinished.
Proof.
  refine (get_product_slugs_never_returns stuck_list "skin-care" 10 24
           (PDict [("results", PList [ PDict [("slug", PStr "nivea-soft")];
                                       PDict [("slug", PStr "hand-cream")] ])])
           [PStr "nivea-soft"; PStr "hand-cream"] 2 _ _ _ _ 1000 0).
  - intros page w. exists (S w). reflexivity.
  - reflexivity.
  - reflexivity.
  - reflexivity.
Defined.

(* ===================================================================== *)
(** ** [collect_random_slugs] *)
(* ===================================================================== *)

Lemma dict_key_eq (x y : pyval) :
  hashable x = true -> hashable y = true ->
  (Py.eq x y = true <-> dict_key x = dict_key y).
Proof.
  destruct x as [| b | z | s | l | d]; try discriminate;
    destruct y as [| b' | z' | s' | l' | d']; try discriminate; intros _ _;
    cbn [Py.eq dict_key]; split; try discriminate; try reflexivity.
  - destruct b, b'; try discriminate; reflexivity.
  - destruct b, b'; try discriminate; reflexivity.
  - intro H. apply Z.eqb_eq in H. now subst.
  - intros [= <-]. apply Z.eqb_refl.
  - intro H. apply Z.eqb_eq in H. now subst.
  - intros [= ->]. apply Z.eqb_refl.
  - intro H. apply Z.eqb_eq in H. now subst.
  - intros [= ->]. apply Z.eqb_refl.
  - intro H. apply String.eqb_eq in H. now subst.
  - intros [= ->]. apply String.eqb_refl.
Qed.

(** [dict.fromkeys] keeps one element for each key, all of them elements it
    was given. *)
Lemma fromkeys_into_keys (l : list pyval) :
  forall keys,
    NoDup (List.map dict_key keys) ->
    forallb hashable keys = true ->
    forallb hashable l = true ->
    NoDup (List.map dict_key (fromkeys_into keys l)) /\
    (forall x, In x (fromkeys_into keys l) -> In x keys \/ In x l).
Proof.
  induction l as [|x l IH]; intros keys Hnodup Hkeys Hl; cbn [fromkeys_into].
  - split; [exact Hnodup|auto].
  - cbn [forallb] in Hl. apply andb_prop in Hl. destruct Hl as [Hx Hl].
    destruct (existsb (Py.eq x) keys) eqn:Hseen.
    + destruct (IH keys Hnodup Hkeys Hl) as [H1 H2]. split; [exact H1|].
      intros y Hy. destruct (H2 y Hy); [now left|right; now right].
    + assert (Hfresh : ~ In (dict_key x) (List.map dict_key keys)).
      { intro Hin. apply in_map_iff in Hin. destruct Hin as [y [Hy Hin]].
        assert (Heq : Py.eq x y = true).
        { apply dict_key_eq; [exact Hx| |now symmetry].
          rewrite forallb_forall in Hkeys. now apply Hkeys. }
        assert (Hex : existsb (Py.eq x) keys = true)
          by (apply existsb_exists; eauto).
        rewrite Hex in Hseen. discriminate Hseen. }
      destruct (IH (keys ++ [x])%list) as [H1 H2].
      * rewrite map_app. cbn [List.map].
        apply Permutation_NoDup with (l := dict_key x :: List.map dict_key keys).
        -- apply Permutation_cons_append.
        -- now constructor.
      * rewrite forallb_app, Hkeys. cbn. now rewrite Hx.
      * exact Hl.
      * split; [exact H1|]. intros y Hy. destruct (H2 y Hy) as [Hin|Hin].
        -- apply in_app_or in Hin. destruct Hin as [Hin|[<-|[]]]; [now left|right; now left].
        -- right. now right.
Qed.

Lemma collect_categories_truthy {world : Type}
      (post_product_list : string -> Z -> Z -> world -> option pyval * world)
      (fuel : nat) (products_per_category : Z) (categories : list string) :
  forall all_slugs w all_slugs' w',
    forallb Py.truthy all_slugs = true ->
    collect_categories world post_product_list fuel categories products_per_category
                       all_slugs w = Returns all_slugs' w' ->
    forallb Py.truthy all_slugs' = true.
Proof.
  induction categories as [|c cs IH]; intros all_slugs w all' w' Hall H;
    cbn [collect_categories] in H.
  - now injection H as <- _.
  - destruct (get_product_slugs world post_product_list fuel c
                (products_per_category + 5) 24 w) as [slugs w1| |] eqn:Hget;
      try discriminate H.
    apply get_product_slugs_ok in Hget. destruct Hget as [_ [Htruthy _]].
    eapply IH; [|exact H]. now rewrite forallb_app, Hall.
Qed.

Lemma forallb_permutation {A : Type} (p : A -> bool) (l l' : list A) :
  Permutation l' l -> forallb p l = true -> forallb p l' = true.
Proof.
  intros Hperm H. rewrite forallb_forall in *. intros x Hx. apply H.
  eapply Permutation_in; [exact Hperm|exact Hx].
Qed.

Lemma NoDup_firstn {A : Type} (n : nat) (l : list A) : NoDup l -> NoDup (firstn n l).
Proof.
  revert l. induction n as [|n IH]; intros [|x l] H; cbn; try constructor.
  - inversion H as [|? ? Hx Hl]; subst. intro Hin. apply Hx.
    rewrite <- (firstn_skipn n l). apply in_or_app. now left.
  - inversion H; subst. now apply IH.
Qed.

Lemma slice_to_keeps {A : Type} (n : Z) (l : list A) :
  exists k, slice_to n l = firstn k l /\ ((0 <= n)%Z -> k = Z.to_nat n).
Proof.
  unfold slice_to. destruct (0 <=? n)%Z eqn:Hn.
  - eauto.
  - eexists. split; [reflexivity|]. intro H. apply Z.leb_gt in Hn. lia.
Qed.

Lemma collect_random_slugs_ok {world : Type}
      (post_product_list : string -> Z -> Z -> world -> option pyval * world)
      (random_shuffle : list pyval -> world -> list pyval * world)
      (fuel : nat) (categories : list string) (total_products : Z)
      (w w' : world) (slugs : list pyval) :
  (forall l w0, Permutation (fst (random_shuffle l w0)) l) ->
  collect_random_slugs world post_product_list random_shuffle fuel categories
                       total_products w = Returns slugs w' ->
  NoDup (List.map dict_key slugs) /\
  forallb hashable slugs = true /\
  forallb Py.truthy slugs = true /\
  ((0 <= total_products)%Z -> (Z.of_nat (List.length slugs) <= total_products)%Z).
Proof.
  intros Hshuffle H. unfold collect_random_slugs in H.
  destruct categories as [|c cs]; [discriminate H|].
  destruct (collect_categories world post_product_list fuel (c :: cs) _ [] w)
    as [all_slugs w1| |] eqn:Hall; try discriminate H.
  apply collect_categories_truthy in Hall; [|reflexivity].
  unfold dict_fromkeys in H.
  destruct (forallb hashable all_slugs) eqn:Hhash; [|discriminate H].
  destruct (fromkeys_into_keys all_slugs [] (NoDup_nil _) eq_refl Hhash) as [Hnodup Hin].
  assert (Hsub : forall x, In x (fromkeys_into [] all_slugs) -> In x all_slugs)
    by (intros x Hx; destruct (Hin x Hx) as [[]|]; assumption).
  assert (Hhash' : forallb hashable (fromkeys_into [] all_slugs) = true).
  { rewrite forallb_forall in *. auto. }
  assert (Htruthy' : forallb Py.truthy (fromkeys_into [] all_slugs) = true).
  { rewrite forallb_forall in *. auto. }
  destruct (Z.of_nat (List.length (fromkeys_into [] all_slugs)) >? total_products)%Z eqn:Hlen.
  - pose proof (Hshuffle (fromkeys_into [] all_slugs) w1) as Hperm.
    destruct (random_shuffle (fromkeys_into [] all_slugs) w1) as [shuffled w2].
    cbn [fst] in Hperm. injection H as <- _.
    destruct (slice_to_keeps total_products shuffled) as [k [-> Hk]].
    assert (Hfirst : forall x, In x (firstn k shuffled) -> In x shuffled).
    { intros x Hx. rewrite <- (firstn_skipn k shuffled). apply in_or_app. now left. }
    split.
    { rewrite <- firstn_map. apply NoDup_firstn.
      eapply Permutation_NoDup; [|exact Hnodup].
      apply Permutation_map. now apply Permutation_sym. }
    pose proof (forallb_permutation _ _ _ Hperm Hhash') as Hh.
    pose proof (forallb_permutation _ _ _ Hperm Htruthy') as Ht.
    split; [rewrite forallb_forall in *; auto|].
    split; [rewrite forallb_forall in *; auto|].
    intro Hpos. rewrite (Hk Hpos). pose proof (firstn_le_length (Z.to_nat total_products) shuffled).
    lia.
  - injection H as <- _. repeat split; try assumption. intros _. lia.
Qed.

(** X10. When [random.shuffle] permutes its list, the slugs
    [collect_random_slugs] returns are hashable and truthy, no two of them
    are the same key, and they are at most [total_products] when that is
    not negative. *)
Theorem collect_random_slugs_unique {world : Type}
        (post_product_list : string -> Z -> Z -> world -> option pyval * world)
        (random_shuffle : list pyval -> world -> list pyval * world)
        (fuel : nat) (categories : list string) (total_products : Z)
        (w w' : world) (slugs : list pyval) :
  (forall l w0, Permutation (fst (random_shuffle l w0)) l) ->
  collect_random_slugs world post_product_list random_shuffle fuel categories
                       total_products w = Returns slugs w' ->
  NoDup (List.map dict_key slugs) /\
  forallb hashable slugs = true /\
  forallb Py.truthy slugs = true /\
  ((0 <= total_products)%Z -> (Z.of_nat (List.length slugs) <= total_products)%Z).
Proof. apply collect_random_slugs_ok. Qed.

Lemma sample_shuffle_permutes (l : list pyval) (w0 : requests) :
  Permutation (fst (sample_shuffle l w0)) l.
Proof. cbn. apply Permutation_sym, Permutation_rev. Qed.

Lemma collect_random_slugs_unique_witness :
  collect_random_slugs requests sample_list sample_shuffle 3
                       ["beauty"; "skin-care"] 1 0
  = Returns [PStr "hand-cream"] 4 /\
  NoDup (List.map dict_key [PStr "hand-cream"]) /\
  forallb hashable [PStr "hand-cream"] = true /\
  forallb Py.truthy [PStr "hand-cream"] = true /\
  ((0 <= 1)%Z -> (Z.of_nat (List.length [PStr "hand-cream"]) <= 1)%Z).
Proof.
  split; [vm_compute; reflexivity|].
  apply (collect_random_slugs_unique sample_list sample_shuffle 3
           ["beauty"; "skin-care"] 1 0 4 [PStr "hand-cream"] sample_shuffle_permutes).
  vm_compute. reflexivity.
Defined.

(* ===================================================================== *)
(** ** [scrape_products] *)
(* ===================================================================== *)

Lemma validate_completeness_true (r : row) :
  fst (validate_completeness r) = true -> validate_completeness r = (true, None).
Proof.
  unfold validate_completeness. destruct (first_missing r required_fields);
    [discriminate|reflexivity].
Qed.

Section ScrapeLoop.

Variable html_get_text : string -> string.
Variable world : Type.
Variable post_product_list : string -> Z -> Z -> world -> option pyval * world.
Variable post_product_detail : pyval -> world -> option pyval * world.
Variable random_shuffle : list pyval -> world -> list pyval * world.

(** The loop keeps the rows complete and no more than asked for. *)
Lemma scrape_loop_rows (fuel : nat) (categories : list string)
      (max_products max_attempts : Z) (turns : nat) :
  forall rows queue attempts w rows' w',
    Forall (complete_row html_get_text post_product_detail) rows ->
    (Z.of_nat (List.length rows) <= Z.max 0 max_products)%Z ->
    scrape_loop html_get_text world post_product_list post_product_detail
              random_shuffle turns fuel categories max_products max_attempts
              rows queue attempts w
    = Returns rows' w' ->
    Forall (complete_row html_get_text post_product_detail) rows' /\
    (Z.of_nat (List.length rows') <= Z.max 0 max_products)%Z.
Proof.
  induction turns as [|turns IH]; intros rows queue attempts w rows' w' Hrows Hlen H;
    cbn [scrape_loop] in H.
  - destruct (_ && _); [discriminate H|]. now injection H as <- _.
  - destruct ((Z.of_nat (List.length rows) <? max_products)%Z
              && (attempts <? max_attempts)%Z) eqn:Hcond;
      [|now injection H as <- _].
    apply andb_prop in Hcond. destruct Hcond as [Hroom _]. apply Z.ltb_lt in Hroom.
    destruct (refill world post_product_list random_shuffle fuel categories
                     max_attempts attempts queue w) as [[|slug queue'] w1| |];
      try discriminate H; [now injection H as <- _|].
    destruct (fetch_product_data world post_product_detail slug w1) as [prod w2| |]
      eqn:Hfetch; try discriminate H.
    assert (Hskip : scrape_loop html_get_text world post_product_list post_product_detail
              random_shuffle turns fuel categories max_products max_attempts rows queue'
              (attempts + 1)%Z w2 = Returns rows' w' ->
                    Forall (complete_row html_get_text post_product_detail) rows' /\
                    (Z.of_nat (List.length rows') <= Z.max 0 max_products)%Z)
      by (intro Hs; exact (IH _ _ _ _ _ _ Hrows Hlen Hs)).
    destruct (build_row html_get_text (Py.str slug) prod) as [r|] eqn:Hrow.
    + destruct (fst (validate_completeness r)) eqn:Hr.
      * assert (Hr' : prod <> PNone -> complete_row html_get_text post_product_detail r)
          by (intro Hprod; split; [now apply validate_completeness_true|];
              exists slug, prod, w1, w2; auto).
        destruct prod; try (apply Hskip; exact H);
          (eapply IH; [| |exact H];
           [apply Forall_app; split; [exact Hrows|];
            constructor; [apply Hr'; discriminate|constructor]
           |rewrite length_app; cbn [List.length]; lia]).
      * destruct prod; try (apply Hskip; exact H); exact (IH _ _ _ _ _ _ Hrows Hlen H).
    + destruct prod; try discriminate H. apply Hskip. exact H.
Qed.

(** The loop ends within [max_attempts - attempts] turns when the
    collection of slugs always ends. *)
Lemma scrape_loop_ends (fuel : nat) (categories : list string)
      (max_products max_attempts : Z) :
  (forall batch_size w,
      collect_random_slugs world post_product_list random_shuffle fuel categories
                           batch_size w <> Unfinished) ->
  forall turns rows queue attempts w,
    Z.to_nat (max_attempts - attempts) <= turns ->
    scrape_loop html_get_text world post_product_list post_product_detail
              random_shuffle turns fuel categories max_products max_attempts
              rows queue attempts w
    <> Unfinished.
Proof.
  intro Hcollect.
  induction turns as [|turns IH]; intros rows queue attempts w Hturns;
    cbn [scrape_loop].
  - destruct ((Z.of_nat (List.length rows) <? max_products)%Z
              && (attempts <? max_attempts)%Z) eqn:Hcond; [|discriminate].
    apply andb_prop in Hcond. destruct Hcond as [_ Hlt]. apply Z.ltb_lt in Hlt. lia.
  - destruct ((Z.of_nat (List.length rows) <? max_products)%Z
              && (attempts <? max_attempts)%Z) eqn:Hcond; [|discriminate].
    apply andb_prop in Hcond. destruct Hcond as [_ Hlt]. apply Z.ltb_lt in Hlt.
    assert (Hnext : forall rows0 queue0 w0,
               scrape_loop html_get_text world post_product_list post_product_detail
                           random_shuffle turns fuel categories max_products max_attempts
                           rows0 queue0 (attempts + 1)%Z w0 <> Unfinished)
      by (intros; apply IH; lia).
    unfold refill. destruct queue as [|slug queue'].
    + pose proof (Hcollect (Z.min 50 (max_attempts - attempts + 10)) w) as Hc.
      destruct (collect_random_slugs world post_product_list random_shuffle fuel
                  categories (Z.min 50 (max_attempts - attempts + 10)) w)
        as [new_slugs w1| |]; [|discriminate|contradiction].
      cbn [app]. destruct (filter _ new_slugs) as [|slug queue']; [discriminate|].
      unfold fetch_product_data.
      destruct (post_product_detail slug w1) as [[data|] w2]; [|apply Hnext].
      destruct (Py.get data "product" PNone) as [prod|]; [|discriminate].
      destruct (build_row html_get_text (Py.str slug) prod);
        destruct prod; try apply Hnext; discriminate.
    + unfold fetch_product_data.
      destruct (post_product_detail slug w) as [[data|] w2]; [|apply Hnext].
      destruct (Py.get data "product" PNone) as [prod|]; [|discriminate].
      destruct (build_row html_get_text (Py.str slug) prod);
        destruct prod; try apply Hnext; discriminate.
Qed.

End ScrapeLoop.

(** X11. Every row [scrape_products] returns is accepted by
    [validate_completeness] and was built for a slug from the product that
    [fetch_product_data] returned for that slug; the rows are at most
    [max_products], none when [max_products] is not positive. *)
Theorem scrape_products_rows_complete (html_get_text : string -> string)
        (world : Type)
        (post_product_list : string -> Z -> Z -> world -> option pyval * world)
        (post_product_detail : pyval -> world -> option pyval * world)
        (random_shuffle : list pyval -> world -> list pyval * world)
        (turns fuel : nat) (categories : option (list string)) (max_products : Z)
        (w w' : world) (rows : list row) :
  scrape_products html_get_text world post_product_list post_product_detail
                  random_shuffle turns fuel categories max_products w
  = Returns rows w' ->
  Forall (complete_row html_get_text post_product_detail) rows /\
  (Z.of_nat (List.length rows) <= Z.max 0 max_products)%Z.
Proof.
  unfold scrape_products. intro H.
  eapply scrape_loop_rows; [| |exact H]; [constructor|cbn; lia].
Qed.

Lemma scrape_products_rows_complete_witness :
  scrape_products Str.strip requests sample_list sample_detail sample_shuffle
                  10 3 (Some ["skin-care"]) 2 0
  = Returns [nivea_soft_row; nivea_soft_row] 7 /\
  Forall (complete_row Str.strip sample_detail) [nivea_soft_row; nivea_soft_row] /\
  (Z.of_nat (List.length [nivea_soft_row; nivea_soft_row]) <= Z.max 0 2)%Z.
Proof.
  split; [vm_compute; reflexivity|].
  apply (scrape_products_rows_complete Str.strip requests sample_list sample_detail
           sample_shuffle 10 3 (Some ["skin-care"]) 2 0 7).
  vm_compute. reflexivity.
Defined.

(** X12. The loop of [scrape_products] ends within [max_products * 5]
    turns, provided every call of [collect_random_slugs] ends: it fetches
    at most that many products. *)
Theorem scrape_products_ends (html_get_text : string -> string)
        (world : Type)
        (post_product_list : string -> Z -> Z -> world -> option pyval * world)
        (post_product_detail : pyval -> world -> option pyval * world)
        (random_shuffle : list pyval -> world -> list pyval * world)
        (turns fuel : nat) (categories : list string) (max_products : Z) (w : world) :
  (forall batch_size w0,
      collect_random_slugs world post_product_list random_shuffle fuel categories
                           batch_size w0 <> Unfinished) ->
  Z.to_nat (max_products * 5) <= turns ->
  scrape_products html_get_text world post_product_list post_product_detail
                  random_shuffle turns fuel (Some categories) max_products w
  <> Unfinished.
Proof.
  intros Hcollect Hturns. unfold scrape_products.
  apply scrape_loop_ends; [exact Hcollect|].
  now rewrite Z.sub_0_r.
Qed.

(** On the sample shop two turns per category are enough. *)
Lemma sample_collect_ends (batch_size : Z) (w0 : requests) :
  collect_random_slugs requests sample_list sample_shuffle 2 ["skin-care"] batch_size w0
  <> Unfinished.
Proof.
  unfold collect_random_slugs, collect_categories, get_product_slugs.
  cbn [slug_pages].
  destruct (0 <? _)%Z; [|destruct (dict_fromkeys _); [destruct (_ >? _)%Z|]; discriminate].
  cbn [sample_list]. change (1 =? 1)%Z with true. cbn iota.
  destruct (read_page _ _ [] 0) as [[[slugs1 total1]|]|];
    [|destruct (dict_fromkeys _); [destruct (_ >? _)%Z|]; discriminate|discriminate].
  destruct (total1 <? _)%Z;
    [|destruct (dict_fromkeys _); [destruct (_ >? _)%Z|]; discriminate].
  change (1 + 1 =? 1)%Z with false. cbn iota.
  change (read_page (PDict [("results", PList [])]) _ slugs1 total1) with
    (@Ok (option (list pyval * Z)) None). cbn iota.
  destruct (dict_fromkeys _); [destruct (_ >? _)%Z|]; discriminate.
Qed.

Lemma scrape_products_ends_witness :
  scrape_products Str.strip requests sample_list sample_detail sample_shuffle
                  10 2 (Some ["skin-care"]) 2 0
  <> Unfinished.
Proof.
  apply (scrape_products_ends Str.strip requests sample_list sample_detail
           sample_shuffle 10 2 ["skin-care"] 2 0 sample_collect_ends).
  vm_compute. lia.
Defined.

(** X13. With an empty list of categories and a positive [max_products],
    [scrape_products] raises [ZeroDivisionError] at the first refill of
    the queue, before any request is made. *)
Theorem scrape_products_no_category (html_get_text : string -> string)
        (world : Type)
        (post_product_list : string -> Z -> Z -> world -> option pyval * world)
        (post_product_detail : pyval -> world -> option pyval * world)
        (random_shuffle : list pyval -> world -> list pyval * world)
        (turns fuel : nat) (max_products : Z) (w : world) :
  (1 <= max_products)%Z ->
  scrape_products html_get_text world post_product_list post_product_detail
                  random_shuffle (S turns) fuel (Some []) max_products w
  = Raises ZeroDivisionError.
Proof.
  intro Hpos. unfold scrape_products. cbn [scrape_loop List.length Z.of_nat].
  assert (H1 : (0 <? max_products)%Z = true) by (apply Z.ltb_lt; lia).
  assert (H2 : (0 <? max_products * 5)%Z = true) by (apply Z.ltb_lt; lia).
  rewrite H1, H2. reflexivity.
Qed.

Lemma scrape_products_no_category_witness :
  scrape_products Str.strip requests sample_list sample_detail sample_shuffle
                  10 3 (Some []) 5 0
  = Raises ZeroDivisionError.
Proof.
  apply (scrape_products_no_category Str.strip requests sample_list sample_detail
           sample_shuffle 9 3 5 0).
  lia.
Defined.

(** A product whose details are [null] is never turned into a row. *)
Lemma build_row_null_details (html_get_text : string -> string) (slug : string)
      (d : list (string * pyval)) :
  Py.lookup d "details" = Some PNone ->
  exists e, build_row html_get_text slug (PDict d) = Raise e.
Proof.
  intro Hdetails. unfold build_row. cbn [Py.get bind].
  destruct (match Py.lookup d "brand" with Some x => x | None => PDict [] end)
    as [| | | | |brand]; try (eexists; reflexivity).
  cbn [Py.get bind].
  destruct (match Py.lookup d "images" with Some x => x | None => PDict [] end)
    as [| | | | |images]; try (eexists; reflexivity).
  cbn [Py.values bind]. rewrite Hdetails.
  change (extract_detail html_get_text PNone "General Information") with (@Ok string "").
  change (extract_detail html_get_text PNone "Ingredients") with (@Ok string "").
  cbn [bind].
  assert (Hsize : extract_size_volume (PDict d) = Raise TypeError).
  { unfold extract_size_volume. destruct d as [|kv d]; [discriminate Hdetails|].
    cbn [Py.truthy negb]. unfold search_fields. cbn [Py.get bind].
    rewrite Hdetails. reflexivity. }
  rewrite Hsize. eexists. reflexivity.
Qed.

(** X14. A fetched product whose ["details"] is [null] ends
    [scrape_products] with the exception of the core: when the first slug
    of the first batch is such a product, the call raises and returns no
    row. *)
Theorem scrape_products_null_details (html_get_text : string -> string)
        (world : Type)
        (post_product_list : string -> Z -> Z -> world -> option pyval * world)
        (post_product_detail : pyval -> world -> option pyval * world)
        (random_shuffle : list pyval -> world -> list pyval * world)
        (turns fuel : nat) (categories : list string) (max_products : Z)
        (w w1 w2 : world) (slug : pyval) (rest : list pyval)
        (data : pyval) (d : list (string * pyval)) :
  (1 <= max_products)%Z ->
  collect_random_slugs world post_product_list random_shuffle fuel categories
                       (Z.min 50 (max_products * 5 - 0 + 10)) w
  = Returns (slug :: rest) w1 ->
  post_product_detail slug w1 = (Some data, w2) ->
  Py.get data "product" PNone = Ok (PDict d) ->
  Py.lookup d "details" = Some PNone ->
  exists e,
    scrape_products html_get_text world post_product_list post_product_detail
                    random_shuffle (S turns) fuel (Some categories) max_products w
    = Raises (CoreError e).
Proof.
  intros Hpos Hcollect Hpost Hprod Hdetails.
  destruct (build_row_null_details html_get_text (Py.str slug) d Hdetails) as [e He].
  exists e. unfold scrape_products. cbn [scrape_loop List.length Z.of_nat].
  assert (H1 : (0 <? max_products)%Z = true) by (apply Z.ltb_lt; lia).
  assert (H2 : (0 <? max_products * 5)%Z = true) by (apply Z.ltb_lt; lia).
  rewrite H1, H2. cbn [andb]. unfold refill. rewrite Hcollect.
  cbn [app existsb negb filter]. unfold fetch_product_data.
  rewrite Hpost, Hprod, He. reflexivity.
Qed.

Lemma scrape_products_null_details_witness :
  exists e,
    scrape_products Str.strip requests sample_list broken_detail sample_shuffle
                    10 3 (Some ["skin-care"]) 2 0
    = Raises (CoreError e).
Proof.
  apply (scrape_products_null_details Str.strip requests sample_list broken_detail
           sample_shuffle 9 3 ["skin-care"] 2 0 2 3
           (PStr "nivea-soft") [PStr "hand-cream"]
           (PDict [("product", PDict [("name", PStr "Hand Cream 50ml"); ("details", PNone)])])
           [("name", PStr "Hand Cream 50ml"); ("details", PNone)]);
    try reflexivity. lia.
Defined.

(* ===================================================================== *)
(** ** The text a match consumes *)
(* ===================================================================== *)

Lemma take_app_length (u s' : string) :
  Str.take (String.length (u ++ s') - String.length s') (u ++ s') = u.
Proof.
  induction u as [|c u IH]; cbn [append String.length].
  - rewrite Nat.sub_diag. destruct s'; reflexivity.
  - replace (S (String.length (u ++ s')) - String.length s')
      with (S (String.length (u ++ s') - String.length s')).
    + cbn [Str.take]. now rewrite IH.
    + assert (String.length s' <= String.length (u ++ s')).
      { clear. induction u as [|c u IH]; cbn [append String.length]; lia. }
      lia.
Qed.

Lemma star_consumes {A : Type} (p : ascii -> bool) (a : Re.atom) (s : string) :
  (forall c, Re.atom_matches true a c = true -> p c = true) ->
  forall (prev : option ascii) (k : option ascii -> string -> option A) (x : A),
    Re.star true a prev s k = Some x ->
    exists u prev' s', s = u ++ s' /\ all_chars p u = true /\ k prev' s' = Some x.
Proof.
  intro Ha. induction s as [|c s IH]; intros prev k x H; cbn [Re.star] in H.
  - exists "", prev, "". auto.
  - destruct (Re.atom_matches true a c) eqn:Hc; [|exists "", prev, (String c s); auto].
    destruct (Re.star true a (Some c) s k) eqn:Hstar.
    + injection H as <-. apply IH in Hstar. destruct Hstar as [u [p' [s' [-> [Hu Hk]]]]].
      exists (String c u), p', s'. cbn [append all_chars]. rewrite (Ha c Hc), Hu. auto.
    + exists "", prev, (String c s). auto.
Qed.

(** A successful match consumes a prefix of the text made of characters
    its atoms match, and leaves the groups it does not hold unchanged. *)
Lemma run_consumes (p : ascii -> bool) (r : Re.regex) :
  within p r ->
  forall (A : Type) (prev : option ascii) (s : string) (caps : Re.captures)
         (k : option ascii -> string -> Re.captures -> option A) (x : A),
    Re.run true A r prev s caps k = Some x ->
    exists u prev' s' caps',
      s = u ++ s' /\ all_chars p u = true /\ k prev' s' caps' = Some x /\
      (forall n, binds r n = false -> Re.group caps' n = Re.group caps n).
Proof.
  induction r as [|a|r1 IH1 r2 IH2|r1 IH1 r2 IH2|r1 IH1|a|a|n r1 IH1|r1 IH1|];
    intros Hw A prev s caps k x H; cbn [within] in Hw; cbn [Re.run] in H.
  - exists "", prev, s, caps. auto.
  - destruct s as [|c s]; [discriminate|].
    destruct (Re.atom_matches true a c) eqn:Hc; [|discriminate].
    exists (String c ""), (Some c), s, caps. cbn. rewrite (Hw c Hc). auto.
  - destruct Hw as [Hw1 Hw2].
    apply (IH1 Hw1) in H. destruct H as [u1 [p1 [s1 [c1 [-> [Hu1 [H Hc1]]]]]]].
    apply (IH2 Hw2) in H. destruct H as [u2 [p2 [s2 [c2 [-> [Hu2 [H Hc2]]]]]]].
    exists (u1 ++ u2), p2, s2, c2. rewrite str_append_assoc, all_chars_app, Hu1, Hu2.
    repeat split; try assumption.
    intros n Hn. cbn [binds] in Hn. apply orb_false_elim in Hn. destruct Hn.
    rewrite Hc2, Hc1; auto.
  - destruct Hw as [Hw1 Hw2]. destruct (Re.run true A r1 prev s caps k) eqn:H1.
    + injection H as <-. apply (IH1 Hw1) in H1.
      destruct H1 as [u [p1 [s1 [c1 [-> [Hu [H Hc1]]]]]]].
      exists u, p1, s1, c1. repeat split; try assumption.
      intros n Hn. cbn [binds] in Hn. apply orb_false_elim in Hn. destruct Hn. auto.
    + apply (IH2 Hw2) in H. destruct H as [u [p2 [s2 [c2 [-> [Hu [H Hc2]]]]]]].
      exists u, p2, s2, c2. repeat split; try assumption.
      intros n Hn. cbn [binds] in Hn. apply orb_false_elim in Hn. destruct Hn. auto.
  - destruct (Re.run true A r1 prev s caps k) eqn:H1.
    + injection H as <-. exact (IH1 Hw _ _ _ _ _ _ H1).
    + exists "", prev, s, caps. auto.
  - apply (star_consumes p a s Hw) in H. destruct H as [u [p' [s' [-> [Hu H]]]]].
    exists u, p', s', caps. auto.
  - destruct s as [|c s]; [discriminate|].
    destruct (Re.atom_matches true a c) eqn:Hc; [|discriminate].
    apply (star_consumes p a s Hw) in H. destruct H as [u [p' [s' [-> [Hu H]]]]].
    exists (String c u), p', s', caps. cbn [append all_chars]. rewrite (Hw c Hc), Hu. auto.
  - apply (IH1 Hw) in H. destruct H as [u [p1 [s1 [c1 [-> [Hu [H Hc1]]]]]]].
    eexists u, p1, s1, _. split; [reflexivity|]. split; [exact Hu|]. split; [exact H|].
    intros m Hm. cbn [binds] in Hm. apply orb_false_elim in Hm. destruct Hm as [Hnm Hm].
    cbn [Re.group]. rewrite Hnm. auto.
  - destruct (Re.run true unit r1 prev s caps (fun _ _ _ => Some tt)); [discriminate|].
    exists "", prev, s, caps. auto.
  - destruct (Re.at_word_boundary prev s); [|discriminate].
    exists "", prev, s, caps. auto.
Qed.

(** Matching a literal word is reading it. *)
Lemma run_lit {A : Type} (ic : bool) (w : string) :
  forall (prev : option ascii) (s : string) (caps : Re.captures)
         (k : option ascii -> string -> Re.captures -> option A),
    Re.run ic A (Re.lit w) prev s caps k =
    match eat ic w prev s with
    | Some (prev', s') => k prev' s' caps
    | None => None
    end.
Proof.
  induction w as [|c w IH]; intros prev s caps k; [reflexivity|].
  destruct w as [|d w].
  - cbn [Re.lit Re.run eat]. destruct s as [|x s]; [reflexivity|].
    destruct (Re.atom_matches ic (Re.Chr c) x); reflexivity.
  - change (Re.lit (String c (String d w)))
      with (Re.Seq (Re.One (Re.Chr c)) (Re.lit (String d w))).
    cbn [Re.run]. cbn [eat]. destruct s as [|x s]; [reflexivity|].
    destruct (Re.atom_matches ic (Re.Chr c) x); [|reflexivity].
    rewrite IH. reflexivity.
Qed.

Lemma eat_longer (ic : bool) (w1 w2 : string) :
  forall prev s, eat ic w1 prev s = None -> eat ic (w1 ++ w2) prev s = None.
Proof.
  induction w1 as [|c w1 IH]; intros prev s H; [discriminate H|].
  cbn [append eat] in *. destruct s as [|x s]; [reflexivity|].
  destruct (Re.atom_matches ic (Re.Chr c) x); [now apply IH|reflexivity].
Qed.

Lemma lower_nocase (p c : ascii) :
  Char.eqb_nocase p c = true -> Char.lower c = Char.lower p.
Proof. unfold Char.eqb_nocase. intro H. apply Ascii.eqb_eq in H. now symmetry. Qed.

(** What was read is the word, but for the case. *)
Lemma eat_text (w : string) :
  forall prev s prev' s',
    eat true w prev s = Some (prev', s') ->
    exists u, s = u ++ s' /\ Str.lower u = Str.lower w.
Proof.
  induction w as [|p w IH]; intros prev s prev' s' H; cbn [eat] in H.
  - injection H as _ <-. exists "". auto.
  - destruct s as [|c s]; [discriminate|]. cbn [Re.atom_matches] in H.
    destruct (Char.eqb_nocase p c) eqn:Hc; [|discriminate].
    apply IH in H. destruct H as [u [-> Hu]].
    exists (String c u). split; [reflexivity|].
    unfold Str.lower in *. cbn [Str.map]. now rewrite Hu, (lower_nocase _ _ Hc).
Qed.

(* ===================================================================== *)
(** ** The unit of a size *)
(* ===================================================================== *)

Lemma run_Group {A : Type} (ic : bool) (n : nat) (r : Re.regex) (prev : option ascii)
      (s : string) (caps : Re.captures)
      (k : option ascii -> string -> Re.captures -> option A) :
  Re.run ic A (Re.Group n r) prev s caps k =
  Re.run ic A r prev s caps
    (fun prev' s' caps' =>
       k prev' s' ((n, Str.take (String.length s - String.length s') s) :: caps')).
Proof. reflexivity. Qed.

Lemma run_Alt {A : Type} (ic : bool) (r1 r2 : Re.regex) (prev : option ascii)
      (s : string) (caps : Re.captures)
      (k : option ascii -> string -> Re.captures -> option A) :
  Re.run ic A (Re.Alt r1 r2) prev s caps k =
  match Re.run ic A r1 prev s caps k with
  | Some x => Some x
  | None => Re.run ic A r2 prev s caps k
  end.
Proof. reflexivity. Qed.

Lemma run_Seq {A : Type} (ic : bool) (r1 r2 : Re.regex) (prev : option ascii)
      (s : string) (caps : Re.captures)
      (k : option ascii -> string -> Re.captures -> option A) :
  Re.run ic A (Re.Seq r1 r2) prev s caps k =
  Re.run ic A r1 prev s caps (fun prev' s' caps' => Re.run ic A r2 prev' s' caps' k).
Proof. reflexivity. Qed.

(** The last literal alternative of a group. *)
Lemma unit_last {A : Type} (w : string) (p : option ascii) (s : string)
      (c : Re.captures) (k : option ascii -> string -> Re.captures -> option A) (x : A) :
  match eat true w p s with
  | Some (prev', s') =>
      k prev' s' ((2, Str.take (String.length s - String.length s') s) :: c)
  | None => None
  end = Some x ->
  eat true w p s <> None /\
  exists u p' s', k p' s' ((2, u) :: c) = Some x /\ Str.lower u = Str.lower w.
Proof.
  destruct (eat true w p s) as [[p' s']|] eqn:He; [|discriminate].
  intro H. split; [discriminate|].
  destruct (eat_text _ _ _ _ _ He) as [u [-> Hu]].
  rewrite take_app_length in H. eauto.
Qed.

(** A literal alternative of a group whose continuation always succeeds:
    it gives the unit when it is read, and the next ones are tried only
    when it is not. *)
Lemma unit_step {A : Type} (w : string) (p : option ascii) (s : string)
      (c : Re.captures) (k : option ascii -> string -> Re.captures -> option A)
      (rest : option A) (x : A) :
  (forall p0 s0 c0, k p0 s0 c0 <> None) ->
  match
    match eat true w p s with
    | Some (prev', s') =>
        k prev' s' ((2, Str.take (String.length s - String.length s') s) :: c)
    | None => None
    end
  with
  | Some y => Some y
  | None => rest
  end = Some x ->
  (eat true w p s <> None /\
   exists u p' s', k p' s' ((2, u) :: c) = Some x /\ Str.lower u = Str.lower w)
  \/ (eat true w p s = None /\ rest = Some x).
Proof.
  intros Hk H. destruct (eat true w p s) as [[p' s']|] eqn:He; [|right; auto].
  left. split; [discriminate|].
  destruct (k p' s' ((2, Str.take (String.length s - String.length s') s) :: c)) eqn:Hk1;
    [|exfalso; exact (Hk _ _ _ Hk1)].
  injection H as <-.
  destruct (eat_text _ _ _ _ _ He) as [u [-> Hu]].
  rewrite take_app_length in Hk1. eauto.
Qed.

Lemma take_app_more (u s' s3 : string) :
  String.length s3 <= String.length s' ->
  Str.take (String.length (u ++ s') - String.length s3) (u ++ s')
  = u ++ Str.take (String.length s' - String.length s3) s'.
Proof.
  intro Hl. induction u as [|c u IH]; [reflexivity|].
  cbn [append String.length].
  assert (Hlen : String.length s3 <= String.length (u ++ s')).
  { clear IH. induction u as [|d u IH]; cbn [append String.length]; lia. }
  rewrite Nat.sub_succ_l by exact Hlen. cbn [Str.take]. now rewrite IH.
Qed.

Lemma some_eq {A : Type} (a b : A) : Some a = Some b -> a = b.
Proof. now intros [= ->]. Qed.

Lemma alts_cons (r r' : Re.regex) (rs : list Re.regex) :
  Re.alts r (r' :: rs) = Re.Alt r (Re.alts r' rs).
Proof. reflexivity. Qed.

Lemma alts_nil (r : Re.regex) : Re.alts r [] = r.
Proof. reflexivity. Qed.

(** The unit of each pattern, in a group whose continuation always
    succeeds, as at the end of a size pattern. *)
Lemma size_unit {A : Type} (pattern alternatives : Re.regex) :
  In pattern size_patterns ->
  unit_part pattern = Some alternatives ->
  forall (p : option ascii) (s : string) (c : Re.captures)
         (k : option ascii -> string -> Re.captures -> option A) (x : A),
    (forall p0 s0 c0, k p0 s0 c0 <> None) ->
    Re.run true A (Re.Group 2 alternatives) p s c k = Some x ->
    exists u p' s' c',
      k p' s' ((2, u) :: c') = Some x /\ unit_ok u = true /\
      Re.group c' 1 = Re.group c 1.
Proof.
  intros Hin Hpart p s c k x Hk H. unfold size_patterns in Hin. cbn [In] in Hin.
  destruct Hin as [<- | [<- | [<- | [<- | [<- | [<- | [<- | []]]]]]]];
    cbv beta iota delta [unit_part size_pattern decimal_number whole_number] in Hpart;
    apply some_eq in Hpart; subst alternatives;
    rewrite run_Group in H; rewrite ?alts_cons, ?alts_nil in H;
    rewrite ?run_Alt, ?run_lit in H.
  - unit_alive (@unit_step) H Hk.
    unit_dead (@unit_step) eat_longer H Hk Hnone "". apply unit_last in H. destruct H as [Hsome _].
    exfalso. apply Hsome. exact (eat_longer true "ml" "" _ _ Hnone).
  - unit_alive (@unit_step) H Hk.
    unit_dead (@unit_step) eat_longer H Hk Hnone "m". unit_dead (@unit_step) eat_longer H Hk Hnone "m". unit_dead (@unit_step) eat_longer H Hk Hnone "ram".
    apply unit_last in H. destruct H as [Hsome _].
    exfalso. apply Hsome. exact (eat_longer true "g" "rams" _ _ Hnone).
  - unit_alive (@unit_step) H Hk.
    unit_dead (@unit_step) eat_longer H Hk Hnone "".
    change (Re.seqs (Re.lit "fl")
              [Re.Opt (Re.One (Re.Chr ".")); Re.Star Re.Space; Re.lit "oz"])
      with (Re.Seq (Re.lit "fl")
              (Re.Seq (Re.Opt (Re.One (Re.Chr ".")))
                      (Re.Seq (Re.Star Re.Space) (Re.lit "oz")))) in H.
    rewrite run_Seq, run_lit in H.
    destruct (eat true "fl" p s) as [[p1 s1]|] eqn:Hfl; [|discriminate H].
    apply run_shrinks in H. destruct H as [p3 [s3 [c3 [H [Hlen Hkeep]]]]].
    destruct (eat_text _ _ _ _ _ Hfl) as [u [-> Hu]].
    rewrite take_app_more in H by exact Hlen.
    eexists _, _, _, _. split; [exact H|]. split; [|apply Hkeep; reflexivity].
    unfold unit_ok, Str.lower. rewrite str_map_app. fold (Str.lower u). rewrite Hu.
    cbn. apply orb_true_r.
  - unit_alive (@unit_step) H Hk.
    unit_dead (@unit_step) eat_longer H Hk Hnone "". unit_dead (@unit_step) eat_longer H Hk Hnone "iter".
    apply unit_last in H. destruct H as [Hsome _].
    exfalso. apply Hsome. exact (eat_longer true "l" "itre" _ _ Hnone).
  - unit_alive (@unit_step) H Hk.
    unit_dead (@unit_step) eat_longer H Hk Hnone "s".
    unit_alive (@unit_step) H Hk.
    unit_dead (@unit_step) eat_longer H Hk Hnone0 "ule".
    apply unit_last in H. destruct H as [Hsome _].
    exfalso. apply Hsome. exact (eat_longer true "caps" "ules" _ _ Hnone0).
  - unit_alive (@unit_step) H Hk. unit_alive (@unit_step) H Hk. unit_alive (@unit_step) H Hk.
    apply unit_last in H. destruct H as [_ [u [p' [s' [Hk1 Hu]]]]].
    eexists _, _, _, _. split; [exact Hk1|]. split; [|reflexivity]. unit_found Hu.
  - unit_alive (@unit_step) H Hk.
    unit_dead (@unit_step) eat_longer H Hk Hnone "".
    apply unit_last in H. destruct H as [_ [u [p' [s' [Hk1 Hu]]]]].
    eexists _, _, _, _. split; [exact Hk1|]. split; [|reflexivity]. unit_found Hu.
Qed.

Lemma dot_nocase (c : ascii) :
  Char.eqb_nocase "."%char c = true -> Ascii.eqb c "."%char = true.
Proof.
  destruct c as [[] [] [] [] [] [] [] []]; vm_compute; intro H;
    first [reflexivity | discriminate H].
Qed.

Lemma size_pattern_parts (pattern : Re.regex) :
  In pattern size_patterns ->
  exists number alternatives,
    pattern = Re.Seq (Re.Group 1 number)
                     (Re.Seq (Re.Star Re.Space) (Re.Group 2 alternatives)) /\
    unit_part pattern = Some alternatives /\
    within digit_or_dot number.
Proof.
  assert (Hdigit : forall c, Re.atom_matches true Re.Digit c = true -> digit_or_dot c = true)
    by (intros c Hc; cbn in Hc; unfold digit_or_dot; now rewrite Hc).
  assert (Hdot : forall c, Re.atom_matches true (Re.Chr ".") c = true -> digit_or_dot c = true)
    by (intros c Hc; cbn in Hc; apply dot_nocase in Hc; unfold digit_or_dot;
        rewrite Hc; apply orb_true_r).
  unfold size_patterns. cbn [In].
  intros [<- | [<- | [<- | [<- | [<- | [<- | [<- | []]]]]]]];
    eexists _, _; (split; [reflexivity|]); (split; [reflexivity|]);
    cbn [within]; auto.
Qed.

(** A match of a size pattern: its number is made of digits and periods
    and its unit is one the patterns can end on. *)
Lemma size_match_parts (text : string) (m : Re.rmatch) :
  first_pattern_match size_patterns text = Some m ->
  exists number unit_,
    Re.group_of m 1 = Some number /\ Re.group_of m 2 = Some unit_ /\
    all_chars digit_or_dot number = true /\ unit_ok unit_ = true.
Proof.
  intro H. apply first_pattern_match_in in H. destruct H as [pattern [Hin Hs]].
  apply search_from_match_at in Hs. destruct Hs as [prev [s Hs]].
  destruct (size_pattern_parts pattern Hin) as [number [alternatives [Hshape [Hpart Hw]]]].
  unfold Re.match_at in Hs. rewrite Hshape in Hs.
  rewrite run_Seq, run_Group in Hs.
  apply (run_consumes digit_or_dot number Hw) in Hs.
  destruct Hs as [u [p1 [s1 [c1 [-> [Hu [Hs _]]]]]]].
  rewrite take_app_length, run_Seq in Hs.
  change (Re.run true Re.rmatch (Re.Star Re.Space) p1 s1 ((1, u) :: c1) ?k)
    with (Re.star true Re.Space p1 s1 (fun prev' s' => k prev' s' ((1, u) :: c1))) in Hs.
  apply star_shrinks in Hs. destruct Hs as [p2 [s2 [Hs _]]].
  cbv beta in Hs.
  apply (size_unit pattern alternatives Hin Hpart) in Hs; [|discriminate].
  destruct Hs as [unit_ [p3 [s3 [c3 [Hm [Hunit Hkeep]]]]]].
  injection Hm as <-. exists u, unit_. unfold Re.group_of. cbn [Re.groups Re.group Nat.eqb].
  rewrite Hkeep. cbn [Re.group Nat.eqb]. auto.
Qed.

Lemma search_fields_loop_parts (fields : list pyval) (size : string) :
  search_fields_loop fields = Ok size ->
  size = "N/A" \/
  exists number unit_,
    size = number ++ unit_ /\ all_chars digit_or_dot number = true /\
    unit_ok unit_ = true.
Proof.
  induction fields as [|v fields IH]; cbn [search_fields_loop].
  - intros [= <-]. now left.
  - destruct (Py.truthy v) eqn:Hv; [|exact IH].
    unfold search_text_for_patterns. rewrite Hv. cbn [negb].
    destruct v; try discriminate. cbn [bind].
    destruct (first_pattern_match size_patterns s) as [m|] eqn:Hm; [|exact IH].
    intros [= <-]. right.
    destruct (size_match_parts _ _ Hm) as [number [unit_ [H1 [H2 [Hn Hu]]]]].
    exists number, unit_. unfold format_group. rewrite H1, H2. auto.
Qed.

(** X15. A size that [extract_size_volume] returns, when it is not
    ["N/A"], is a number of digits and periods followed at once by a unit:
    the blanks between the two are dropped, and the unit is, up to case,
    one of ml, g, oz, l, tablet, caps, count, ct, pieces, pcs, kg and
    kilogram, or begins with fl.  The longer spellings in the patterns
    (gm, gram, grams, liter, litre, tablets, capsule, capsules) are never
    reported: a shorter alternative before them always wins. *)
Theorem extract_size_volume_number_unit (product_data : pyval) (size : string) :
  extract_size_volume product_data = Ok size ->
  size = "N/A" \/
  exists number unit_,
    size = number ++ unit_ /\ all_chars digit_or_dot number = true /\
    unit_ok unit_ = true.
Proof.
  unfold extract_size_volume. destruct (Py.truthy product_data).
  - cbn [negb]. destruct (search_fields product_data) as [fields|]; [|discriminate].
    cbn [bind]. apply search_fields_loop_parts.
  - intros [= <-]. now left.
Qed.

Lemma extract_size_volume_number_unit_witness :
  extract_size_volume (PDict [("name", PStr "Omega 3 - 30 Capsules")]) = Ok "30Caps" /\
  ("30Caps" = "N/A" \/
   exists number unit_,
     "30Caps" = number ++ unit_ /\ all_chars digit_or_dot number = true /\
     unit_ok unit_ = true).
Proof.
  split; [vm_compute; reflexivity|].
  apply (extract_size_volume_number_unit
           (PDict [("name", PStr "Omega 3 - 30 Capsules")]) "30Caps").
  vm_compute. reflexivity.
Defined.


(* ===================================================================== *)
(** ** Spacing of the cleaned ingredients *)
(* ===================================================================== *)

Lemma leading_blanks_length (s : string) :
  String.length (Str.lstrip s) + leading_blanks s = String.length s.
Proof.
  induction s as [|c s IH]; [reflexivity|].
  cbn [Str.lstrip leading_blanks]. destruct (Char.isspace c); cbn [String.length]; lia.
Qed.

Lemma leading_blanks_none (s : string) :
  leading_blanks s = 0 -> starts_blank s = false.
Proof.
  destruct s as [|c s]; [reflexivity|]. cbn. now destruct (Char.isspace c).
Qed.

(** The greedy run of whitespace, when nothing after it can fail, stops
    where [lstrip] does. *)
Lemma star_blanks {A : Type} (s : string) :
  forall (prev : option ascii) (k : option ascii -> string -> option A),
    (forall p s0, k p s0 <> None) ->
    exists prev', Re.star false Re.Space prev s k = k prev' (Str.lstrip s).
Proof.
  induction s as [|c s IH]; intros prev k Hk; cbn [Re.star Str.lstrip].
  - now exists prev.
  - cbn [Re.atom_matches]. destruct (Char.isspace c); [|now exists prev].
    destruct (IH (Some c) k Hk) as [p Hp]. rewrite Hp.
    destruct (k p (Str.lstrip s)) eqn:Hkp; [|now apply Hk in Hkp].
    exists p. now rewrite Hkp.
Qed.

(** [\s+] at one position: the whole run of whitespace there. *)
Lemma spaces_match_at (prev : option ascii) (s : string) :
  Re.match_at false spaces prev s =
  match s with
  | String c s' =>
      if Char.isspace c
      then Some {| Re.span := S (leading_blanks s'); Re.groups := [] |}
      else None
  | EmptyString => None
  end.
Proof.
  unfold Re.match_at, spaces. cbn [Re.run]. destruct s as [|c s]; [reflexivity|].
  cbn [Re.atom_matches]. destruct (Char.isspace c); [|reflexivity].
  destruct (star_blanks s (Some c)
              (fun (_ : option ascii) (s' : string) =>
                 Some {| Re.span := String.length (String c s) - String.length s';
                         Re.groups := [] |})) as [p Hp]; [discriminate|].
  rewrite Hp. do 2 f_equal. pose proof (leading_blanks_length s).
  cbn [String.length]. lia.
Qed.

Lemma squeezed_starts_space (s : string) :
  squeezed s = true -> starts_blank s = true -> Str.startswith " " s = true.
Proof.
  destruct s as [|c s]; [discriminate|]. cbn [squeezed starts_blank Str.startswith].
  intros H Hc. rewrite Hc in H. apply andb_prop in H. destruct H as [H _].
  apply andb_prop in H. destruct H as [H _]. rewrite Ascii.eqb_sym, H. reflexivity.
Qed.

(** After [\s+] is replaced by one space, the text is squeezed; it begins
    with whitespace when the text read does, outside of a run being
    replaced. *)
Lemma sub_spaces_squeezed (s : string) :
  forall (skip : nat) (prev : option ascii),
    commas_blank s = true ->
    skip = 0 \/ skip = leading_blanks s ->
    squeezed (Re.sub_from false spaces " " skip prev s) = true /\
    starts_blank (Re.sub_from false spaces " " skip prev s)
    = Nat.eqb skip 0 && starts_blank s.
Proof.
  induction s as [|c s IH]; intros skip prev Hcommas Hskip; cbn [Re.sub_from].
  - rewrite spaces_match_at. destruct skip; split; reflexivity.
  - cbn [commas_blank] in Hcommas. apply andb_prop in Hcommas.
    destruct Hcommas as [Hc Hcommas].
    destruct skip as [|n].
    + rewrite spaces_match_at. cbn [starts_blank Nat.eqb andb].
      destruct (Char.isspace c) eqn:Hblank.
      * cbn [Re.span].
        destruct (IH (leading_blanks s) (Some c) Hcommas (or_intror eq_refl)) as [Hs Hb].
        assert (Hb' : starts_blank (Re.sub_from false spaces " " (leading_blanks s) (Some c) s)
                      = false).
        { rewrite Hb. destruct (leading_blanks s) eqn:Hl; [|reflexivity].
          cbn [Nat.eqb andb]. now apply leading_blanks_none. }
        cbn [append squeezed starts_blank]. rewrite Hb', Hs. split; reflexivity.
      * destruct (IH 0 (Some c) Hcommas (or_introl eq_refl)) as [Hs Hb].
        cbn [Nat.eqb andb] in Hb. cbn [squeezed starts_blank]. rewrite Hblank, Hs.
        split; [|reflexivity]. rewrite andb_true_r.
        destruct (Ascii.eqb c ",") eqn:Hcomma; [|reflexivity].
        apply squeezed_starts_space; [exact Hs|]. now rewrite Hb.
    + destruct Hskip as [Hskip | Hskip]; [discriminate Hskip|].
      cbn [leading_blanks] in Hskip.
      destruct (Char.isspace c); [|discriminate Hskip]. injection Hskip as Hn.
      destruct (IH n (Some c) Hcommas (or_intror Hn)) as [Hs Hb].
      split; [exact Hs|]. rewrite Hb. cbn [Nat.eqb andb].
      destruct n; [|reflexivity]. cbn [Nat.eqb andb]. apply leading_blanks_none. now symmetry.
Qed.

(** [\s*,\s*] matches at every comma. *)
Lemma spaced_comma_at_comma (prev : option ascii) (s : string) :
  Re.match_at false spaced_comma prev (String "," s) <> None.
Proof.
  unfold Re.match_at, spaced_comma. cbn [Re.run Re.star Re.atom_matches].
  change (Char.isspace ",") with false. change (Ascii.eqb "," ",") with true.
  cbv iota.
  destruct (star_blanks s (Some ","%char)
              (fun (_ : option ascii) (s' : string) =>
                 Some {| Re.span := String.length (String "," s) - String.length s';
                         Re.groups := [] |})) as [p Hp]; [discriminate|].
  rewrite Hp. discriminate.
Qed.

(** A match of [\s*,\s*] is not empty. *)
Lemma spaced_comma_span (prev : option ascii) (s : string) (m : Re.rmatch) :
  Re.match_at false spaced_comma prev s = Some m -> Re.span m <> 0.
Proof.
  unfold Re.match_at, spaced_comma. cbn [Re.run]. intro H.
  apply star_shrinks in H. destruct H as [p1 [s1 [H Hlen1]]].
  destruct s1 as [|c s1]; [discriminate H|].
  destruct (Re.atom_matches false (Re.Chr ",") c); [|discriminate H].
  apply star_shrinks in H. destruct H as [p2 [s2 [H Hlen2]]].
  injection H as <-. cbn [Re.span]. cbn [String.length] in Hlen1. lia.
Qed.

(** After [\s*,\s*] is replaced by a comma and a space, whitespace follows
    every comma. *)
Lemma sub_spaced_comma_blank (s : string) :
  forall (skip : nat) (prev : option ascii),
    commas_blank (Re.sub_from false spaced_comma ", " skip prev s) = true.
Proof.
  induction s as [|c s IH]; intros skip prev; cbn [Re.sub_from].
  - destruct skip; [|reflexivity].
    now destruct (Re.match_at false spaced_comma prev "").
  - destruct skip as [|n]; [|apply IH].
    destruct (Re.match_at false spaced_comma prev (String c s)) as [m|] eqn:Hm.
    + destruct (Re.span m) as [|n] eqn:Hspan; [now apply spaced_comma_span in Hm|].
      cbn [append commas_blank starts_blank]. now rewrite IH.
    + cbn [commas_blank]. rewrite IH, andb_true_r.
      destruct (Ascii.eqb c ",") eqn:Hc; [|reflexivity].
      apply Ascii.eqb_eq in Hc. subst c. now apply spaced_comma_at_comma in Hm.
Qed.

Lemma rstrip_set_prefix (p : ascii -> bool) (s : string) :
  exists suffix, s = Str.rstrip_set p s ++ suffix.
Proof.
  induction s as [|c s [suffix IH]]; [now exists ""|].
  cbn [Str.rstrip_set]. destruct (Str.rstrip_set p s) as [|y r].
  - destruct (p c).
    + now exists (String c s).
    + exists s. reflexivity.
  - exists suffix. cbn [append] in *. congruence.
Qed.

Lemma lstrip_squeezed (s : string) :
  squeezed s = true ->
  squeezed (Str.lstrip s) = true /\ starts_blank (Str.lstrip s) = false.
Proof.
  induction s as [|c s IH]; [now split|].
  intro H. cbn [Str.lstrip]. destruct (Char.isspace c) eqn:Hc.
  - apply IH. cbn [squeezed] in H. now apply andb_prop in H.
  - split; [exact H|]. exact Hc.
Qed.

(** A squeezed text cut before a comma or a space at its end is tidy. *)
Lemma squeezed_prefix_tidy (r suffix : string) :
  squeezed (r ++ suffix) = true ->
  (forall c, last_char r = Some c -> comma_or_space c = false) ->
  tidy r = true.
Proof.
  induction r as [|c r IH]; [reflexivity|].
  cbn [append squeezed tidy]. intros H Hlast.
  apply andb_prop in H. destruct H as [Hc H].
  destruct r as [|d r].
  - specialize (Hlast c eq_refl). unfold comma_or_space in Hlast.
    apply orb_false_elim in Hlast. destruct Hlast as [Hcomma Hspace].
    rewrite Hcomma. cbn [tidy]. rewrite andb_true_r.
    destruct (Char.isspace c); [|reflexivity].
    rewrite Hspace in Hc. discriminate Hc.
  - rewrite (IH H) by (intros x Hx; apply Hlast; exact Hx).
    rewrite andb_true_r. cbn [append starts_blank Str.startswith] in Hc.
    cbn [starts_word Str.startswith]. exact Hc.
Qed.

Lemma tidy_punctuation_tidy (s : string) :
  tidy (tidy_punctuation s) = true /\ starts_blank (tidy_punctuation s) = false.
Proof.
  unfold tidy_punctuation, Str.strip, Str.rstrip.
  set (u := Re.sub spaced_comma ", " (Re.sub comma_run "," s)).
  set (v := Re.sub spaces " " u).
  assert (Hv : squeezed v = true).
  { apply (sub_spaces_squeezed u 0 None); [|now left]. apply sub_spaced_comma_blank. }
  apply lstrip_squeezed in Hv. destruct Hv as [Hv Hstart].
  destruct (rstrip_set_prefix Char.isspace (Str.lstrip v)) as [suffix1 H1].
  destruct (rstrip_set_prefix comma_or_space (Str.rstrip_set Char.isspace (Str.lstrip v)))
    as [suffix2 H2].
  set (t := Str.rstrip_set comma_or_space (Str.rstrip_set Char.isspace (Str.lstrip v))) in *.
  assert (Hcut : Str.lstrip v = t ++ (suffix2 ++ suffix1)).
  { rewrite H1 at 1. rewrite H2 at 1. clear. induction t as [|c t IH]; [reflexivity|].
    cbn [append]. now rewrite IH. }
  split.
  - apply (squeezed_prefix_tidy t (suffix2 ++ suffix1)).
    + now rewrite <- Hcut.
    + intro c. apply rstrip_set_last.
  - rewrite Hcut in Hstart. destruct t as [|c t]; [reflexivity|]. exact Hstart.
Qed.

(** X16. The spacing of what [clean_ingredients] returns, for any text and
    any parser: it does not begin with whitespace, every whitespace
    character in it is one space followed by a character that is not
    whitespace, and every comma in it is followed by a space. *)
Theorem clean_ingredients_spacing (html_get_text : string -> string) (x : string) :
  tidy (clean_ingredients html_get_text x) = true /\
  starts_blank (clean_ingredients html_get_text x) = false.
Proof.
  unfold clean_ingredients.
  destruct (negb (Str.nonempty x) || String.eqb x "N/A") eqn:Hx.
  - apply orb_prop in Hx. destruct Hx as [Hx | Hx].
    + destruct x; [now split|discriminate Hx].
    + apply String.eqb_eq in Hx. subst x. now split.
  - destruct (negb (Str.nonempty (clean_markup html_get_text x))
              || String.eqb (Str.strip (clean_markup html_get_text x)) "").
    + now split.
    + apply tidy_punctuation_tidy.
Qed.


(* ===================================================================== *)
(** ** The end of the loops *)
(* ===================================================================== *)

Lemma slug_pages_ends {world : Type}
      (post_product_list : string -> Z -> Z -> world -> option pyval * world)
      (category_slug : string) (max_products page_size last : Z) :
  (forall w, no_products (fst (post_product_list category_slug last page_size w)) = true) ->
  forall (fuel : nat) (page : Z) (slugs : list pyval) (total_fetched : Z) (w : world),
    (page <= last)%Z ->
    Z.to_nat (last - page) < fuel ->
    slug_pages world post_product_list fuel category_slug max_products page_size
               page slugs total_fetched w <> Unfinished.
Proof.
  intros Hlast fuel. induction fuel as [|fuel IH]; intros page slugs total_fetched w Hle Hfuel;
    [lia|].
  cbn [slug_pages]. destruct (total_fetched <? max_products)%Z; [|discriminate].
  destruct (post_product_list category_slug page page_size w) as [[data|] w'] eqn:Hpost;
    [|discriminate].
  destruct (Z.eq_dec page last) as [-> | Hne].
  - specialize (Hlast w). rewrite Hpost in Hlast. cbn [fst no_products] in Hlast.
    unfold read_page.
    destruct (Py.get data "results" (PList [])) as [products|]; [|discriminate Hlast].
    cbn [bind]. rewrite Hlast. discriminate.
  - destruct (read_page data max_products slugs total_fetched) as [[[slugs' total']|]|];
      try discriminate.
    apply IH; lia.
Qed.

(** X17. [get_product_slugs] returns or raises, once some page of the
    category always comes back failed or without products: the loop over
    the pages makes no more turns than the number of that page. *)
Theorem get_product_slugs_ends {world : Type}
        (post_product_list : string -> Z -> Z -> world -> option pyval * world)
        (fuel : nat) (category_slug : string) (max_products page_size last : Z)
        (w : world) :
  (1 <= last)%Z ->
  (forall w0, no_products (fst (post_product_list category_slug last page_size w0)) = true) ->
  Z.to_nat last <= fuel ->
  get_product_slugs world post_product_list fuel category_slug max_products page_size w
  <> Unfinished.
Proof.
  intros Hone Hlast Hfuel. unfold get_product_slugs.
  apply (slug_pages_ends post_product_list category_slug max_products page_size last Hlast);
    lia.
Qed.

Lemma get_product_slugs_ends_witness :
  get_product_slugs requests sample_list 2 "skin-care" 10 24 0 <> Unfinished.
Proof.
  apply (get_product_slugs_ends sample_list 2 "skin-care" 10 24 2 0).
  - lia.
  - intro w0. reflexivity.
  - apply le_n.
Defined.

(** X18. Asked for no product, [scrape_products] returns the empty list
    and makes no request, whatever the categories, even none. *)
Theorem scrape_products_nothing_asked (html_get_text : string -> string)
        (world : Type)
        (post_product_list : string -> Z -> Z -> world -> option pyval * world)
        (post_product_detail : pyval -> world -> option pyval * world)
        (random_shuffle : list pyval -> world -> list pyval * world)
        (turns fuel : nat) (categories : option (list string)) (max_products : Z)
        (w : world) :
  (max_products <= 0)%Z ->
  scrape_products html_get_text world post_product_list post_product_detail
                  random_shuffle turns fuel categories max_products w
  = Returns [] w.
Proof.
  intro H. unfold scrape_products.
  assert (Hcond : (Z.of_nat (List.length (@nil row)) <? max_products)%Z = false)
    by (apply Z.ltb_ge; cbn; lia).
  destruct turns; cbn [scrape_loop]; rewrite Hcond; reflexivity.
Qed.

Lemma scrape_products_nothing_asked_witness :
  scrape_products Str.strip requests sample_list sample_detail sample_shuffle
                  0 0 (Some []) 0 0
  = Returns [] 0.
Proof.
  apply (scrape_products_nothing_asked Str.strip requests sample_list sample_detail
           sample_shuffle 0 0 (Some []) 0 0).
  lia.
Defined.

(* ===================================================================== *)
(** ** The row built by [scrape_products] *)
(* ===================================================================== *)

Lemma str_empty (v : pyval) : Py.str v = "" -> v = PStr "".
Proof.
  destruct v as [|[]|z|s|l|d]; cbn; try discriminate.
  - intro H. now apply repr_int_digit in H.
  - now intros ->.
Qed.

Lemma join_empty (sep : string) (parts : list string) :
  Str.nonempty sep = true -> parts <> [] ->
  Str.join sep parts = "" -> parts = [""].
Proof.
  intros Hsep Hparts. destruct parts as [|w [|w' ws]]; [contradiction| |].
  - cbn. now intros ->.
  - cbn [Str.join]. destruct w; [|discriminate]. destruct sep; discriminate.
Qed.

Lemma join_nonempty (sep w : string) (ws : list string) :
  Str.nonempty w = true -> Str.nonempty (Str.join sep (w :: ws)) = true.
Proof.
  destruct w; [discriminate|]. intros _. now destruct ws.
Qed.

Lemma forallb_names_filter {A : Type} (p : string -> bool) (f : string * A -> bool)
      (table : list (string * A)) :
  forallb p (List.map fst table) = true ->
  forallb p (List.map fst (filter f table)) = true.
Proof.
  induction table as [|item table IH]; [reflexivity|].
  cbn [List.map forallb filter]. intro H. apply andb_prop in H. destruct H as [Hitem H].
  destruct (f item); [|now apply IH].
  cbn [List.map forallb]. now rewrite Hitem, IH.
Qed.

(** The concerns are joined to a text that is not empty. *)
Lemma skin_concern_column (text : string) :
  Str.nonempty (match get_skin_concerns text with
                | [] => "N/A"
                | _ :: _ => Str.join ", " (get_skin_concerns text)
                end) = true.
Proof.
  assert (H : forallb Str.nonempty (get_skin_concerns text) = true).
  { rewrite get_skin_concerns_filter. unfold matching_concerns.
    apply forallb_names_filter. reflexivity. }
  destruct (get_skin_concerns text) as [|concern concerns]; [reflexivity|].
  cbn [forallb] in H. apply andb_prop in H. now apply join_nonempty.
Qed.

Lemma or_sentinel_nonempty (s : string) :
  Str.nonempty (if Str.nonempty s then s else "N/A") = true.
Proof. now destruct s. Qed.

(** C3, as amended.  When [scrape_products] builds a row, the row has the
    twelve columns, in their order.  Product line, description, images,
    price, size, ingredients, skin concern and source URL are strings; of
    these, product line, description, size, ingredients, skin concern and
    source URL are never empty, while the price is empty exactly when the
    product holds the empty string under ["price"] and the images are
    empty exactly when the product has one image, whose URL is empty.
    Identifier, name and barcode are the value the product holds under
    ["product_id"], ["name"] and ["upc"], whatever it is, and ["N/A"] when
    the key is absent; the brand name is read the same way from the
    ["brand"] dict; the price is [str] of the value under ["price"]; the
    images are the values of the ["images"] dict joined with ["|"], and
    ["N/A"] when there is none. *)
Theorem build_row_fields (html_get_text : string -> string) (slug : string)
        (prod : pyval) (r : row) :
  build_row html_get_text slug prod = Ok r ->
  exists d brand images urls,
    prod = PDict d
    /\ List.map fst r = columns
    /\ forallb (fun column => is_str (row_get r column)) computed_columns = true
    /\ forallb (fun column => nonempty_str (row_get r column)) never_empty_columns = true
    /\ row_get r "Product ID" = field_or d "product_id" (PStr "N/A")
    /\ row_get r "Product Name" = field_or d "name" (PStr "N/A")
    /\ row_get r "Barcode (EAN/UPC)" = field_or d "upc" (PStr "N/A")
    /\ field_or d "brand" (PDict []) = PDict brand
    /\ row_get r "Brand Name" = field_or brand "brand_name" (PStr "N/A")
    /\ row_get r "Price" = PStr (Py.str (field_or d "price" (PStr "N/A")))
    /\ (row_get r "Price" = PStr "" <-> field_or d "price" (PStr "N/A") = PStr "")
    /\ field_or d "images" (PDict []) = PDict images
    /\ List.map snd images = List.map PStr urls
    /\ row_get r "Product Images"
       = PStr (match urls with [] => "N/A" | _ :: _ => Str.join "|" urls end)
    /\ (row_get r "Product Images" = PStr "" <-> urls = [""])
    /\ row_get r "Source URL" = PStr (BASE ++ "/shop/product/" ++ slug).
Proof.
  intro H.
  destruct (build_row_inv _ _ _ _ H)
    as [d [brand [images [general_info [ingredients [size [line [product_images
       [-> [Hbrand [Himages [_ [_ [Hsize [Hline [Hjoin ->]]]]]]]]]]]]]]]].
  clear H.
  assert (Hurls : exists urls,
             List.map snd images = List.map PStr urls /\
             product_images
             = match urls with [] => "N/A" | _ :: _ => Str.join "|" urls end).
  { destruct images as [|image images].
    - exists []. now split.
    - unfold Py.join in Hjoin.
      destruct (mapM Py.as_str (List.map snd (image :: images))) as [parts|] eqn:Eparts;
        [|discriminate Hjoin].
      cbn [bind] in Hjoin. injection Hjoin as <-.
      apply mapM_as_str in Eparts. exists parts. split; [exact Eparts|].
      destruct parts; [discriminate Eparts|reflexivity]. }
  destruct Hurls as [urls [Hurls ->]].
  apply extract_product_line_name_shape_lemma in Hline. destruct Hline as [Hline _].
  apply extract_size_volume_shape_lemma in Hsize.
  exists d, brand, images, urls.
  remember (clean_ingredients html_get_text ingredients) as cleaned.
  remember (general_info ++ " " ++ Py.str (field_or d "name" (PStr ""))) as combined_text.
  pose proof (skin_concern_column combined_text) as Hconcern.
  remember (match get_skin_concerns combined_text with
            | [] => "N/A"
            | _ :: _ => Str.join ", " (get_skin_concerns combined_text)
            end) as skin_concern.
  pose proof (or_sentinel_nonempty general_info) as Hdescription.
  pose proof (or_sentinel_nonempty cleaned) as Hingredients.
  split; [reflexivity|]. split; [reflexivity|]. split; [reflexivity|].
  split.
  { unfold never_empty_columns. cbn [forallb].
    change (row_get _ "Product Line Name") with (PStr line).
    change (row_get _ "Product Description")
      with (PStr (if Str.nonempty general_info then general_info else "N/A")).
    change (row_get _ "Size/Volume") with (PStr size).
    change (row_get _ "Ingredients")
      with (PStr (if Str.nonempty cleaned then cleaned else "N/A")).
    change (row_get _ "Skin Concern") with (PStr skin_concern).
    change (row_get _ "Source URL") with (PStr (BASE ++ "/shop/product/" ++ slug)).
    cbn [nonempty_str]. rewrite Hdescription, Hingredients, Hconcern.
    assert (Hl : Str.nonempty line = true) by (destruct line; [contradiction|reflexivity]).
    assert (Hs : Str.nonempty size = true)
      by (destruct Hsize as [-> | [c [rest [-> _]]]]; reflexivity).
    rewrite Hl, Hs. reflexivity. }
  split; [reflexivity|]. split; [reflexivity|]. split; [reflexivity|].
  split; [exact Hbrand|]. split; [reflexivity|]. split; [reflexivity|].
  split.
  { change (row_get _ "Price") with (PStr (Py.str (field_or d "price" (PStr "N/A")))).
    split.
    - intros [= Hprice]. now apply str_empty.
    - now intros ->. }
  split; [exact Himages|]. split; [exact Hurls|]. split; [reflexivity|].
  split; [|reflexivity].
  change (row_get _ "Product Images")
    with (PStr (match urls with [] => "N/A" | _ :: _ => Str.join "|" urls end)).
  split.
  - intros [= Hempty]. destruct urls as [|u urls]; [discriminate Hempty|].
    now apply (join_empty "|").
  - now intros ->.
Qed.

Lemma build_row_fields_witness :
  exists d brand images urls,
    nivea_soft = PDict d
    /\ List.map fst nivea_soft_row = columns
    /\ forallb (fun column => is_str (row_get nivea_soft_row column)) computed_columns = true
    /\ forallb (fun column => nonempty_str (row_get nivea_soft_row column))
               never_empty_columns = true
    /\ row_get nivea_soft_row "Product ID" = field_or d "product_id" (PStr "N/A")
    /\ row_get nivea_soft_row "Product Name" = field_or d "name" (PStr "N/A")
    /\ row_get nivea_soft_row "Barcode (EAN/UPC)" = field_or d "upc" (PStr "N/A")
    /\ field_or d "brand" (PDict []) = PDict brand
    /\ row_get nivea_soft_row "Brand Name" = field_or brand "brand_name" (PStr "N/A")
    /\ row_get nivea_soft_row "Price" = PStr (Py.str (field_or d "price" (PStr "N/A")))
    /\ (row_get nivea_soft_row "Price" = PStr ""
        <-> field_or d "price" (PStr "N/A") = PStr "")
    /\ field_or d "images" (PDict []) = PDict images
    /\ List.map snd images = List.map PStr urls
    /\ row_get nivea_soft_row "Product Images"
       = PStr (match urls with [] => "N/A" | _ :: _ => Str.join "|" urls end)
    /\ (row_get nivea_soft_row "Product Images" = PStr "" <-> urls = [""])
    /\ row_get nivea_soft_row "Source URL"
       = PStr (BASE ++ "/shop/product/" ++ "nivea-soft").
Proof.
  apply (build_row_fields Str.strip "nivea-soft" nivea_soft nivea_soft_row).
  vm_compute. reflexivity.
Defined.

(** C3, as it is stated, fails on a product whose identifier is a number
    and whose barcode is [null]: both reach the row as they are. *)
Lemma number_and_null_in_row :
  exists r,
    (forall html_get_text, build_row html_get_text "hand-cream" hand_cream = Ok r) /\
    row_get r "Product ID" = PInt 101 /\
    row_get r "Barcode (EAN/UPC)" = PNone /\
    forallb (fun field => is_str (snd field)) r = false.
Proof.
  eexists. split; [intro; vm_compute; reflexivity|].
  repeat split; reflexivity.
Qed.
